(** * SmartBlueprint: health scoring and signal processing

    A shallow embedding of
      - [SmartBlueprint-Windows-Enhanced/predictive_analytics_engine.py]
        (health score, risk bucket, failure-date projection), and
      - [advanced_signal_processing.py]
        (Kalman/EWMA smoothers, RSSI to distance, triangulation guards,
        position confidence, statistical anomaly score, anomaly regions).

    Number model.  A Python [float] is read as a real number: rounding,
    NaN, the sign of zero and sums, products or quotients that overflow
    to [inf] are outside the model.  Where the source can raise (a
    division by zero, an index out of range, a power beyond the range of
    a [float]) the embedding returns [Raise]; everything else is a total
    function.  Comparisons of the source ([<], [>], [>=], [==]) are the
    decision procedures of [R]. *)

From Stdlib Require Import Reals Lra Lia String List Permutation.
From stdpp Require Import gmap strings.

Open Scope R_scope.

(** ** Python helpers *)

(** [needle in hay] on Python strings: some suffix of [hay] starts with
    [needle]. *)
Fixpoint contains (needle hay : string) : bool :=
  String.prefix needle hay ||
  match hay with
  | EmptyString => false
  | String _ rest => contains needle rest
  end.

(** [hay.endswith(suffix)]; used only to phrase the specification's
    reading of a trend feature. *)
Fixpoint endswith (suffix hay : string) : bool :=
  String.eqb suffix hay ||
  match hay with
  | EmptyString => false
  | String _ rest => endswith suffix rest
  end.

(** [sum(l)] and [np.mean(l)].  [np.mean] of an empty list is NaN in the
    source; every call site below is either guarded against the empty list
    or treats it separately. *)
Definition sum_R (l : list R) : R := fold_right Rplus 0 l.

Definition np_mean (l : list R) : R := sum_R l / INR (length l).

(** [np.std(l)]: the population standard deviation. *)
Definition np_std (l : list R) : R :=
  let mu := np_mean l in
  sqrt (np_mean (map (fun x => (x - mu) * (x - mu)) l)).

(** [max(l)] on a non-empty list, written on its head and tail. *)
Definition max_list (x : R) (xs : list R) : R := fold_left Rmax xs x.

(** [l[-k:]] and [l[:-k]] for [k > 0]: Python truncates at the start of
    the list exactly as the subtraction on [nat] does. *)
Definition last_n {A} (k : nat) (l : list A) : list A :=
  skipn (length l - k) l.

Definition all_but_last_n {A} (k : nat) (l : list A) : list A :=
  firstn (length l - k) l.

(** ** Exceptions *)

Inductive exn := ZeroDivisionError | IndexError | OverflowError.

Inductive result (A : Type) :=
| Ok (a : A)
| Raise (e : exn).

Arguments Ok {A} a.
Arguments Raise {A} e.

Definition bind {A B} (m : result A) (k : A -> result B) : result B :=
  match m with
  | Ok a => k a
  | Raise e => Raise e
  end.

Notation "'try!' x := m 'in' k" := (bind m (fun x => k))
  (at level 10, x name, m at level 100, k at level 200).

(** [a / b] on Python floats. *)
Definition py_div (a b : R) : result R :=
  if Req_dec_T b 0 then Raise ZeroDivisionError else Ok (a / b).

(** [sys.float_info.max], the largest [float]. *)
Definition float_max : R := IZR ((2 ^ 53 - 1) * 2 ^ 971).

(** [base ** e] on Python floats, for a positive base: a result beyond
    the largest float raises. *)
Definition py_pow (base e : R) : result R :=
  let value := Rpower base e in
  if Rgt_dec value float_max then Raise OverflowError else Ok value.

(** The same operators on a [np.float64] operand do not raise: numpy
    warns and returns [inf]. *)
Inductive np_float64 :=
| finite (x : R)
| inf.

(** [a / b] for a positive [a]. *)
Definition np_div (a b : R) : np_float64 :=
  if Req_dec_T b 0 then inf else finite (a / b).

(** [base ** e] for a base above 1. *)
Definition np_pow (base : R) (e : np_float64) : np_float64 :=
  match e with
  | finite x =>
      let value := Rpower base x in
      if Rgt_dec value float_max then inf else finite value
  | inf => inf
  end.

(** [min(a, b)] with a [float] [b]. *)
Definition np_min (a : np_float64) (b : R) : R :=
  match a with
  | finite x => Rmin x b
  | inf => b
  end.

(** Which operators a call runs: those of [float] when every argument is
    one, those of numpy as soon as one argument is a [np.float64], such
    as the result of [np.mean]. *)
Inductive scalar := python_float | numpy_float64.

(** [[f(x) for x in l]] where [f] may raise. *)
Fixpoint mapM {A B} (f : A -> result B) (l : list A) : result (list B) :=
  match l with
  | [] => Ok []
  | x :: xs => try! y := f x in try! ys := mapM f xs in Ok (y :: ys)
  end.

(** ** predictive_analytics_engine.py *)

(** Attributes set by [PredictiveAnalyticsEngine.__init__] and never
    reassigned. *)
Definition failure_threshold : R := 30.
Definition prediction_window_days : R := 30.

(** [calculate_health_score(features)]. *)
Definition calculate_health_score (features : gmap string R) : R :=
  let score := 100 in
  (* RSSI health impact *)
  let score :=
    match features !! "rssi_mean"%string with
    | Some rssi =>
        let score :=
          if Rlt_dec rssi (-70) then score - 20
          else if Rlt_dec rssi (-60) then score - 10
          else score in
        match features !! "rssi_std"%string with
        | Some rssi_std => if Rgt_dec rssi_std 10 then score - 15 else score
        | None => score
        end
    | None => score
    end in
  (* Response time impact *)
  let score :=
    match features !! "response_time_mean"%string with
    | Some rt =>
        let score :=
          if Rgt_dec rt 1000 then score - 25
          else if Rgt_dec rt 500 then score - 15
          else score in
        match features !! "response_time_trend"%string with
        | Some trend => if Rgt_dec trend 0 then score - 10 else score
        | None => score
        end
    | None => score
    end in
  (* Availability impact *)
  let score :=
    match features !! "uptime_ratio"%string with
    | Some uptime => score * uptime
    | None => score
    end in
  let score :=
    match features !! "disconnect_events"%string with
    | Some disconnects => score - Rmin (disconnects * 5) 30
    | None => score
    end in
  (* Error rate impact *)
  let score :=
    match features !! "error_rate"%string with
    | Some error_rate => score - Rmin (error_rate * 100) 40
    | None => score
    end in
  (* Temperature issues *)
  let score :=
    match features !! "temp_max"%string with
    | Some temp_max => if Rgt_dec temp_max 85 then score - 20 else score
    | None => score
    end in
  (* Power consumption trends *)
  let score :=
    match features !! "power_trend"%string with
    | Some power_trend => if Rgt_dec power_trend 0 then score - 10 else score
    | None => score
    end in
  Rmax 0 (Rmin 100 score).

(** [determine_risk_level(health_score)]. *)
Definition determine_risk_level (health_score : R) : string :=
  if Rge_dec health_score 80 then "low"
  else if Rge_dec health_score 60 then "medium"
  else if Rge_dec health_score 30 then "high"
  else "critical".

(** [[k for k in features.keys() if 'trend' in k]]. *)
Definition trend_features (features : gmap string R) : list string :=
  List.filter (contains "trend") (map fst (map_to_list features)).

(** [features[k] < 0] for a key of the map. *)
Definition negative_at (features : gmap string R) (k : string) : bool :=
  match features !! k with
  | Some v => if Rlt_dec v 0 then true else false
  | None => false
  end.

(** [sum(1 for k in trend_features if features[k] < 0)]. *)
Definition negative_trends (features : gmap string R) : nat :=
  length (List.filter (negative_at features) (trend_features features)).

(** [predict_failure_date(device_id, features)].  [now] is the reading of
    [datetime.now()], in days; the failure date is returned on the same
    scale.  Neither division can raise: the window is 30 days, and the
    degradation rate is only computed for a score of at most 70. *)
Definition predict_failure_date (now : R) (device_id : string)
    (features : gmap string R) : option R * R :=
  let health_score := calculate_health_score features in
  if Rgt_dec health_score 70 then (None, 0)
  else
    let negative_trends := negative_trends features in
    if (0 <? negative_trends)%nat then
      let degradation_rate := (100 - health_score) / prediction_window_days in
      let confidence := Rmin 0.9 (0.5 + INR negative_trends * 0.1) in
      let days_to_failure :=
        Rmax 1 ((health_score - failure_threshold) / degradation_rate) in
      (Some (now + days_to_failure), confidence)
    else (None, 0).

(** ** advanced_signal_processing.py: data *)

Record SignalMeasurement := {
  device_id : string;
  rssi : R;
  timestamp : R;
  location : R * R;
  frequency : R;
  channel : Z;
  snr : R
}.

Record DevicePosition := {
  dp_device_id : string;
  dp_x : R;
  dp_y : R;
  dp_confidence : R;
  dp_timestamp : R;
  dp_method : string
}.

Record AnomalyRegion := {
  center : R * R;
  radius : R;
  severity : string;
  anomaly_type : string;
  confidence : R;
  affected_devices : list string;
  ar_timestamp : R
}.

(** The dictionaries appended by [add_reference_point]. *)
Record ReferencePoint := {
  rp_device_id : string;
  position : R * R;
  rssi_range : R;
  calibrated : bool
}.

(** ** Smoothers *)

Record KalmanFilter := {
  process_variance : R;
  measurement_variance : R;
  estimate : option R;
  error_estimate : R
}.

(** [KalmanFilter.__init__]; the source's defaults are [1e-3] and [0.1]. *)
Definition KalmanFilter_init (process_variance measurement_variance : R)
    : KalmanFilter :=
  {| process_variance := process_variance;
     measurement_variance := measurement_variance;
     estimate := None;
     error_estimate := 1 |}.

(** [KalmanFilter.update]: the filter after the call and the value
    returned. *)
Definition KalmanFilter_update (self : KalmanFilter) (measurement : R)
    : result (KalmanFilter * R) :=
  match estimate self with
  | None =>
      Ok ({| process_variance := process_variance self;
             measurement_variance := measurement_variance self;
             estimate := Some measurement;
             error_estimate := error_estimate self |},
          measurement)
  | Some est =>
      (* Prediction step *)
      let prediction := est in
      let prediction_error := error_estimate self + process_variance self in
      (* Update step *)
      try! kalman_gain :=
        py_div prediction_error
          (prediction_error + measurement_variance self) in
      let new_estimate :=
        prediction + kalman_gain * (measurement - prediction) in
      Ok ({| process_variance := process_variance self;
             measurement_variance := measurement_variance self;
             estimate := Some new_estimate;
             error_estimate := (1 - kalman_gain) * prediction_error |},
          new_estimate)
  end.

Record ExponentialWeightedMovingAverage := {
  alpha : R;
  value : option R
}.

(** [ExponentialWeightedMovingAverage.__init__]; default [alpha] is [0.3]. *)
Definition ExponentialWeightedMovingAverage_init (alpha : R)
    : ExponentialWeightedMovingAverage :=
  {| alpha := alpha; value := None |}.

(** [ExponentialWeightedMovingAverage.update]. *)
Definition ExponentialWeightedMovingAverage_update
    (self : ExponentialWeightedMovingAverage) (measurement : R)
    : ExponentialWeightedMovingAverage * R :=
  let new_value :=
    match value self with
    | None => measurement
    | Some v => alpha self * measurement + (1 - alpha self) * v
    end in
  ({| alpha := alpha self; value := Some new_value |}, new_value).

(** Feeding a whole sequence of measurements, collecting the outputs. *)
Fixpoint KalmanFilter_run (self : KalmanFilter) (zs : list R)
    : result (KalmanFilter * list R) :=
  match zs with
  | [] => Ok (self, [])
  | z :: zs' =>
      try! r := KalmanFilter_update self z in
      try! rs := KalmanFilter_run (fst r) zs' in
      Ok (fst rs, snd r :: snd rs)
  end.

Fixpoint ExponentialWeightedMovingAverage_run
    (self : ExponentialWeightedMovingAverage) (zs : list R)
    : ExponentialWeightedMovingAverage * list R :=
  match zs with
  | [] => (self, [])
  | z :: zs' =>
      let r := ExponentialWeightedMovingAverage_update self z in
      let rs := ExponentialWeightedMovingAverage_run (fst r) zs' in
      (fst rs, snd r :: snd rs)
  end.

(** ** The processor *)

(** [device_positions] is a Python dict, iterated in insertion order by
    [.items()] and [.values()]: it is kept as the list of its items. *)
Record AdvancedSignalProcessor := {
  signal_history : gmap string (list SignalMeasurement);
  kalman_filters : gmap string KalmanFilter;
  ewma_filters : gmap string ExponentialWeightedMovingAverage;
  device_positions : list (string * DevicePosition);
  anomaly_regions : list AnomalyRegion;
  reference_points : list ReferencePoint;
  history_size : nat;
  smoothing_window : nat;
  triangulation_min_points : Z;
  anomaly_threshold : R
}.

(** [AdvancedSignalProcessor.__init__]. *)
Definition AdvancedSignalProcessor_init : AdvancedSignalProcessor :=
  {| signal_history := ∅;
     kalman_filters := ∅;
     ewma_filters := ∅;
     device_positions := [];
     anomaly_regions := [];
     reference_points := [];
     history_size := 100;
     smoothing_window := 10;
     triangulation_min_points := 3;
     anomaly_threshold := 2.5 |}.

(** [scipy.spatial.distance.euclidean] on points of the plane. *)
Definition euclidean (u v : R * R) : R :=
  sqrt ((fst u - fst v) ^ 2 + (snd u - snd v) ^ 2).

(** [enumerate(l)] and [l[i]]. *)
Definition enumerate {A} (l : list A) : list (nat * A) :=
  combine (seq 0 (length l)) l.

Definition py_index {A} (l : list A) (i : nat) : result A :=
  match nth_error l i with
  | Some a => Ok a
  | None => Raise IndexError
  end.

(** [rssi_to_distance(rssi, reference_rssi, path_loss_exponent)]; the
    default exponent is [2.0].  [kind] tells how the arguments arrive. *)
Definition rssi_to_distance (kind : scalar)
    (rssi reference_rssi path_loss_exponent : R) : result R :=
  if Rge_dec rssi reference_rssi then Ok 1  (* Very close *)
  else
    match kind with
    | python_float =>
        try! e := py_div (reference_rssi - rssi) (10 * path_loss_exponent) in
        try! distance := py_pow 10 e in
        Ok (Rmax 1 (Rmin distance 1000))
    | numpy_float64 =>
        let e := np_div (reference_rssi - rssi) (10 * path_loss_exponent) in
        let distance := np_pow 10 e in
        Ok (Rmax 1 (np_min distance 1000))
    end.

(** The inner [objective_function] of [solve_triangulation]. *)
Definition objective_function (positions : list (R * R)) (distances : list R)
    (point : R * R) : result R :=
  fold_left
    (fun acc ip =>
       try! error := acc in
       try! d := py_index distances (fst ip) in
       Ok (error + (euclidean point (snd ip) - d) ^ 2))
    (enumerate positions) (Ok 0).

(** [calculate_position_confidence].  The estimated position is a pair,
    which Python never takes for false, so the first guard of the source
    does not fire.  With no positions [np.mean] is NaN and
    [max(0.0, nan)] is [0.0]. *)
Definition calculate_position_confidence (positions : list (R * R))
    (distances : list R) (estimated_position : R * R) : result R :=
  try! errors :=
    mapM (fun ip =>
            let predicted_distance := euclidean estimated_position (snd ip) in
            try! d := py_index distances (fst ip) in
            Ok (Rabs (predicted_distance - d)))
         (enumerate positions) in
  match errors with
  | [] => Ok 0
  | _ =>
      let avg_error := np_mean errors in
      Ok (Rmax 0 (1 - avg_error / 100))
  end.

(** [detect_signal_anomaly(device_id, measurement)]. *)
Definition detect_signal_anomaly (self : AdvancedSignalProcessor)
    (device_id : string) (measurement : SignalMeasurement) : R :=
  match signal_history self !! device_id with
  | None => 0
  | Some history =>
      if (length history <? 10)%nat then 0
      else
        (* Calculate statistical metrics *)
        let recent_rssi := map rssi (last_n 10 history) in
        let historical_rssi := map rssi (all_but_last_n 10 history) in
        if (length historical_rssi <? 5)%nat then 0
        else
          (* Z-score anomaly detection *)
          let hist_mean := np_mean historical_rssi in
          let hist_std := np_std historical_rssi in
          if Req_dec_T hist_std 0 then 0
          else
            let current_z_score :=
              Rabs (rssi measurement - hist_mean) / hist_std in
            let anomaly_score := current_z_score in
            (* Sudden signal drops *)
            let anomaly_score :=
              if (2 <=? length recent_rssi)%nat then
                let signal_drop :=
                  nth (length recent_rssi - 2) recent_rssi 0
                  - rssi measurement in
                if Rgt_dec signal_drop 20 then anomaly_score + 2
                else anomaly_score
              else anomaly_score in
            (* Signal oscillation detection *)
            let anomaly_score :=
              if (5 <=? length recent_rssi)%nat then
                let oscillation := np_std recent_rssi in
                if Rgt_dec oscillation 15 then anomaly_score + 1
                else anomaly_score
              else anomaly_score in
            (* Normalize to 0-1 scale *)
            Rmin 1 (anomaly_score / 5)
  end.

(** The body of the scoring loop of [detect_anomaly_regions] for one
    positioned device (the source's [recent_anomaly], or [0.0]). *)
Definition recent_anomaly (self : AdvancedSignalProcessor)
    (device_id : string) : R :=
  match signal_history self !! device_id with
  | Some history =>
      if (5 <=? length history)%nat then
        np_mean (map (detect_signal_anomaly self device_id) (last_n 5 history))
      else 0
  | None => 0
  end.

Section External.

(** [scipy.optimize.minimize(objective, x0, method='L-BFGS-B')] as
    [solve_triangulation] consumes it: [Some (x0', x1')] when the call
    returns with [result.success], [None] when it reports failure or
    raises (the source catches every exception of the call). *)
Variable minimize : (R * R -> result R) -> R * R -> option (R * R).

(** [DBSCAN(eps=30, min_samples=2).fit(X).labels_]: one label per
    sample, [-1] for noise. *)
Variable dbscan_labels : list (R * R) -> list Z.

(** [solve_triangulation(positions, distances)]. *)
Definition solve_triangulation (positions : list (R * R))
    (distances : list R) : option (R * R) :=
  if (length positions <? 3)%nat then None
  else
    (* Initial guess - centroid of reference points *)
    let initial_x := np_mean (map fst positions) in
    let initial_y := np_mean (map snd positions) in
    minimize (objective_function positions distances) (initial_x, initial_y).

(** [triangulate_position(device_id)]; [now] is the reading of
    [datetime.now()]. *)
Definition triangulate_position (self : AdvancedSignalProcessor) (now : R)
    (device_id : string) : result (option DevicePosition) :=
  if (Z.of_nat (length (reference_points self))
      <? triangulation_min_points self)%Z
  then Ok None
  else
    match signal_history self !! device_id with
    | None => Ok None
    | Some history =>
        let recent_measurements := last_n 5 history in
        if (length recent_measurements <? 3)%nat then Ok None
        else
          (* Get average RSSI for stability *)
          let avg_rssi := np_mean (map rssi recent_measurements) in
          (* Collect distance estimates from reference points *)
          try! distances :=
            mapM (fun ref_point =>
                    rssi_to_distance numpy_float64 avg_rssi
                      (rssi_range ref_point) 2)
                 (reference_points self) in
          let positions := map position (reference_points self) in
          if (length distances <? 3)%nat then Ok None
          else
            match solve_triangulation positions distances with
            | Some estimated_position =>
                try! confidence :=
                  calculate_position_confidence positions distances
                    estimated_position in
                Ok (Some {| dp_device_id := device_id;
                            dp_x := fst estimated_position;
                            dp_y := snd estimated_position;
                            dp_confidence := confidence;
                            dp_timestamp := now;
                            dp_method := "triangulation" |})
            | None => Ok None
            end
    end.

(** One iteration of the cluster loop of [detect_anomaly_regions]: the
    regions appended for [cluster_id]. *)
Definition region_of_cluster (self : AdvancedSignalProcessor) (now : R)
    (positions : list (R * R)) (anomaly_scores : list R)
    (high_anomaly_positions : list (R * R)) (labels : list Z)
    (cluster_id : Z) : list AnomalyRegion :=
  if (cluster_id =? -1)%Z then []  (* Noise points *)
  else
    let cluster_points :=
      map fst
        (List.filter (fun pl => (snd pl =? cluster_id)%Z)
           (combine high_anomaly_positions labels)) in
    match cluster_points with
    | p0 :: (_ :: _) as ps =>
        (* Calculate cluster center and radius *)
        let center_x := np_mean (map fst cluster_points) in
        let center_y := np_mean (map snd cluster_points) in
        let max_distance :=
          max_list (euclidean (center_x, center_y) p0)
            (map (euclidean (center_x, center_y)) ps) in
        (* Get affected devices *)
        let affected_devices :=
          map fst
            (List.filter
               (fun item =>
                  if Rle_dec (euclidean (dp_x (snd item), dp_y (snd item))
                                (center_x, center_y)) max_distance
                  then true else false)
               (device_positions self)) in
        let avg_anomaly_score :=
          np_mean
            (map snd
               (List.filter
                  (fun ps =>
                     if Rle_dec (euclidean (fst ps) (center_x, center_y))
                          max_distance
                     then true else false)
                  (combine positions anomaly_scores))) in
        [ {| center := (center_x, center_y);
             radius := max_distance;
             severity := if Rgt_dec avg_anomaly_score 0.7
                         then "high" else "medium";
             anomaly_type := "signal_degradation";
             confidence := avg_anomaly_score;
             affected_devices := affected_devices;
             ar_timestamp := now |} ]
    | _ => []
    end.

(** [detect_anomaly_regions()]: the processor after the call and the list
    returned.  The labels of [set(clustering.labels_)] are visited once
    each; the order of that visit only fixes the order of the regions. *)
Definition detect_anomaly_regions (self : AdvancedSignalProcessor)
    (now : R) : AdvancedSignalProcessor * list AnomalyRegion :=
  match device_positions self with
  | [] => (self, [])
  | _ =>
      let positions :=
        map (fun item => (dp_x (snd item), dp_y (snd item)))
          (device_positions self) in
      let anomaly_scores :=
        map (fun item => recent_anomaly self (fst item))
          (device_positions self) in
      if (length positions <? 3)%nat then (self, [])
      else
        let high_anomaly_positions :=
          map fst
            (List.filter
               (fun ps => if Rgt_dec (snd ps) 0.5 then true else false)
               (combine positions anomaly_scores)) in
        if (length high_anomaly_positions <? 2)%nat then (self, [])
        else
          let labels := dbscan_labels high_anomaly_positions in
          let regions :=
            flat_map
              (region_of_cluster self now positions anomaly_scores
                 high_anomaly_positions labels)
              (remove_dups labels) in
          ({| signal_history := signal_history self;
              kalman_filters := kalman_filters self;
              ewma_filters := ewma_filters self;
              device_positions := device_positions self;
              anomaly_regions := regions;
              reference_points := reference_points self;
              history_size := history_size self;
              smoothing_window := smoothing_window self;
              triangulation_min_points := triangulation_min_points self;
              anomaly_threshold := anomaly_threshold self |},
           regions)
  end.

End External.

(** ** The health rules one at a time

    Each statement of [calculate_health_score] that touches [score], as a
    transformer of the running score; [health_rules] lists them in the
    order of the source. *)

Definition rule := gmap string R -> R -> R.

Definition rule_rssi_level : rule := fun features score =>
  match features !! "rssi_mean"%string with
  | Some rssi =>
      if Rlt_dec rssi (-70) then score - 20
      else if Rlt_dec rssi (-60) then score - 10
      else score
  | None => score
  end.

Definition rule_rssi_std : rule := fun features score =>
  match features !! "rssi_mean"%string, features !! "rssi_std"%string with
  | Some _, Some rssi_std => if Rgt_dec rssi_std 10 then score - 15 else score
  | _, _ => score
  end.

Definition rule_response_time_level : rule := fun features score =>
  match features !! "response_time_mean"%string with
  | Some rt =>
      if Rgt_dec rt 1000 then score - 25
      else if Rgt_dec rt 500 then score - 15
      else score
  | None => score
  end.

Definition rule_response_time_trend : rule := fun features score =>
  match features !! "response_time_mean"%string,
        features !! "response_time_trend"%string with
  | Some _, Some trend => if Rgt_dec trend 0 then score - 10 else score
  | _, _ => score
  end.

Definition rule_uptime : rule := fun features score =>
  match features !! "uptime_ratio"%string with
  | Some uptime => score * uptime
  | None => score
  end.

Definition rule_disconnects : rule := fun features score =>
  match features !! "disconnect_events"%string with
  | Some disconnects => score - Rmin (disconnects * 5) 30
  | None => score
  end.

Definition rule_error_rate : rule := fun features score =>
  match features !! "error_rate"%string with
  | Some error_rate => score - Rmin (error_rate * 100) 40
  | None => score
  end.

Definition rule_temperature : rule := fun features score =>
  match features !! "temp_max"%string with
  | Some temp_max => if Rgt_dec temp_max 85 then score - 20 else score
  | None => score
  end.

Definition rule_power : rule := fun features score =>
  match features !! "power_trend"%string with
  | Some power_trend => if Rgt_dec power_trend 0 then score - 10 else score
  | None => score
  end.

Definition pre_uptime_rules : list rule :=
  [rule_rssi_level; rule_rssi_std;
   rule_response_time_level; rule_response_time_trend].

Definition post_uptime_rules : list rule :=
  [rule_disconnects; rule_error_rate; rule_temperature; rule_power].

Definition health_rules : list rule :=
  pre_uptime_rules ++ rule_uptime :: post_uptime_rules.

(** Apply the rules from left to right to a running score. *)
Definition run_rules (features : gmap string R) (rules : list rule)
    (score : R) : R :=
  fold_left (fun score r => r features score) rules score.

(** Start at 100, run the rules, clamp. *)
Definition apply_rules (rules : list rule) (features : gmap string R) : R :=
  Rmax 0 (Rmin 100 (run_rules features rules 100)).

(** A rule that only subtracts an amount fixed by the features. *)
Definition is_deduction (r : rule) : Prop :=
  forall features,
    exists amount, forall score, r features score = score - amount.

(** The specification's reading of the trend count: features whose name
    ends in [_trend] and whose value is negative. *)
Definition spec_negative_trends (features : gmap string R) : nat :=
  length
    (List.filter (negative_at features)
       (List.filter (endswith "_trend") (map fst (map_to_list features)))).

(** Feature maps given by their items, and the lookup they induce. *)
Fixpoint assoc (k : string) (items : list (string * R)) : option R :=
  match items with
  | [] => None
  | (k', v) :: rest => if String.eqb k' k then Some v else assoc k rest
  end.

Definition features_of (items : list (string * R)) : gmap string R :=
  list_to_map items.

(** A map with a feature whose name contains, but does not end in,
    [trend]. *)
Definition trendline_features (a b c : R) : gmap string R :=
  features_of [("trendline"%string, a); ("rssi_mean"%string, b);
               ("response_time_mean"%string, c)].

(** A weak signal on a device that is up half of the time. *)
Definition half_up_features : gmap string R :=
  features_of [("rssi_mean"%string, -80); ("uptime_ratio"%string, / 2)].

(** A degraded device with one falling trend. *)
Definition falling_features (a b c : R) : gmap string R :=
  features_of [("rssi_trend"%string, a); ("rssi_mean"%string, b);
               ("response_time_mean"%string, c)].

(** The source's rules with the availability multiplier moved to the
    front. *)
Definition uptime_first_rules : list rule :=
  rule_uptime :: pre_uptime_rules ++ post_uptime_rules.

(** A measurement of a device that only differs from the next by its RSSI,
    and a processor that has stored such measurements for one device. *)
Definition measurement_of (id : string) (r : R) : SignalMeasurement :=
  {| device_id := id; rssi := r; timestamp := 0; location := (0, 0);
     frequency := 2412; channel := 6; snr := 30 |}.

Definition processor_with (id : string) (rssis : list R)
    : AdvancedSignalProcessor :=
  {| signal_history := {[ id := map (measurement_of id) rssis ]};
     kalman_filters := ∅;
     ewma_filters := ∅;
     device_positions := [];
     anomaly_regions := [];
     reference_points := [];
     history_size := 100;
     smoothing_window := 10;
     triangulation_min_points := 3;
     anomaly_threshold := 2.5 |}.

(** Six baseline samples around -50 dBm followed by ten at -60 dBm. *)
Definition stepped_rssis : list R :=
  [-49; -51; -49; -51; -49; -51] ++ repeat (-60) 10.

(** The three anchors of the repository's triangulation test, with a
    reference RSSI of -40 dBm, and a device heard three times at -30 dBm. *)
Definition reference_point_of (id : string) (p : R * R) (r : R)
    : ReferencePoint :=
  {| rp_device_id := id; position := p; rssi_range := r; calibrated := true |}.

Definition anchored_processor : AdvancedSignalProcessor :=
  {| signal_history :=
       {[ "device_01"%string :=
            map (measurement_of "device_01") [-30; -30; -30] ]};
     kalman_filters := ∅;
     ewma_filters := ∅;
     device_positions := [];
     anomaly_regions := [];
     reference_points :=
       [reference_point_of "router_01" (0, 0) (-40);
        reference_point_of "router_02" (100, 0) (-40);
        reference_point_of "router_03" (50, 100) (-40)];
     history_size := 100;
     smoothing_window := 10;
     triangulation_min_points := 3;
     anomaly_threshold := 2.5 |}.

(** A solver that reports success at its initial guess. *)
Definition minimize_at_guess (objective : R * R -> result R) (x0 : R * R)
    : option (R * R) := Some x0.

(** Whether a point lies within the radius of a region's centre. *)
Definition within_region (region : AnomalyRegion) (p : R * R) : bool :=
  if Rle_dec (euclidean p (center region)) (radius region) then true else false.

(** The coordinates of a stored position. *)
Definition coordinates (pos : DevicePosition) : R * R := (dp_x pos, dp_y pos).

(** Three devices at (0,0), (6,8) and (3,4), each with the stepped
    history, and a clustering that puts every sample in cluster 0. *)
Definition position_of (id : string) (p : R * R) : DevicePosition :=
  {| dp_device_id := id; dp_x := fst p; dp_y := snd p; dp_confidence := 1;
     dp_timestamp := 0; dp_method := "triangulation" |}.

Definition hotspot_processor : AdvancedSignalProcessor :=
  {| signal_history :=
       <[ "a"%string := map (measurement_of "a") stepped_rssis ]>
       (<[ "b"%string := map (measurement_of "b") stepped_rssis ]>
        (<[ "c"%string := map (measurement_of "c") stepped_rssis ]> ∅));
     kalman_filters := ∅;
     ewma_filters := ∅;
     device_positions :=
       [("a"%string, position_of "a" (0, 0));
        ("b"%string, position_of "b" (6, 8));
        ("c"%string, position_of "c" (3, 4))];
     anomaly_regions := [];
     reference_points := [];
     history_size := 100;
     smoothing_window := 10;
     triangulation_min_points := 3;
     anomaly_threshold := 2.5 |}.

Definition one_cluster (samples : list (R * R)) : list Z :=
  map (fun _ => 0%Z) samples.

(** The region expected around the three devices. *)
Definition hotspot_region : AnomalyRegion :=
  {| center := (3, 4); radius := 5; severity := "high";
     anomaly_type := "signal_degradation"; confidence := 1;
     affected_devices := ["a"; "b"; "c"]%string; ar_timestamp := 0 |}.

(** The residual of one anchor: the gap between its distance to the
    estimate and its measured distance. *)
Definition residual (q : R * R) (pd : (R * R) * R) : R :=
  Rabs (euclidean q (fst pd) - snd pd).


(** ** predictive_analytics_engine.py: factors, recommendations, summary *)

(** The comparisons of the source as booleans. *)
Definition Rltb (a b : R) : bool := if Rlt_dec a b then true else false.
Definition Rgtb (a b : R) : bool := if Rgt_dec a b then true else false.
Definition Rleb (a b : R) : bool := if Rle_dec a b then true else false.

(** ['k' in features and test(features['k'])]. *)
Definition feature_test (features : gmap string R) (k : string)
    (test : R -> bool) : bool :=
  match features !! k with
  | Some v => test v
  | None => false
  end.

(** [if c: l.append(s)]. *)
Definition append_if (c : bool) (l : list string) (s : string) : list string :=
  if c then l ++ [s] else l.

(** [identify_health_factors(features)]. *)
Definition identify_health_factors (features : gmap string R) : list string :=
  let factors := [] in
  let factors :=
    append_if (feature_test features "rssi_mean" (fun v => Rltb v (-70)))
      factors "Poor signal strength" in
  let factors :=
    append_if (feature_test features "rssi_std" (fun v => Rgtb v 10))
      factors "Signal instability" in
  let factors :=
    append_if (feature_test features "response_time_mean"
                 (fun v => Rgtb v 500))
      factors "High response times" in
  let factors :=
    append_if (feature_test features "uptime_ratio" (fun v => Rltb v 0.95))
      factors "Frequent disconnections" in
  let factors :=
    append_if (feature_test features "error_rate" (fun v => Rgtb v 0.05))
      factors "High error rate" in
  let factors :=
    append_if (feature_test features "temp_max" (fun v => Rgtb v 80))
      factors "Temperature concerns" in
  let factors :=
    append_if (feature_test features "power_trend" (fun v => Rgtb v 0))
      factors "Increasing power consumption" in
  factors.

(** [generate_recommendations(device_id, features, health_score)]. *)
Definition generate_recommendations (device_id : string)
    (features : gmap string R) (health_score : R) : list string :=
  let recommendations := [] in
  let recommendations :=
    if Rlt_dec health_score 30 then
      recommendations ++ ["Schedule immediate maintenance inspection"]
    else if Rlt_dec health_score 50 then
      recommendations ++ ["Plan preventive maintenance within 2 weeks"]
    else recommendations in
  let recommendations :=
    append_if (feature_test features "rssi_mean" (fun v => Rltb v (-70)))
      recommendations "Improve device positioning or add WiFi extender" in
  let recommendations :=
    append_if (feature_test features "response_time_mean"
                 (fun v => Rgtb v 1000))
      recommendations "Check network congestion and device load" in
  let recommendations :=
    append_if (feature_test features "disconnect_events" (fun v => Rgtb v 5))
      recommendations "Investigate network stability issues" in
  let recommendations :=
    append_if (feature_test features "error_rate" (fun v => Rgtb v 0.1))
      recommendations "Review device logs for error patterns" in
  let recommendations :=
    append_if (feature_test features "temp_max" (fun v => Rgtb v 85))
      recommendations "Improve device ventilation or cooling" in
  recommendations.

Record DeviceHealth := {
  dh_device_id : string;
  health_score : R;
  risk_level : string;
  predicted_failure_date : option R;
  dh_confidence : R;
  contributing_factors : list string;
  recommendations : list string;
  last_updated : R
}.

(** An entry of [devices_needing_attention]. *)
Record AttentionEntry := {
  ae_device_id : string;
  ae_health_score : R;
  ae_risk_level : string;
  ae_predicted_failure : option R
}.

(** The dictionary returned by [get_device_health_summary]. *)
Record HealthSummary := {
  total_devices : nat;
  healthy_devices : nat;
  at_risk_devices : nat;
  critical_devices : nat;
  average_health_score : R;
  devices_needing_attention : list AttentionEntry
}.

(** One iteration of the loop of [get_device_health_summary]. *)
Definition summary_step (summary : HealthSummary)
    (item : string * DeviceHealth) : HealthSummary :=
  let health := snd item in
  if String.eqb (risk_level health) "low" then
    {| total_devices := total_devices summary;
       healthy_devices := healthy_devices summary + 1;
       at_risk_devices := at_risk_devices summary;
       critical_devices := critical_devices summary;
       average_health_score := average_health_score summary;
       devices_needing_attention := devices_needing_attention summary |}
  else if String.eqb (risk_level health) "medium"
          || String.eqb (risk_level health) "high" then
    {| total_devices := total_devices summary;
       healthy_devices := healthy_devices summary;
       at_risk_devices := at_risk_devices summary + 1;
       critical_devices := critical_devices summary;
       average_health_score := average_health_score summary;
       devices_needing_attention := devices_needing_attention summary |}
  else
    {| total_devices := total_devices summary;
       healthy_devices := healthy_devices summary;
       at_risk_devices := at_risk_devices summary;
       critical_devices := critical_devices summary + 1;
       average_health_score := average_health_score summary;
       devices_needing_attention :=
         devices_needing_attention summary ++
         [ {| ae_device_id := fst item;
              ae_health_score := health_score health;
              ae_risk_level := risk_level health;
              ae_predicted_failure := predicted_failure_date health |} ] |}.

(** [get_device_health_summary()]; [device_health] is the dictionary of
    the engine, as the list of its items. *)
Definition get_device_health_summary
    (device_health : list (string * DeviceHealth)) : HealthSummary :=
  let summary :=
    {| total_devices := length device_health;
       healthy_devices := 0;
       at_risk_devices := 0;
       critical_devices := 0;
       average_health_score := 0;
       devices_needing_attention := [] |} in
  match device_health with
  | [] => summary
  | _ =>
      let health_scores := map (fun item => health_score (snd item))
                             device_health in
      let summary := fold_left summary_step device_health summary in
      {| total_devices := total_devices summary;
         healthy_devices := healthy_devices summary;
         at_risk_devices := at_risk_devices summary;
         critical_devices := critical_devices summary;
         average_health_score := np_mean health_scores;
         devices_needing_attention := devices_needing_attention summary |}
  end.

(** Whether a health record falls into the last branch of the loop. *)
Definition counts_as_critical (health : DeviceHealth) : bool :=
  negb (String.eqb (risk_level health) "low"
        || (String.eqb (risk_level health) "medium"
            || String.eqb (risk_level health) "high")).

Definition attention_of (item : string * DeviceHealth) : AttentionEntry :=
  {| ae_device_id := fst item;
     ae_health_score := health_score (snd item);
     ae_risk_level := risk_level (snd item);
     ae_predicted_failure := predicted_failure_date (snd item) |}.

(** A telemetry record as handed to [add_device_telemetry] (its timestamp
    may be missing) and as stored (it never is).  Times are in days. *)
Record Telemetry := {
  tm_timestamp : option R;
  tm_values : gmap string R
}.

Record StoredTelemetry := {
  st_timestamp : R;
  st_values : gmap string R
}.

(** [min_data_points], set by [__init__] and never reassigned. *)
Definition min_data_points : nat := 10.

(** [add_device_telemetry(device_id, telemetry)]: the history after the
    call, and whether a health update of the device was scheduled. *)
Definition add_device_telemetry
    (device_history : gmap string (list StoredTelemetry)) (now : R)
    (device_id : string) (telemetry : Telemetry)
    : gmap string (list StoredTelemetry) * bool :=
  let old :=
    match device_history !! device_id with
    | Some l => l
    | None => []
    end in
  (* Add timestamp if not present *)
  let stored :=
    {| st_timestamp :=
         match tm_timestamp telemetry with
         | Some t => t
         | None => now
         end;
       st_values := tm_values telemetry |} in
  let appended := old ++ [stored] in
  (* Keep only recent data (last 30 days) *)
  let cutoff_date := now - 30 in
  let kept :=
    List.filter (fun data => Rgtb (st_timestamp data) cutoff_date) appended in
  (<[device_id := kept]> device_history,
   (min_data_points <=? length kept)%nat).

(** ** advanced_signal_processing.py: quality, history, ingest *)

(** A dictionary literal with float values. *)
Definition py_dict (items : list (string * R)) : gmap string R :=
  list_to_map items.

(** The dictionary returned for a device without enough data. *)
Definition no_signal_quality : gmap string R :=
  py_dict [("overall"%string, 0); ("stability"%string, 0);
           ("strength"%string, 0)].

(** [calculate_signal_quality(device_id)]. *)
Definition calculate_signal_quality (self : AdvancedSignalProcessor)
    (device_id : string) : gmap string R :=
  match signal_history self !! device_id with
  | None => no_signal_quality
  | Some history =>
      if (length history <? 5)%nat then no_signal_quality
      else
        let recent_rssi := map rssi (last_n 10 history) in
        (* Signal strength score (normalize -100 to -30 dBm) *)
        let avg_rssi := np_mean recent_rssi in
        let strength_score := Rmax 0 (Rmin 1 ((avg_rssi + 100) / 70)) in
        (* Signal stability score (inverse of variance) *)
        let stability_score := Rmax 0 (1 - np_std recent_rssi / 30) in
        (* Overall quality (weighted combination) *)
        let overall_score := 0.6 * strength_score + 0.4 * stability_score in
        py_dict [("overall"%string, overall_score);
                 ("stability"%string, stability_score);
                 ("strength"%string, strength_score);
                 ("rssi_mean"%string, avg_rssi);
                 ("rssi_std"%string, np_std recent_rssi)]
  end.

(** [abs((m.timestamp - timestamp).total_seconds()) <= window], with the
    timestamps of the processor read in seconds. *)
Definition within_seconds (window t : R) (m : SignalMeasurement) : bool :=
  Rleb (Rabs (timestamp m - t)) window.

(** [calculate_signal_quality_at_time(device_id, timestamp)]. *)
Definition calculate_signal_quality_at_time (self : AdvancedSignalProcessor)
    (device_id : string) (timestamp : R) : gmap string R :=
  match signal_history self !! device_id with
  | None => no_signal_quality
  | Some history =>
      (* Get measurements within time window: 5 minutes *)
      let relevant_measurements :=
        List.filter (within_seconds 300 timestamp) history in
      if (length relevant_measurements <? 3)%nat then no_signal_quality
      else
        let rssi_values := map rssi relevant_measurements in
        let avg_rssi := np_mean rssi_values in
        let strength_score := Rmax 0 (Rmin 1 ((avg_rssi + 100) / 70)) in
        let stability_score := Rmax 0 (1 - np_std rssi_values / 30) in
        let overall_score := 0.6 * strength_score + 0.4 * stability_score in
        py_dict [("overall"%string, overall_score);
                 ("stability"%string, stability_score);
                 ("strength"%string, strength_score)]
  end.

(** [add_reference_point(device_id, x, y, rssi_range)]. *)
Definition add_reference_point (self : AdvancedSignalProcessor)
    (device_id : string) (x y rssi_range : R) : AdvancedSignalProcessor :=
  {| signal_history := signal_history self;
     kalman_filters := kalman_filters self;
     ewma_filters := ewma_filters self;
     device_positions := device_positions self;
     anomaly_regions := anomaly_regions self;
     reference_points :=
       reference_points self ++
       [ {| rp_device_id := device_id; position := (x, y);
            rssi_range := rssi_range; calibrated := true |} ];
     history_size := history_size self;
     smoothing_window := smoothing_window self;
     triangulation_min_points := triangulation_min_points self;
     anomaly_threshold := anomaly_threshold self |}.

Section ExternalHistorical.

Variable minimize : (R * R -> result R) -> R * R -> option (R * R).

(** [triangulate_position_at_time(device_id, timestamp)]. *)
Definition triangulate_position_at_time (self : AdvancedSignalProcessor)
    (device_id : string) (timestamp : R) : result (option DevicePosition) :=
  match signal_history self !! device_id with
  | None => Ok None
  | Some history =>
      (* Get measurements within 30 seconds of timestamp *)
      let relevant_measurements :=
        List.filter (within_seconds 30 timestamp) history in
      if (length relevant_measurements <? 1)%nat then Ok None
      else
        (* Use average RSSI from relevant measurements *)
        let avg_rssi := np_mean (map rssi relevant_measurements) in
        try! distances :=
          mapM (fun ref_point =>
                  rssi_to_distance numpy_float64 avg_rssi
                    (rssi_range ref_point) 2)
               (reference_points self) in
        let positions := map position (reference_points self) in
        if (3 <=? length distances)%nat then
          match solve_triangulation minimize positions distances with
          | Some estimated_position =>
              try! confidence :=
                calculate_position_confidence positions distances
                  estimated_position in
              Ok (Some {| dp_device_id := device_id;
                          dp_x := fst estimated_position;
                          dp_y := snd estimated_position;
                          dp_confidence := confidence;
                          dp_timestamp := timestamp;
                          dp_method := "historical_triangulation" |})
          | None => Ok None
          end
        else Ok None
  end.

End ExternalHistorical.

(** ** Well-formed filters and quality dictionaries *)

(** A filter whose variances make every gain well defined. *)
Definition kalman_sane (self : KalmanFilter) : Prop :=
  0 <= process_variance self /\ 0 < measurement_variance self /\
  0 <= error_estimate self.

(** The three scores of a quality dictionary. *)
Definition quality_scores (q : gmap string R) (overall stability strength : R)
    : Prop :=
  q !! "overall"%string = Some overall /\
  q !! "stability"%string = Some stability /\
  q !! "strength"%string = Some strength.

(** ** Ingest *)

(** What [process_signal_measurement] can raise: a missing dictionary key,
    or an exception of the code it calls. *)
Inductive ingest_exn := KeyError | Other (e : exn).

Inductive outcome (A : Type) :=
| Done (a : A)
| Failed (e : ingest_exn).

Arguments Done {A} a.
Arguments Failed {A} e.

(** [d.append(x)] on a [deque(maxlen=n)]: a full deque drops its oldest
    entry, and a deque of capacity 0 stays empty. *)
Definition deque_append {A} (maxlen : nat) (d : list A) (x : A) : list A :=
  last_n maxlen (d ++ [x]).

(** [d[k] = v] on a dictionary kept as the list of its items: an existing
    key keeps its place, a new one goes last. *)
Fixpoint dict_set {V} (k : string) (v : V) (items : list (string * V))
    : list (string * V) :=
  match items with
  | [] => [(k, v)]
  | (k', v') :: rest =>
      if String.eqb k' k then (k', v) :: rest
      else (k', v') :: dict_set k v rest
  end.

(** The dictionary returned by [process_signal_measurement]. *)
Record ProcessedMeasurement := {
  pm_device_id : string;
  original_rssi : R;
  kalman_rssi : R;
  ewma_rssi : R;
  smoothed_measurement : SignalMeasurement;
  pm_position : option DevicePosition;
  anomaly_score : R;
  signal_quality : gmap string R;
  pm_timestamp : R
}.

Section ExternalIngest.

Variable minimize : (R * R -> result R) -> R * R -> option (R * R).

(** [process_signal_measurement(measurement)]: the processor after the
    call and the dictionary returned.  The history of a device is a deque
    created with [maxlen=self.history_size], an attribute that is never
    reassigned. *)
Definition process_signal_measurement (self : AdvancedSignalProcessor)
    (now : R) (measurement : SignalMeasurement)
    : outcome (AdvancedSignalProcessor * ProcessedMeasurement) :=
  let id := device_id measurement in
  (* Initialize filters if needed *)
  let maps :=
    match kalman_filters self !! id with
    | None =>
        (<[id := KalmanFilter_init 0.001 0.1]> (kalman_filters self),
         <[id := ExponentialWeightedMovingAverage_init 0.3]>
           (ewma_filters self),
         <[id := []]> (signal_history self))
    | Some _ => (kalman_filters self, ewma_filters self, signal_history self)
    end in
  let kalmans := fst (fst maps) in
  let ewmas := snd (fst maps) in
  let histories := snd maps in
  (* Apply signal smoothing *)
  match kalmans !! id with
  | None => Failed KeyError
  | Some kalman =>
      match KalmanFilter_update kalman (rssi measurement) with
      | Raise e => Failed (Other e)
      | Ok (kalman', kalman_rssi) =>
          match ewmas !! id with
          | None => Failed KeyError
          | Some ewma =>
              let ewma_out :=
                ExponentialWeightedMovingAverage_update ewma
                  (rssi measurement) in
              let ewma_rssi := snd ewma_out in
              (* Store in history *)
              let smoothed_measurement :=
                {| device_id := id;
                   rssi := kalman_rssi;
                   timestamp := timestamp measurement;
                   location := location measurement;
                   frequency := frequency measurement;
                   channel := channel measurement;
                   snr := snr measurement |} in
              match histories !! id with
              | None => Failed KeyError
              | Some history =>
                  let stored :=
                    {| signal_history :=
                         <[id := deque_append (history_size self) history
                                   smoothed_measurement]> histories;
                       kalman_filters := <[id := kalman']> kalmans;
                       ewma_filters := <[id := fst ewma_out]> ewmas;
                       device_positions := device_positions self;
                       anomaly_regions := anomaly_regions self;
                       reference_points := reference_points self;
                       history_size := history_size self;
                       smoothing_window := smoothing_window self;
                       triangulation_min_points :=
                         triangulation_min_points self;
                       anomaly_threshold := anomaly_threshold self |} in
                  (* Perform multi-point triangulation *)
                  match triangulate_position minimize stored now id with
                  | Raise e => Failed (Other e)
                  | Ok position =>
                      (* Detect anomalies *)
                      let anomaly_score :=
                        detect_signal_anomaly stored id measurement in
                      (* Update device position if valid *)
                      let self' :=
                        match position with
                        | Some p =>
                            {| signal_history := signal_history stored;
                               kalman_filters := kalman_filters stored;
                               ewma_filters := ewma_filters stored;
                               device_positions :=
                                 dict_set id p (device_positions stored);
                               anomaly_regions := anomaly_regions stored;
                               reference_points := reference_points stored;
                               history_size := history_size stored;
                               smoothing_window := smoothing_window stored;
                               triangulation_min_points :=
                                 triangulation_min_points stored;
                               anomaly_threshold := anomaly_threshold stored |}
                        | None => stored
                        end in
                      Done (self',
                            {| pm_device_id := id;
                               original_rssi := rssi measurement;
                               kalman_rssi := kalman_rssi;
                               ewma_rssi := ewma_rssi;
                               smoothed_measurement := smoothed_measurement;
                               pm_position := position;
                               anomaly_score := anomaly_score;
                               signal_quality :=
                                 calculate_signal_quality self' id;
                               pm_timestamp := timestamp measurement |})
                  end
              end
          end
      end
  end.

(** Ingesting a sequence of measurements, each with the clock reading at
    its arrival, collecting what is returned. *)
Fixpoint process_all (self : AdvancedSignalProcessor)
    (arrivals : list (R * SignalMeasurement))
    : outcome (AdvancedSignalProcessor * list ProcessedMeasurement) :=
  match arrivals with
  | [] => Done (self, [])
  | (now, m) :: rest =>
      match process_signal_measurement self now m with
      | Failed e => Failed e
      | Done (self1, r) =>
          match process_all self1 rest with
          | Failed e => Failed e
          | Done (self2, rs) => Done (self2, r :: rs)
          end
      end
  end.

End ExternalIngest.

(** A processor as ingest leaves it: a device with a Kalman filter also
    has an EWMA and a history, every Kalman filter has variances that keep
    its gain defined, and no history exceeds the capacity. *)
Definition processor_ok (self : AdvancedSignalProcessor) : Prop :=
  (forall id, is_Some (kalman_filters self !! id) ->
              is_Some (ewma_filters self !! id) /\
              is_Some (signal_history self !! id)) /\
  (forall id kalman, kalman_filters self !! id = Some kalman ->
                     kalman_sane kalman) /\
  (forall id history, signal_history self !! id = Some history ->
                      (length history <= history_size self)%nat).

(** Two positioned devices and a region left by an earlier call. *)
Definition sparse_processor : AdvancedSignalProcessor :=
  {| signal_history := ∅;
     kalman_filters := ∅;
     ewma_filters := ∅;
     device_positions :=
       [("a"%string, position_of "a" (0, 0));
        ("b"%string, position_of "b" (6, 8))];
     anomaly_regions := [hotspot_region];
     reference_points := [];
     history_size := 100;
     smoothing_window := 10;
     triangulation_min_points := 3;
     anomaly_threshold := 2.5 |}.

(** ** Heatmap *)

(** [np.linspace(start, stop, num)]. *)
Definition linspace (start stop : R) (num : nat) : list R :=
  match num with
  | 0%nat => []
  | 1%nat => [start]
  | _ =>
      map (fun i => start + INR i * ((stop - start) / INR (num - 1)))
        (seq 0 num)
  end.

(** [np.average(values, weights=weights)], which refuses weights that sum
    to zero. *)
Definition np_average (values weights : list R) : result R :=
  let total := sum_R weights in
  if Req_dec_T total 0 then Raise ZeroDivisionError
  else Ok (sum_R (map (fun vw => fst vw * snd vw) (combine values weights))
           / total).

(** The weight of a signal point at a given distance of the cell.
    [euclidean] returns a built-in float, so the square is one too. *)
Definition idw_weight (distance : R) : result R :=
  if Rlt_dec distance 1 then Ok 1  (* Very close *)
  else
    try! square := py_pow distance 2 in
    py_div 1 square.

(** The interpolated signal of a grid point. *)
Definition cell_signal (signal_points : list ((R * R) * R))
    (grid_point : R * R) : result R :=
  try! weights :=
    mapM (fun sp => idw_weight (euclidean grid_point (fst sp)))
      signal_points in
  let values := map snd signal_points in
  match weights with
  | [] => Ok 0
  | _ => np_average values weights
  end.

(** The anomaly overlay of a grid point.  The radius of a stored region
    is the built-in float [detect_anomaly_regions] took from
    [euclidean], so the quotient is a division of built-in floats. *)
Definition cell_anomaly (regions : list AnomalyRegion) (grid_point : R * R)
    : result R :=
  fold_left
    (fun acc region =>
       try! current := acc in
       let distance_to_center := euclidean grid_point (center region) in
       if Rle_dec distance_to_center (radius region) then
         try! ratio := py_div distance_to_center (radius region) in
         let anomaly_intensity := 1 - ratio in
         Ok (Rmax current (anomaly_intensity * confidence region))
       else Ok current)
    regions (Ok 0).

(** The body of the cell loop: signal first, overlay second. *)
Definition heatmap_cell (signal_points : list ((R * R) * R))
    (regions : list AnomalyRegion) (grid_point : R * R) : result (R * R) :=
  try! signal := cell_signal signal_points grid_point in
  try! anomaly := cell_anomaly regions grid_point in
  Ok (signal, anomaly).

(** An entry of the [anomaly_regions] list of the heatmap. *)
Record RegionView := {
  rv_center : R * R;
  rv_radius : R;
  rv_severity : string;
  rv_confidence : R;
  rv_affected_devices : list string
}.

Definition region_view (region : AnomalyRegion) : RegionView :=
  {| rv_center := center region;
     rv_radius := radius region;
     rv_severity := severity region;
     rv_confidence := confidence region;
     rv_affected_devices := affected_devices region |}.

(** The dictionary returned by [generate_signal_heatmap]; the last two
    keys are absent from the empty heatmap. *)
Record Heatmap := {
  x_grid : list (list R);
  y_grid : list (list R);
  signal_strength : list (list R);
  anomaly_overlay : list (list R);
  hm_anomaly_regions : option (list RegionView);
  hm_timestamp : option R
}.

(** The signal points: position and mean of the last five stored RSSI of
    every positioned device with a non-empty history. *)
Definition signal_points_of (self : AdvancedSignalProcessor)
    : list ((R * R) * R) :=
  flat_map
    (fun item =>
       match signal_history self !! fst item with
       | Some ((_ :: _) as history) =>
           [ (coordinates (snd item),
              np_mean (map rssi (last_n 5 history))) ]
       | _ => []
       end)
    (device_positions self).

(** The points of [np.meshgrid(x_grid, y_grid)], row by row. *)
Definition meshgrid (x_line y_line : list R) : list (list (R * R)) :=
  map (fun y => map (fun x => (x, y)) x_line) y_line.

(** [generate_signal_heatmap(grid_resolution, room_bounds)]. *)
Definition generate_signal_heatmap (self : AdvancedSignalProcessor) (now : R)
    (grid_resolution : nat) (room_bounds : R * R * R * R) : result Heatmap :=
  let '(x_min, y_min, x_max, y_max) := room_bounds in
  (* Create grid *)
  let x_line := linspace x_min x_max grid_resolution in
  let y_line := linspace y_min y_max grid_resolution in
  let grid := meshgrid x_line y_line in
  let X := map (map fst) grid in
  let Y := map (map snd) grid in
  let zeros := map (map (fun _ => 0)) grid in
  (* Collect signal data points *)
  let signal_points := signal_points_of self in
  if (length signal_points <? 3)%nat then
    (* Return empty heatmap *)
    Ok {| x_grid := X; y_grid := Y;
          signal_strength := zeros; anomaly_overlay := zeros;
          hm_anomaly_regions := None; hm_timestamp := None |}
  else
    try! cells :=
      mapM (mapM (heatmap_cell signal_points (anomaly_regions self))) grid in
    Ok {| x_grid := X; y_grid := Y;
          signal_strength := map (map fst) cells;
          anomaly_overlay := map (map snd) cells;
          hm_anomaly_regions :=
            Some (map region_view (anomaly_regions self));
          hm_timestamp := Some now |}.

(** An [n] by [m] grid whose cells all satisfy [P]. *)
Definition grid_of (n m : nat) (P : R -> Prop) (g : list (list R)) : Prop :=
  length g = n /\ Forall (fun row => length row = m /\ Forall P row) g.

(** A bound on coordinates that keeps every squared distance of the cell
    loop a float. *)
Definition coordinate_limit : R := IZR (10 ^ 150).

Definition within_limit (p : R * R) : Prop :=
  Rabs (fst p) <= coordinate_limit /\ Rabs (snd p) <= coordinate_limit.

(** [self] with the regions a clustering run stored. *)
Definition with_regions (self : AdvancedSignalProcessor)
    (regions : list AnomalyRegion) : AdvancedSignalProcessor :=
  {| signal_history := signal_history self;
     kalman_filters := kalman_filters self;
     ewma_filters := ewma_filters self;
     device_positions := device_positions self;
     anomaly_regions := regions;
     reference_points := reference_points self;
     history_size := history_size self;
     smoothing_window := smoothing_window self;
     triangulation_min_points := triangulation_min_points self;
     anomaly_threshold := anomaly_threshold self |}.

(** The region of a cluster whose devices all sit at the origin. *)
Definition collapsed_region : AnomalyRegion :=
  {| center := (0, 0); radius := 0; severity := "high";
     anomaly_type := "signal_degradation"; confidence := 1;
     affected_devices := ["a"]%string; ar_timestamp := 0 |}.

(** ** Trajectory *)

(** Time is counted in seconds from [datetime.min]; every [datetime] lies
    below [datetime_end], the first instant of the year 10000. *)
Definition datetime_end : R := 315537897600.

(** [timedelta(hours=h)] for an [int], in seconds: a [timedelta] spans at
    most 999999999 days either way. *)
Definition timedelta_hours (h : Z) : result R :=
  if ((h / 24 <? -999999999) || (999999999 <? h / 24))%Z
  then Raise OverflowError
  else Ok (IZR h * 3600).

(** [t - delta] for a [datetime] and a [timedelta]. *)
Definition datetime_sub (t delta : R) : result R :=
  let r := t - delta in
  if Rlt_dec r 0 then Raise OverflowError
  else if Rge_dec r datetime_end then Raise OverflowError
  else Ok r.

(** An entry of the list returned by [get_device_trajectory]. *)
Record TrajectoryPoint := {
  tp_timestamp : R;
  tp_rssi : R;
  tp_x : option R;
  tp_y : option R;
  tp_confidence : R;
  tp_signal_quality : gmap string R;
  tp_anomaly_score : R
}.

Section ExternalTrajectory.

Variable minimize : (R * R -> result R) -> R * R -> option (R * R).

(** The body of the loop of [get_device_trajectory]. *)
Definition trajectory_point (self : AdvancedSignalProcessor)
    (device_id : string) (measurement : SignalMeasurement)
    : result TrajectoryPoint :=
  (* Try to get position at this timestamp *)
  try! position :=
    triangulate_position_at_time minimize self device_id
      (timestamp measurement) in
  Ok {| tp_timestamp := timestamp measurement;
        tp_rssi := rssi measurement;
        tp_x := match position with Some p => Some (dp_x p) | None => None end;
        tp_y := match position with Some p => Some (dp_y p) | None => None end;
        tp_confidence :=
          match position with Some p => dp_confidence p | None => 0 end;
        tp_signal_quality :=
          calculate_signal_quality_at_time self device_id
            (timestamp measurement);
        tp_anomaly_score :=
          detect_signal_anomaly self device_id measurement |}.

(** [get_device_trajectory(device_id, time_window_hours)], the window an
    [int] as annotated; [now] is the reading of [datetime.now()]. *)
Definition get_device_trajectory (self : AdvancedSignalProcessor) (now : R)
    (device_id : string) (time_window_hours : Z)
    : result (list TrajectoryPoint) :=
  match signal_history self !! device_id with
  | None => Ok []
  | Some stored =>
      try! window := timedelta_hours time_window_hours in
      try! cutoff_time := datetime_sub now window in
      let history :=
        List.filter (fun m => Rgtb (timestamp m) cutoff_time) stored in
      mapM (trajectory_point self device_id) history
  end.

End ExternalTrajectory.
(** * Proofs *)

(** Case analysis on every comparison of the goal and the context. *)
Ltac r_cases :=
  repeat match goal with
  | |- context [Rlt_dec ?a ?b] => destruct (Rlt_dec a b)
  | |- context [Rgt_dec ?a ?b] => destruct (Rgt_dec a b)
  | |- context [Rge_dec ?a ?b] => destruct (Rge_dec a b)
  | |- context [Rle_dec ?a ?b] => destruct (Rle_dec a b)
  | H : context [Rlt_dec ?a ?b] |- _ => destruct (Rlt_dec a b)
  | H : context [Rgt_dec ?a ?b] |- _ => destruct (Rgt_dec a b)
  | H : context [Rge_dec ?a ?b] |- _ => destruct (Rge_dec a b)
  | H : context [Rle_dec ?a ?b] |- _ => destruct (Rle_dec a b)
  end.

Ltac r_minmax := unfold Rmax, Rmin in *; r_cases; try lra.

Lemma clamp_range (s : R) : 0 <= Rmax 0 (Rmin 100 s) <= 100.
Proof. r_minmax. Qed.

Lemma lookup_features_of (items : list (string * R)) (k : string) :
  features_of items !! k = assoc k items.
Proof.
  unfold features_of. induction items as [|[k' v] rest IH]; simpl.
  - apply lookup_empty.
  - destruct (String.eqb_spec k' k) as [->|Hne].
    + apply lookup_insert_eq.
    + rewrite lookup_insert_ne by exact Hne. exact IH.
Qed.

(** Evaluate the lookups of a feature map given by its items. *)
Ltac eval_lookups :=
  rewrite ?lookup_features_of;
  cbn [assoc String.eqb Ascii.eqb Bool.eqb andb].

(** ** Health score *)

Lemma calculate_health_score_rules (features : gmap string R) :
  calculate_health_score features = apply_rules health_rules features.
Proof.
  unfold calculate_health_score, apply_rules, run_rules, health_rules,
    pre_uptime_rules,
    post_uptime_rules, rule_rssi_level, rule_rssi_std,
    rule_response_time_level, rule_response_time_trend, rule_uptime,
    rule_disconnects, rule_error_rate, rule_temperature, rule_power.
  simpl.
  destruct (features !! "rssi_mean"%string),
           (features !! "rssi_std"%string),
           (features !! "response_time_mean"%string),
           (features !! "response_time_trend"%string); reflexivity.
Qed.

(** C1. The health score lies in [0,100] for every feature map, and the
    risk bucket depends on the score alone: at least 80 is low, at least 60
    medium, at least 30 high, anything lower critical. *)
Theorem health_score_range_and_risk_bucket (features : gmap string R) :
  0 <= calculate_health_score features <= 100 /\
  forall s : R,
    (80 <= s -> determine_risk_level s = "low"%string) /\
    (60 <= s < 80 -> determine_risk_level s = "medium"%string) /\
    (30 <= s < 60 -> determine_risk_level s = "high"%string) /\
    (s < 30 -> determine_risk_level s = "critical"%string).
Proof.
  split.
  - apply clamp_range.
  - intros s. unfold determine_risk_level.
    repeat split; intros H; r_cases; try reflexivity; lra.
Qed.

Lemma health_score_empty : calculate_health_score ∅ = 100.
Proof.
  unfold calculate_health_score. rewrite !lookup_empty. r_minmax.
Qed.

(** A device without any feature scores 100 and is a low risk. *)
Lemma health_score_range_and_risk_bucket_witness :
  determine_risk_level (calculate_health_score ∅) = "low"%string.
Proof.
  apply (proj2 (health_score_range_and_risk_bucket ∅)).
  rewrite health_score_empty. lra.
Defined.

(** ** Failure-date projection *)

Lemma predict_failure_date_healthy now device_id features :
  calculate_health_score features > 70 ->
  predict_failure_date now device_id features = (None, 0).
Proof.
  intros Hs. unfold predict_failure_date.
  destruct (Rgt_dec _ 70) as [_|Hn]; [reflexivity | contradiction].
Qed.

Lemma predict_failure_date_no_trend now device_id features :
  negative_trends features = 0%nat ->
  predict_failure_date now device_id features = (None, 0).
Proof.
  intros Hneg. unfold predict_failure_date. rewrite Hneg. simpl.
  destruct (Rgt_dec _ 70); reflexivity.
Qed.

Lemma predict_failure_date_degrading now device_id features :
  calculate_health_score features <= 70 ->
  (0 < negative_trends features)%nat ->
  predict_failure_date now device_id features =
    (Some (now + Rmax 1 ((calculate_health_score features - 30)
                         / ((100 - calculate_health_score features) / 30))),
     Rmin 0.9 (0.5 + 0.1 * INR (negative_trends features))).
Proof.
  intros Hs Hneg. unfold predict_failure_date.
  destruct (Rgt_dec _ 70) as [Hgt|_]; [lra|].
  apply Nat.ltb_lt in Hneg. rewrite Hneg.
  unfold failure_threshold, prediction_window_days.
  do 2 f_equal. lra.
Qed.

(** C4, as the code has it.  Above 70 there is no failure date; at or
    below 70 there is none either when no feature whose name contains
    [trend] is negative; otherwise, with [neg] such features, the
    confidence is min(0.9, 0.5 + 0.1 neg) and the date lies
    max(1, (s - 30) / r) days ahead, r = (100 - s) / 30. *)
Theorem predict_failure_date_cases (now : R) (device_id : string)
    (features : gmap string R) :
  let s := calculate_health_score features in
  let neg := negative_trends features in
  (s > 70 -> predict_failure_date now device_id features = (None, 0)) /\
  (s <= 70 -> neg = 0%nat ->
   predict_failure_date now device_id features = (None, 0)) /\
  (s <= 70 -> (0 < neg)%nat ->
   predict_failure_date now device_id features =
     (Some (now + Rmax 1 ((s - 30) / ((100 - s) / 30))),
      Rmin 0.9 (0.5 + 0.1 * INR neg))).
Proof.
  cbv zeta. split; [|split].
  - apply predict_failure_date_healthy.
  - intros _. apply predict_failure_date_no_trend.
  - apply predict_failure_date_degrading.
Qed.

Lemma trend_features_trendline a b c :
  trend_features (trendline_features a b c) = ["trendline"%string].
Proof. vm_compute. reflexivity. Qed.

Lemma suffix_features_trendline a b c :
  List.filter (endswith "_trend")
    (map fst (map_to_list (trendline_features a b c))) = [].
Proof. vm_compute. reflexivity. Qed.

Lemma trend_features_falling a b c :
  trend_features (falling_features a b c) = ["rssi_trend"%string].
Proof. vm_compute. reflexivity. Qed.

Lemma trend_features_half_up : trend_features half_up_features = [].
Proof.
  unfold half_up_features. generalize (-80) (/ 2). intros a b.
  vm_compute. reflexivity.
Qed.

Lemma health_score_trendline :
  calculate_health_score (trendline_features (-1) (-80) 2000) = 55.
Proof.
  unfold calculate_health_score, trendline_features. eval_lookups. r_minmax.
Qed.

Lemma health_score_falling :
  calculate_health_score (falling_features (-1) (-80) 2000) = 55.
Proof.
  unfold calculate_health_score, falling_features. eval_lookups. r_minmax.
Qed.

Lemma health_score_half_up : calculate_health_score half_up_features = 40.
Proof.
  unfold calculate_health_score, half_up_features. eval_lookups. r_minmax.
Qed.

Lemma negative_trends_trendline :
  negative_trends (trendline_features (-1) (-80) 2000) = 1%nat.
Proof.
  unfold negative_trends. rewrite trend_features_trendline.
  cbn [List.filter]. unfold negative_at, trendline_features. eval_lookups.
  r_cases; [reflexivity | lra].
Qed.

Lemma negative_trends_falling :
  negative_trends (falling_features (-1) (-80) 2000) = 1%nat.
Proof.
  unfold negative_trends. rewrite trend_features_falling.
  cbn [List.filter]. unfold negative_at, falling_features. eval_lookups.
  r_cases; [reflexivity | lra].
Qed.

(** The three cases on a device without features, on a half-available
    device without trends, and on a degraded device whose RSSI falls. *)
Lemma predict_failure_date_cases_witness :
  predict_failure_date 0 "device" ∅ = (None, 0) /\
  predict_failure_date 0 "device" half_up_features = (None, 0) /\
  predict_failure_date 0 "device" (falling_features (-1) (-80) 2000) =
    (Some (0 + Rmax 1 ((55 - 30) / ((100 - 55) / 30))),
     Rmin 0.9 (0.5 + 0.1 * INR 1)).
Proof.
  split; [|split].
  - apply (proj1 (predict_failure_date_cases 0 "device" ∅)).
    rewrite health_score_empty. lra.
  - apply (proj1 (proj2 (predict_failure_date_cases 0 "device"
                           half_up_features))).
    + rewrite health_score_half_up. lra.
    + unfold negative_trends. rewrite trend_features_half_up. reflexivity.
  - rewrite <- health_score_falling, <- negative_trends_falling.
    apply (proj2 (proj2 (predict_failure_date_cases 0 "device"
                           (falling_features (-1) (-80) 2000)))).
    + rewrite health_score_falling. lra.
    + rewrite negative_trends_falling. lia.
Defined.

(** C4, as stated, fails: no feature of this map ends in [_trend], its
    score is 55, and yet a failure date 50/3 days ahead is returned with
    confidence 0.6, because the name [trendline] contains [trend]. *)
Lemma predict_failure_date_suffix_counterexample :
  calculate_health_score (trendline_features (-1) (-80) 2000) = 55 /\
  spec_negative_trends (trendline_features (-1) (-80) 2000) = 0%nat /\
  predict_failure_date 0 "device" (trendline_features (-1) (-80) 2000) =
    (Some (50 / 3), 0.6).
Proof.
  split; [exact health_score_trendline | split].
  - unfold spec_negative_trends. rewrite suffix_features_trendline.
    reflexivity.
  - rewrite predict_failure_date_degrading.
    + rewrite health_score_trendline, negative_trends_trendline. simpl INR.
      f_equal; [f_equal|]; r_minmax.
    + rewrite health_score_trendline. lra.
    + rewrite negative_trends_trendline. lia.
Qed.

(** ** Order of the health rules *)

Section RuleOrder.

Variable features : gmap string R.

(** Two deductions commute. *)
Lemma deductions_commute (r1 r2 : rule) (score : R) :
  is_deduction r1 -> is_deduction r2 ->
  r2 features (r1 features score) = r1 features (r2 features score).
Proof.
  intros H1 H2.
  destruct (H1 features) as [a1 E1], (H2 features) as [a2 E2].
  rewrite !E1, !E2. lra.
Qed.

(** A list of deductions may be run in any order. *)
Lemma run_deductions_perm (l l' : list rule) :
  Permutation l l' -> Forall is_deduction l ->
  forall score, run_rules features l score = run_rules features l' score.
Proof.
  unfold run_rules.
  induction 1 as [|r l l' _ IH|r1 r2 l|l l' l'' P1 IH1 P2 IH2];
    intros Hl score; simpl.
  - reflexivity.
  - apply IH. now inversion Hl.
  - inversion Hl as [|? ? Hr2 Hl']; subst.
    inversion Hl' as [|? ? Hr1 _]; subst.
    now rewrite (deductions_commute r2 r1).
  - rewrite IH1 by assumption. apply IH2.
    now apply (Permutation_Forall P1).
Qed.

End RuleOrder.

Lemma run_rules_app features (l1 l2 : list rule) (score : R) :
  run_rules features (l1 ++ l2) score
  = run_rules features l2 (run_rules features l1 score).
Proof. unfold run_rules. apply fold_left_app. Qed.

Lemma run_rules_cons features (r : rule) (l : list rule) (score : R) :
  run_rules features (r :: l) score = run_rules features l (r features score).
Proof. reflexivity. Qed.

Lemma pre_uptime_rules_deductions : Forall is_deduction pre_uptime_rules.
Proof.
  unfold pre_uptime_rules, is_deduction, rule_rssi_level, rule_rssi_std,
    rule_response_time_level, rule_response_time_trend.
  repeat constructor; intros features;
    repeat match goal with
    | |- context [features !! ?k] => destruct (features !! k)
    end;
    r_cases;
    solve [ exists 0; intros; lra | exists 10; intros; lra
          | exists 15; intros; lra | exists 20; intros; lra
          | exists 25; intros; lra ].
Qed.

Lemma post_uptime_rules_deductions : Forall is_deduction post_uptime_rules.
Proof.
  unfold post_uptime_rules, is_deduction, rule_disconnects, rule_error_rate,
    rule_temperature, rule_power.
  repeat constructor; intros features;
    repeat match goal with
    | |- context [features !! ?k] => destruct (features !! k) as [v|]
    end;
    try (eexists; intros; reflexivity);
    r_cases;
    solve [ exists 0; intros; lra | exists 10; intros; lra
          | exists 20; intros; lra ].
Qed.

(** C5, as the code has it.  The deductions made before the availability
    multiplier can be taken in any order, and so can those made after it:
    the clamped score is the one of the source. *)
Theorem health_score_order_around_uptime (features : gmap string R)
    (pre post : list rule) :
  Permutation pre_uptime_rules pre ->
  Permutation post_uptime_rules post ->
  apply_rules (pre ++ rule_uptime :: post) features
  = calculate_health_score features.
Proof.
  intros Hpre Hpost.
  rewrite calculate_health_score_rules.
  unfold apply_rules, health_rules.
  rewrite !run_rules_app, !run_rules_cons.
  rewrite (run_deductions_perm features _ _ Hpre pre_uptime_rules_deductions).
  rewrite (run_deductions_perm features _ _ Hpost
             post_uptime_rules_deductions).
  reflexivity.
Qed.

(** Both groups of deductions reversed, on the half-available device. *)
Lemma health_score_order_around_uptime_witness :
  apply_rules (rev pre_uptime_rules ++ rule_uptime :: rev post_uptime_rules)
    half_up_features
  = calculate_health_score half_up_features.
Proof.
  apply (health_score_order_around_uptime half_up_features).
  - apply Permutation_rev.
  - apply Permutation_rev.
Defined.

(** C5, as stated, fails: with a weak signal and half availability the
    source deducts 20 and then halves, which gives 40; halving first and
    then deducting gives 30. *)
Lemma health_score_order_counterexample :
  Permutation health_rules uptime_first_rules /\
  calculate_health_score half_up_features = 40 /\
  apply_rules uptime_first_rules half_up_features = 30.
Proof.
  split; [|split].
  - unfold health_rules, uptime_first_rules.
    symmetry. apply Permutation_middle.
  - exact health_score_half_up.
  - unfold apply_rules, run_rules, uptime_first_rules, pre_uptime_rules,
      post_uptime_rules, rule_rssi_level, rule_rssi_std,
      rule_response_time_level, rule_response_time_trend, rule_uptime,
      rule_disconnects, rule_error_rate, rule_temperature, rule_power,
      half_up_features.
    cbn [fold_left app]. eval_lookups. r_minmax.
Qed.

(** ** Smoothers *)

Lemma py_div_ok (a b : R) : b <> 0 -> py_div a b = Ok (a / b).
Proof.
  intros Hb. unfold py_div.
  destruct (Req_dec_T b 0); [contradiction | reflexivity].
Qed.

Lemma KalmanFilter_update_first (self : KalmanFilter) (z : R) :
  estimate self = None ->
  KalmanFilter_update self z =
    Ok ({| process_variance := process_variance self;
           measurement_variance := measurement_variance self;
           estimate := Some z;
           error_estimate := error_estimate self |}, z).
Proof. intros H. unfold KalmanFilter_update. now rewrite H. Qed.

Lemma KalmanFilter_update_next (self : KalmanFilter) (x z : R) :
  estimate self = Some x ->
  error_estimate self + process_variance self + measurement_variance self
    <> 0 ->
  KalmanFilter_update self z =
    let P' := error_estimate self + process_variance self in
    let K := P' / (P' + measurement_variance self) in
    Ok ({| process_variance := process_variance self;
           measurement_variance := measurement_variance self;
           estimate := Some (x + K * (z - x));
           error_estimate := (1 - K) * P' |}, x + K * (z - x)).
Proof.
  intros H Hden. unfold KalmanFilter_update. rewrite H.
  rewrite py_div_ok by exact Hden. reflexivity.
Qed.

(** With a non-negative process variance and a positive measurement
    variance the error estimate stays non-negative, so the gain is always
    defined. *)
Lemma KalmanFilter_update_total (self : KalmanFilter) (z : R) :
  0 <= process_variance self -> 0 < measurement_variance self ->
  0 <= error_estimate self ->
  exists self' y,
    KalmanFilter_update self z = Ok (self', y) /\
    process_variance self' = process_variance self /\
    measurement_variance self' = measurement_variance self /\
    0 <= error_estimate self'.
Proof.
  intros HQ HR HP. destruct (estimate self) as [x|] eqn:He.
  - rewrite (KalmanFilter_update_next self x z He) by lra.
    cbv zeta. eexists _, _. split; [reflexivity|]. simpl.
    repeat split; try reflexivity.
    set (P' := error_estimate self + process_variance self).
    assert (HP' : 0 <= P') by (unfold P'; lra).
    replace ((1 - P' / (P' + measurement_variance self)) * P')
      with (measurement_variance self * P' / (P' + measurement_variance self))
      by (field; lra).
    apply Rmult_le_pos.
    + apply Rmult_le_pos; lra.
    + left. apply Rinv_0_lt_compat. lra.
  - rewrite (KalmanFilter_update_first self z He).
    eexists _, _. split; [reflexivity|]. simpl. repeat split; assumption.
Qed.

Lemma KalmanFilter_run_total (zs : list R) :
  forall self : KalmanFilter,
    0 <= process_variance self -> 0 < measurement_variance self ->
    0 <= error_estimate self ->
    exists r, KalmanFilter_run self zs = Ok r.
Proof.
  induction zs as [|z zs IH]; intros self HQ HR HP; simpl.
  - eexists. reflexivity.
  - destruct (KalmanFilter_update_total self z HQ HR HP)
      as (self' & y & E & EQ & ER & HP').
    rewrite E. simpl.
    destruct (IH self') as [r Er];
      [rewrite EQ; assumption | rewrite ER; assumption | assumption |].
    rewrite Er. simpl. eexists. reflexivity.
Qed.

(** C6. The Kalman filter takes its first measurement as the estimate and
    keeps the initial error 1; afterwards P' = P + Q, K = P' / (P' + R),
    the estimate moves by K (z - x) and the error becomes (1 - K) P'.
    With the default variances no update ever fails.  The EWMA takes its
    first measurement as its value and afterwards
    alpha z + (1 - alpha) y.  Equal states and inputs give equal
    outputs. *)
Theorem smoothers_follow_recurrences :
  (forall Q Rm z,
     KalmanFilter_update (KalmanFilter_init Q Rm) z =
       Ok ({| process_variance := Q; measurement_variance := Rm;
              estimate := Some z; error_estimate := 1 |}, z)) /\
  (forall (self : KalmanFilter) (x z : R),
     estimate self = Some x ->
     let P' := error_estimate self + process_variance self in
     let K := P' / (P' + measurement_variance self) in
     P' + measurement_variance self <> 0 ->
     KalmanFilter_update self z =
       Ok ({| process_variance := process_variance self;
              measurement_variance := measurement_variance self;
              estimate := Some (x + K * (z - x));
              error_estimate := (1 - K) * P' |}, x + K * (z - x))) /\
  (forall zs, exists r,
     KalmanFilter_run (KalmanFilter_init 0.001 0.1) zs = Ok r) /\
  (forall a z,
     ExponentialWeightedMovingAverage_update
       (ExponentialWeightedMovingAverage_init a) z
     = ({| alpha := a; value := Some z |}, z)) /\
  (forall (self : ExponentialWeightedMovingAverage) (y z : R),
     value self = Some y ->
     ExponentialWeightedMovingAverage_update self z =
       ({| alpha := alpha self;
           value := Some (alpha self * z + (1 - alpha self) * y) |},
        alpha self * z + (1 - alpha self) * y)) /\
  (forall k1 k2 zs1 zs2,
     k1 = k2 -> zs1 = zs2 ->
     KalmanFilter_run k1 zs1 = KalmanFilter_run k2 zs2) /\
  (forall e1 e2 zs1 zs2,
     e1 = e2 -> zs1 = zs2 ->
     ExponentialWeightedMovingAverage_run e1 zs1
     = ExponentialWeightedMovingAverage_run e2 zs2).
Proof.
  repeat split.
  - intros self x z He P' K Hden.
    exact (KalmanFilter_update_next self x z He Hden).
  - intros zs. apply KalmanFilter_run_total; simpl; lra.
  - intros self y z Hy. unfold ExponentialWeightedMovingAverage_update.
    now rewrite Hy.
  - intros; now subst.
  - intros; now subst.
Qed.

(** A default filter that has seen 10 takes 20 with gain
    1.001 / 1.101; an EWMA with alpha 0.5 that has seen 10 moves to 15. *)
Lemma smoothers_follow_recurrences_witness :
  KalmanFilter_update
    {| process_variance := 0.001; measurement_variance := 0.1;
       estimate := Some 10; error_estimate := 1 |} 20
  = Ok ({| process_variance := 0.001; measurement_variance := 0.1;
           estimate :=
             Some (10 + (1 + 0.001) / (1 + 0.001 + 0.1) * (20 - 10));
           error_estimate :=
             (1 - (1 + 0.001) / (1 + 0.001 + 0.1)) * (1 + 0.001) |},
        10 + (1 + 0.001) / (1 + 0.001 + 0.1) * (20 - 10)) /\
  ExponentialWeightedMovingAverage_update
    {| alpha := 0.5; value := Some 10 |} 20
  = ({| alpha := 0.5; value := Some (0.5 * 20 + (1 - 0.5) * 10) |},
     0.5 * 20 + (1 - 0.5) * 10).
Proof.
  destruct smoothers_follow_recurrences as (_ & Hk & _ & _ & He & _).
  split.
  - apply (Hk {| process_variance := 0.001; measurement_variance := 0.1;
                 estimate := Some 10; error_estimate := 1 |} 10 20).
    + reflexivity.
    + simpl. lra.
  - apply (He {| alpha := 0.5; value := Some 10 |} 10 20). reflexivity.
Defined.

(** ** RSSI to distance *)

Lemma clamp_distance_range (d : R) : 1 <= Rmax 1 (Rmin d 1000) <= 1000.
Proof. r_minmax. Qed.

Lemma float_max_large : 1000 < float_max.
Proof. unfold float_max. apply IZR_lt. vm_compute. reflexivity. Qed.

Lemma Rpower_10_nat (k : nat) : Rpower 10 (INR k) = IZR (10 ^ Z.of_nat k).
Proof. rewrite Rpower_pow by lra. now rewrite pow_IZR. Qed.

(** [10 ** 308] is a float, [10 ** 309] is not. *)
Lemma pow10_in_range (e : R) : e <= 308 -> Rpower 10 e <= float_max.
Proof.
  intros He. apply Rle_trans with (Rpower 10 (INR 308)).
  - apply Rle_Rpower; [lra|].
    rewrite INR_IZR_INZ. exact He.
  - rewrite Rpower_10_nat. unfold float_max. apply IZR_le.
    vm_compute. discriminate.
Qed.

Lemma pow10_out_of_range (e : R) : 309 <= e -> Rpower 10 e > float_max.
Proof.
  intros He. apply Rlt_le_trans with (Rpower 10 (INR 309)).
  - rewrite Rpower_10_nat. unfold float_max. apply IZR_lt.
    vm_compute. reflexivity.
  - apply Rle_Rpower; [lra|].
    rewrite INR_IZR_INZ. exact He.
Qed.

Lemma py_pow_in_range (e : R) : e <= 308 -> py_pow 10 e = Ok (Rpower 10 e).
Proof.
  intros He. unfold py_pow. cbv zeta.
  destruct (Rgt_dec (Rpower 10 e) float_max) as [Hgt|_]; [|reflexivity].
  pose proof (pow10_in_range e He). lra.
Qed.

Lemma py_pow_out_of_range (e : R) :
  309 <= e -> py_pow 10 e = Raise OverflowError.
Proof.
  intros He. unfold py_pow. cbv zeta.
  destruct (Rgt_dec (Rpower 10 e) float_max) as [_|Hle]; [reflexivity|].
  pose proof (pow10_out_of_range e He). lra.
Qed.

(** Against the bound of the clamp an infinite power counts as any power
    above it. *)
Lemma np_min_pow (e : R) :
  np_min (np_pow 10 (finite e)) 1000 = Rmin (Rpower 10 e) 1000.
Proof.
  unfold np_pow. cbv zeta.
  destruct (Rgt_dec (Rpower 10 e) float_max) as [Hgt|_]; [|reflexivity].
  cbn [np_min]. pose proof float_max_large.
  unfold Rmin. destruct (Rle_dec (Rpower 10 e) 1000); lra.
Qed.

(** On a [np.float64] the call always returns, within the clamp. *)
Lemma rssi_to_distance_total (rssi reference_rssi n : R) :
  exists d,
    rssi_to_distance numpy_float64 rssi reference_rssi n = Ok d /\
    1 <= d <= 1000.
Proof.
  unfold rssi_to_distance.
  destruct (Rge_dec rssi reference_rssi).
  - exists 1. split; [reflexivity | lra].
  - cbv zeta. eexists. split; [reflexivity|].
    unfold np_div. destruct (Req_dec_T (10 * n) 0).
    + cbn [np_pow np_min]. r_minmax.
    + rewrite np_min_pow. apply clamp_distance_range.
Qed.

Lemma rssi_to_distance_numpy (rssi reference_rssi n : R) :
  n <> 0 -> rssi < reference_rssi ->
  rssi_to_distance numpy_float64 rssi reference_rssi n
  = Ok (Rmax 1 (Rmin (Rpower 10 ((reference_rssi - rssi) / (10 * n))) 1000)).
Proof.
  intros Hn Hlt. unfold rssi_to_distance.
  destruct (Rge_dec rssi reference_rssi); [lra|].
  cbv zeta. unfold np_div.
  destruct (Req_dec_T (10 * n) 0); [lra|].
  now rewrite np_min_pow.
Qed.

(** C7. The clamp of [rssi_to_distance] comes after the power: at an
    RSSI of -7000 against the reference -30 with the default exponent 2,
    built-in floats make the source evaluate 10 ** 348.5, which raises
    OverflowError, where the clamped power is 1000.  Called on the
    [np.float64] of [np.mean], as the triangulation does, the same input
    returns 1000. *)
Theorem rssi_to_distance_overflow :
  rssi_to_distance python_float (-7000) (-30) 2 = Raise OverflowError /\
  Rmax 1 (Rmin (Rpower 10 ((-30 - -7000) / (10 * 2))) 1000) = 1000 /\
  rssi_to_distance numpy_float64 (-7000) (-30) 2 = Ok 1000.
Proof.
  assert (He : 309 <= (-30 - -7000) / (10 * 2)) by lra.
  pose proof (pow10_out_of_range _ He) as Hbig.
  pose proof float_max_large as Hmax.
  assert (Hclamp :
            Rmax 1 (Rmin (Rpower 10 ((-30 - -7000) / (10 * 2))) 1000) = 1000).
  { unfold Rmin.
    destruct (Rle_dec (Rpower 10 ((-30 - -7000) / (10 * 2))) 1000); [lra|].
    unfold Rmax. destruct (Rle_dec 1 1000); lra. }
  split; [|split].
  - unfold rssi_to_distance. destruct (Rge_dec (-7000) (-30)); [lra|].
    rewrite py_div_ok by lra. cbn [bind].
    now rewrite py_pow_out_of_range.
  - exact Hclamp.
  - rewrite rssi_to_distance_numpy by lra. now rewrite Hclamp.
Qed.

(** ** Position confidence *)

Lemma sum_R_nonneg (l : list R) : Forall (fun x => 0 <= x) l -> 0 <= sum_R l.
Proof.
  unfold sum_R. induction 1 as [|x l Hx _ IH]; simpl; lra.
Qed.

Lemma np_mean_nonneg (l : list R) :
  l <> [] -> Forall (fun x => 0 <= x) l -> 0 <= np_mean l.
Proof.
  intros Hl Hpos. unfold np_mean.
  apply Rmult_le_pos; [now apply sum_R_nonneg|].
  left. apply Rinv_0_lt_compat. apply lt_0_INR.
  destruct l; [contradiction | simpl; lia].
Qed.

(** Reading [distances[i]] along [enumerate(positions)] pairs every
    position with its distance. *)
Lemma errors_from (q : R * R) (positions : list (R * R)) :
  forall (pre ds : list R),
    (length positions <= length ds)%nat ->
    mapM (fun ip =>
            let predicted_distance := euclidean q (snd ip) in
            try! d := py_index (pre ++ ds) (fst ip) in
            Ok (Rabs (predicted_distance - d)))
         (combine (seq (length pre) (length positions)) positions)
    = Ok (map (residual q) (combine positions ds)).
Proof.
  induction positions as [|p ps IH]; intros pre ds Hlen; [reflexivity|].
  destruct ds as [|d ds]; [simpl in Hlen; lia|].
  cbn [length seq combine mapM map fst snd].
  unfold py_index at 1.
  rewrite nth_error_app2, Nat.sub_diag by lia. cbn [nth_error bind].
  specialize (IH (pre ++ [d]) ds).
  rewrite <- app_assoc, length_app, Nat.add_comm in IH.
  cbn [app length Nat.add] in IH.
  rewrite IH by (simpl in Hlen; lia). reflexivity.
Qed.

Lemma calculate_position_confidence_value (positions : list (R * R))
    (distances : list R) (q : R * R) :
  positions <> [] ->
  length distances = length positions ->
  calculate_position_confidence positions distances q =
    Ok (Rmax 0 (1 - np_mean (map (residual q) (combine positions distances))
                     / 100)).
Proof.
  intros Hne Hlen. unfold calculate_position_confidence, enumerate.
  pose proof (errors_from q positions [] distances) as E.
  cbn [app length] in E. rewrite E by (rewrite Hlen; lia).
  cbn [bind].
  destruct positions as [|p ps]; [contradiction|].
  destruct distances as [|d ds]; [discriminate|]. reflexivity.
Qed.

Lemma residuals_nonneg (q : R * R) (l : list ((R * R) * R)) :
  Forall (fun x => 0 <= x) (map (residual q) l).
Proof.
  induction l; simpl; constructor; [apply Rabs_pos | assumption].
Qed.

(** C8. For anchors with their distances, not none, the confidence is
    1 - (mean residual) / 100 clamped to [0, 1], the residual of an anchor
    being | ||q - p_i|| - d_i |; it lies in [0, 1]. *)
Theorem calculate_position_confidence_spec (positions : list (R * R))
    (distances : list R) (q : R * R) :
  positions <> [] ->
  length distances = length positions ->
  let mean_residual :=
    np_mean (map (fun pd => Rabs (euclidean q (fst pd) - snd pd))
               (combine positions distances)) in
  exists c,
    calculate_position_confidence positions distances q = Ok c /\
    c = Rmax 0 (Rmin 1 (1 - mean_residual / 100)) /\
    0 <= c <= 1.
Proof.
  intros Hne Hlen mean_residual. subst mean_residual.
  change (fun pd : R * R * R => Rabs (euclidean q (fst pd) - snd pd))
    with (residual q).
  rewrite calculate_position_confidence_value by assumption.
  generalize (np_mean_nonneg (map (residual q) (combine positions distances))).
  set (m := np_mean _). intros Hpos.
  assert (Hm : 0 <= m).
  { apply Hpos; [|apply residuals_nonneg].
    destruct positions; [contradiction|].
    destruct distances; discriminate. }
  eexists. split; [reflexivity|]. split; r_minmax.
Qed.

(** One anchor at the origin, one metre away from an estimate that sits on
    it: the residual is 1. *)
Lemma calculate_position_confidence_spec_witness :
  exists c,
    calculate_position_confidence [(0, 0)] [1] (0, 0) = Ok c /\
    c = Rmax 0
          (Rmin 1
             (1 - np_mean [Rabs (euclidean (0, 0) (0, 0) - 1)] / 100)) /\
    0 <= c <= 1.
Proof.
  apply (calculate_position_confidence_spec [(0, 0)] [1] (0, 0)).
  - discriminate.
  - reflexivity.
Defined.

(** ** Statistical anomaly score *)

Lemma np_std_nonneg (l : list R) : 0 <= np_std l.
Proof. apply sqrt_pos. Qed.

Lemma detect_signal_anomaly_bounds (self : AdvancedSignalProcessor)
    (id : string) (m : SignalMeasurement) :
  0 <= detect_signal_anomaly self id m <= 1.
Proof.
  unfold detect_signal_anomaly.
  destruct (signal_history self !! id) as [h|]; [|lra].
  destruct (length h <? 10)%nat; [lra|].
  destruct (length _ <? 5)%nat; [lra|].
  destruct (Req_dec_T _ 0) as [|Hstd]; [lra|].
  cbv zeta.
  pose proof (np_std_nonneg (map rssi (all_but_last_n 10 h))) as Hsd.
  set (sd := np_std (map rssi (all_but_last_n 10 h))) in *.
  set (z := Rabs _ / sd).
  assert (Hz : 0 <= z).
  { unfold z. apply Rmult_le_pos; [apply Rabs_pos|].
    left. apply Rinv_0_lt_compat. lra. }
  destruct (2 <=? _)%nat, (5 <=? _)%nat; r_minmax.
Qed.

Lemma detect_signal_anomaly_unknown (self : AdvancedSignalProcessor)
    (id : string) (m : SignalMeasurement) :
  signal_history self !! id = None -> detect_signal_anomaly self id m = 0.
Proof. intros H. unfold detect_signal_anomaly. now rewrite H. Qed.

Lemma detect_signal_anomaly_short (self : AdvancedSignalProcessor)
    (id : string) (m : SignalMeasurement) (history : list SignalMeasurement) :
  signal_history self !! id = Some history ->
  (length history < 15)%nat ->
  detect_signal_anomaly self id m = 0.
Proof.
  intros H Hlen. unfold detect_signal_anomaly. rewrite H.
  destruct (length history <? 10)%nat eqn:E10; [reflexivity|].
  apply Nat.ltb_ge in E10.
  assert (E5 : (length (map rssi (all_but_last_n 10 history)) <? 5)%nat = true).
  { apply Nat.ltb_lt. unfold all_but_last_n.
    rewrite length_map, length_firstn. lia. }
  now rewrite E5.
Qed.

(** C2. The anomaly score lies in [0, 1] for every device and
    measurement.  For a device that is unknown or whose history holds
    fewer than 10 measurements it is exactly 0, hence not above the 0.5 at
    which an anomaly is reported. *)
Theorem detect_signal_anomaly_range (self : AdvancedSignalProcessor)
    (device_id : string) (measurement : SignalMeasurement) :
  0 <= detect_signal_anomaly self device_id measurement <= 1 /\
  (signal_history self !! device_id = None ->
   detect_signal_anomaly self device_id measurement = 0) /\
  (forall history,
     signal_history self !! device_id = Some history ->
     (length history < 10)%nat ->
     detect_signal_anomaly self device_id measurement = 0 /\
     ~ detect_signal_anomaly self device_id measurement > 0.5).
Proof.
  split; [apply detect_signal_anomaly_bounds | split].
  - apply detect_signal_anomaly_unknown.
  - intros history H Hlen.
    rewrite (detect_signal_anomaly_short self device_id measurement history H)
      by lia.
    split; [reflexivity | lra].
Qed.

(** Three stored samples: a drop to -90 dBm scores 0. *)
Lemma detect_signal_anomaly_range_witness :
  detect_signal_anomaly (processor_with "d" [-50; -50; -50]) "d"
    (measurement_of "d" (-90)) = 0 /\
  ~ detect_signal_anomaly (processor_with "d" [-50; -50; -50]) "d"
      (measurement_of "d" (-90)) > 0.5.
Proof.
  apply (proj2 (proj2 (detect_signal_anomaly_range
                         (processor_with "d" [-50; -50; -50]) "d"
                         (measurement_of "d" (-90))))
           (map (measurement_of "d") [-50; -50; -50])).
  - apply lookup_singleton_eq.
  - simpl. lia.
Defined.

Lemma np_mean_baseline : np_mean [-49; -51; -49; -51; -49; -51] = -50.
Proof. unfold np_mean, sum_R. cbn [fold_right length]. simpl INR. lra. Qed.

Lemma np_std_baseline : np_std [-49; -51; -49; -51; -49; -51] = 1.
Proof.
  unfold np_std. cbv zeta. rewrite np_mean_baseline. cbn [map].
  replace (np_mean _) with 1; [apply sqrt_1|].
  unfold np_mean, sum_R. cbn [fold_right length]. simpl INR. lra.
Qed.

(** With the sixteen stepped samples stored, a measurement at or below
    -60 dBm lies at least ten baseline deviations away and scores 1. *)
Lemma detect_signal_anomaly_stepped (self : AdvancedSignalProcessor)
    (id id' : string) (m : SignalMeasurement) :
  signal_history self !! id = Some (map (measurement_of id') stepped_rssis) ->
  rssi m <= -60 ->
  detect_signal_anomaly self id m = 1.
Proof.
  intros H Hr. unfold detect_signal_anomaly. rewrite H.
  unfold stepped_rssis.
  cbn [repeat app map length Nat.ltb Nat.leb last_n all_but_last_n Nat.sub
       skipn firstn rssi measurement_of].
  rewrite np_std_baseline, np_mean_baseline.
  rewrite Rabs_left by lra.
  destruct (Req_dec_T 1 0); [lra|].
  r_minmax.
Qed.

(** C10. With at least 10 but fewer than 15 stored measurements the score
    is exactly 0: the baseline, all but the last 10 entries, has fewer
    than 5 entries.  A score other than 0 needs at least 15. *)
Theorem detect_signal_anomaly_needs_fifteen (self : AdvancedSignalProcessor)
    (device_id : string) (measurement : SignalMeasurement) :
  (forall history,
     signal_history self !! device_id = Some history ->
     (10 <= length history < 15)%nat ->
     (length (all_but_last_n 10 history) < 5)%nat /\
     detect_signal_anomaly self device_id measurement = 0) /\
  (detect_signal_anomaly self device_id measurement <> 0 ->
   exists history,
     signal_history self !! device_id = Some history /\
     (15 <= length history)%nat).
Proof.
  split.
  - intros history H Hlen. split.
    + unfold all_but_last_n. rewrite length_firstn. lia.
    + apply (detect_signal_anomaly_short _ _ _ history H). lia.
  - intros Hnz.
    destruct (signal_history self !! device_id) as [history|] eqn:H.
    + exists history. split; [reflexivity|].
      destruct (Nat.lt_ge_cases (length history) 15) as [Hlt|Hge];
        [|exact Hge].
      exfalso. apply Hnz.
      now apply (detect_signal_anomaly_short _ _ _ history H).
    + exfalso. apply Hnz. now apply detect_signal_anomaly_unknown.
Qed.

(** Twelve stored samples score 0 for a drop to -90 dBm; the sixteen
    stepped samples score 1 and indeed are at least 15. *)
Lemma detect_signal_anomaly_needs_fifteen_witness :
  ((length (all_but_last_n 10
              (map (measurement_of "d") (repeat (-50)%R 12))) < 5)%nat /\
   detect_signal_anomaly (processor_with "d" (repeat (-50) 12)) "d"
     (measurement_of "d" (-90)) = 0) /\
  exists history,
    signal_history (processor_with "d" stepped_rssis) !! "d"%string
      = Some history /\
    (15 <= length history)%nat.
Proof.
  split.
  - apply (proj1 (detect_signal_anomaly_needs_fifteen
                    (processor_with "d" (repeat (-50) 12)) "d"
                    (measurement_of "d" (-90)))).
    + apply lookup_singleton_eq.
    + simpl. lia.
  - apply (proj2 (detect_signal_anomaly_needs_fifteen
                    (processor_with "d" stepped_rssis) "d"
                    (measurement_of "d" (-90)))).
    rewrite (detect_signal_anomaly_stepped _ "d" "d")
      by (apply lookup_singleton_eq || (simpl; lra)).
    lra.
Defined.

(** ** Triangulation guards *)

Lemma rssi_to_distance_default (rssi reference_rssi : R) :
  exists d, rssi_to_distance numpy_float64 rssi reference_rssi 2 = Ok d.
Proof.
  destruct (rssi_to_distance_total rssi reference_rssi 2) as (d & E & _).
  now exists d.
Qed.

Lemma distances_of_references (avg_rssi : R) (refs : list ReferencePoint) :
  exists distances,
    mapM (fun ref_point =>
            rssi_to_distance numpy_float64 avg_rssi (rssi_range ref_point) 2)
      refs = Ok distances /\
    length distances = length refs.
Proof.
  induction refs as [|rp refs (ds & E & Hlen)]; simpl.
  - exists []. split; reflexivity.
  - destruct (rssi_to_distance_default avg_rssi (rssi_range rp)) as [d Ed].
    rewrite Ed, E. simpl. exists (d :: ds). split; [reflexivity|].
    simpl. now rewrite Hlen.
Qed.

Section Triangulation.

Variable minimize : (R * R -> result R) -> R * R -> option (R * R).
Variable self : AdvancedSignalProcessor.
Variable now : R.
Variable device_id : string.

Lemma triangulate_position_few_references :
  (length (reference_points self) < 3)%nat ->
  triangulate_position minimize self now device_id = Ok None.
Proof.
  intros Hrefs. unfold triangulate_position.
  destruct (_ <? _)%Z; [reflexivity|].
  destruct (signal_history self !! device_id) as [history|]; [|reflexivity].
  destruct (length (last_n 5 history) <? 3)%nat; [reflexivity|].
  destruct (distances_of_references
              (np_mean (map rssi (last_n 5 history)))
              (reference_points self)) as (ds & E & Hlen).
  rewrite E. cbn [bind].
  assert (E3 : (length ds <? 3)%nat = true)
    by (apply Nat.ltb_lt; lia).
  now rewrite E3.
Qed.

Lemma triangulate_position_no_history :
  signal_history self !! device_id = None ->
  triangulate_position minimize self now device_id = Ok None.
Proof.
  intros H. unfold triangulate_position. rewrite H.
  destruct (_ <? _)%Z; reflexivity.
Qed.

Lemma triangulate_position_few_measurements (history : list SignalMeasurement) :
  signal_history self !! device_id = Some history ->
  (length (last_n 5 history) < 3)%nat ->
  triangulate_position minimize self now device_id = Ok None.
Proof.
  intros H Hlen. unfold triangulate_position. rewrite H.
  apply Nat.ltb_lt in Hlen. rewrite Hlen.
  destruct (_ <? _)%Z; reflexivity.
Qed.

(** The call never raises: the default exponent is not zero and every
    anchor comes with its distance. *)
Lemma triangulate_position_total :
  exists r, triangulate_position minimize self now device_id = Ok r.
Proof.
  unfold triangulate_position.
  destruct (_ <? _)%Z; [now eexists|].
  destruct (signal_history self !! device_id) as [history|]; [|now eexists].
  destruct (length (last_n 5 history) <? 3)%nat; [now eexists|].
  destruct (distances_of_references
              (np_mean (map rssi (last_n 5 history)))
              (reference_points self)) as (ds & E & Hlen).
  rewrite E. cbn [bind].
  destruct (length ds <? 3)%nat eqn:E3; [now eexists|].
  apply Nat.ltb_ge in E3.
  destruct (solve_triangulation _ _ _) as [est|]; [|now eexists].
  rewrite calculate_position_confidence_value.
  - cbn [bind]. now eexists.
  - destruct (reference_points self); [simpl in Hlen; lia | discriminate].
  - now rewrite length_map.
Qed.

Lemma triangulate_position_some (p : DevicePosition) :
  triangulate_position minimize self now device_id = Ok (Some p) ->
  (3 <= length (reference_points self))%nat /\
  exists history,
    signal_history self !! device_id = Some history /\
    (3 <= length (last_n 5 history))%nat.
Proof.
  intros Hp.
  destruct (Nat.lt_ge_cases (length (reference_points self)) 3) as [Hr|Hr].
  { rewrite triangulate_position_few_references in Hp by exact Hr.
    discriminate. }
  split; [exact Hr|].
  destruct (signal_history self !! device_id) as [history|] eqn:H.
  - exists history. split; [reflexivity|].
    destruct (Nat.lt_ge_cases (length (last_n 5 history)) 3) as [Hm|Hm];
      [|exact Hm].
    rewrite (triangulate_position_few_measurements history H Hm) in Hp.
    discriminate.
  - rewrite (triangulate_position_no_history H) in Hp. discriminate.
Qed.

End Triangulation.

(** C3. No position is returned with fewer than 3 reference points, for a
    device without history, or with fewer than 3 recent measurements; a
    position that is returned had at least 3 reference points and at least
    3 recent measurements behind it.  The call itself never raises. *)
Theorem triangulate_position_guards
    (minimize : (R * R -> result R) -> R * R -> option (R * R))
    (self : AdvancedSignalProcessor) (now : R) (device_id : string) :
  ((length (reference_points self) < 3)%nat ->
   triangulate_position minimize self now device_id = Ok None) /\
  (signal_history self !! device_id = None ->
   triangulate_position minimize self now device_id = Ok None) /\
  (forall history,
     signal_history self !! device_id = Some history ->
     (length (last_n 5 history) < 3)%nat ->
     triangulate_position minimize self now device_id = Ok None) /\
  (forall p,
     triangulate_position minimize self now device_id = Ok (Some p) ->
     (3 <= length (reference_points self))%nat /\
     exists history,
       signal_history self !! device_id = Some history /\
       (3 <= length (last_n 5 history))%nat) /\
  (exists r, triangulate_position minimize self now device_id = Ok r).
Proof.
  repeat apply conj.
  - apply triangulate_position_few_references.
  - apply triangulate_position_no_history.
  - apply triangulate_position_few_measurements.
  - apply triangulate_position_some.
  - apply triangulate_position_total.
Qed.

Lemma np_mean_three (a : R) : np_mean [a; a; a] = a.
Proof. unfold np_mean, sum_R. cbn [fold_right length]. simpl INR. field. Qed.

(** The anchored device is located (at the centroid, by the solver that
    stops at its guess). *)
Lemma triangulate_position_anchored :
  exists p,
    triangulate_position minimize_at_guess anchored_processor 0 "device_01"
    = Ok (Some p).
Proof.
  unfold triangulate_position, anchored_processor.
  cbn [reference_points triangulation_min_points signal_history].
  rewrite lookup_singleton_eq.
  cbn [length map last_n Nat.sub skipn rssi measurement_of Nat.ltb Nat.leb
       Z.of_nat Pos.of_succ_nat Pos.succ Z.ltb Z.compare Pos.compare
       Pos.compare_cont mapM rssi_range reference_point_of position].
  rewrite np_mean_three.
  unfold rssi_to_distance. destruct (Rge_dec (-30) (-40)); [|lra].
  cbn [bind length Nat.ltb Nat.leb].
  unfold solve_triangulation, minimize_at_guess. cbn [length Nat.ltb Nat.leb].
  rewrite calculate_position_confidence_value by (discriminate || reflexivity).
  cbn [bind]. eexists. reflexivity.
Qed.

(** A fresh processor has no reference point and returns no position; the
    anchored device is located from 3 anchors and 3 measurements. *)
Lemma triangulate_position_guards_witness :
  triangulate_position minimize_at_guess AdvancedSignalProcessor_init 0
    "device_01" = Ok None /\
  (3 <= length (reference_points anchored_processor))%nat /\
  exists history,
    signal_history anchored_processor !! "device_01"%string = Some history /\
    (3 <= length (last_n 5 history))%nat.
Proof.
  split.
  - apply (proj1 (triangulate_position_guards minimize_at_guess
                    AdvancedSignalProcessor_init 0 "device_01")).
    simpl. lia.
  - destruct triangulate_position_anchored as [p Hp].
    apply (proj1 (proj2 (proj2 (proj2
             (triangulate_position_guards minimize_at_guess
                anchored_processor 0 "device_01")))) p Hp).
Defined.

(** ** Anomaly regions *)

Lemma filter_combine_maps {A} (g : A -> R * R) (h : A -> R)
    (f : R * R -> bool) (l : list A) :
  map snd (List.filter (fun ps => f (fst ps)) (combine (map g l) (map h l)))
  = map h (List.filter (fun item => f (g item)) l).
Proof.
  induction l as [|a l IH]; [reflexivity|].
  cbn [map combine List.filter fst].
  destruct (f (g a)); cbn [map snd]; now rewrite IH.
Qed.

Lemma in_map_fst_filter {A B} (f : A * B -> bool) (l : list (A * B)) (a : A) :
  In a (map fst (List.filter f l)) <->
  exists b, In (a, b) l /\ f (a, b) = true.
Proof.
  rewrite in_map_iff. split.
  - intros ([a' b] & <- & Hin). apply filter_In in Hin. now exists b.
  - intros (b & Hin & Hf). exists (a, b). split; [reflexivity|].
    apply filter_In. now split.
Qed.

Lemma within_region_true (region : AnomalyRegion) (p : R * R) :
  within_region region p = true <->
  euclidean p (center region) <= radius region.
Proof.
  unfold within_region. destruct (Rle_dec _ _); split; intros; easy.
Qed.

(** What one iteration of the cluster loop appends. *)
Lemma region_of_cluster_spec (self : AdvancedSignalProcessor) (now : R)
    (high : list (R * R)) (labels : list Z) (cluster_id : Z)
    (region : AnomalyRegion) :
  In region
    (region_of_cluster self now
       (map (fun item => coordinates (snd item)) (device_positions self))
       (map (fun item => recent_anomaly self (fst item))
          (device_positions self))
       high labels cluster_id) ->
  severity region
    = (if Rgt_dec (confidence region) 0.7 then "high" else "medium")%string /\
  confidence region =
    np_mean
      (map (fun item => recent_anomaly self (fst item))
         (List.filter
            (fun item => within_region region (coordinates (snd item)))
            (device_positions self))) /\
  affected_devices region =
    map fst
      (List.filter (fun item => within_region region (coordinates (snd item)))
         (device_positions self)).
Proof.
  unfold region_of_cluster. destruct (cluster_id =? -1)%Z; [intros []|].
  destruct (map fst (List.filter _ (combine high labels))) as [|p0 [|p1 ps]];
    [intros [] | intros [] |].
  intros [<-|[]]. cbn [severity confidence affected_devices].
  unfold within_region. cbn [center radius].
  repeat split.
  rewrite (filter_combine_maps
             (fun item : string * DevicePosition => coordinates (snd item))
             (fun item => recent_anomaly self (fst item))
             (fun p => if Rle_dec (euclidean p _) _ then true else false)).
  reflexivity.
Qed.

(** C9. Every region returned by [detect_anomaly_regions] is high exactly
    when its confidence exceeds 0.7 and medium otherwise; its confidence is
    the mean anomaly score of the positioned devices within its radius of
    its centre; its members are exactly the positioned devices within that
    radius. *)
Theorem detect_anomaly_regions_spec (dbscan_labels : list (R * R) -> list Z)
    (self : AdvancedSignalProcessor) (now : R) (region : AnomalyRegion) :
  In region (snd (detect_anomaly_regions dbscan_labels self now)) ->
  (severity region = "high"%string <-> confidence region > 0.7) /\
  (severity region = "medium"%string <-> ~ confidence region > 0.7) /\
  confidence region =
    np_mean
      (map (fun item => recent_anomaly self (fst item))
         (List.filter
            (fun item => within_region region (coordinates (snd item)))
            (device_positions self))) /\
  (forall d,
     In d (affected_devices region) <->
     exists pos,
       In (d, pos) (device_positions self) /\
       euclidean (coordinates pos) (center region) <= radius region).
Proof.
  intros Hin. unfold detect_anomaly_regions in Hin.
  destruct (device_positions self) as [|item items] eqn:Hdp;
    [exact (False_ind _ Hin)|].
  rewrite <- Hdp in Hin.
  destruct (length _ <? 3)%nat; [exact (False_ind _ Hin)|].
  destruct (length _ <? 2)%nat; [exact (False_ind _ Hin)|].
  cbn [snd] in Hin. apply in_flat_map in Hin as (cluster_id & _ & Hin).
  apply region_of_cluster_spec in Hin as (Hsev & Hconf & Hmem).
  rewrite <- Hdp. split; [|split; [|split]].
  - rewrite Hsev. destruct (Rgt_dec _ _); split; intros; easy.
  - rewrite Hsev. destruct (Rgt_dec _ _); split; intros; easy.
  - exact Hconf.
  - intros d. rewrite Hmem, in_map_fst_filter.
    split; intros (pos & Hpos & Hw); exists pos; split; try assumption;
      now apply within_region_true.
Qed.

Lemma np_mean_five (a : R) : np_mean [a; a; a; a; a] = a.
Proof. unfold np_mean, sum_R. cbn [fold_right length]. simpl INR. field. Qed.

Lemma hotspot_history (id : string) :
  id = "a"%string \/ id = "b"%string \/ id = "c"%string ->
  signal_history hotspot_processor !! id
  = Some (map (measurement_of id) stepped_rssis).
Proof.
  unfold hotspot_processor. cbn [signal_history].
  intros [-> | [-> | ->]].
  - apply lookup_insert_eq.
  - rewrite lookup_insert_ne by discriminate. apply lookup_insert_eq.
  - rewrite !lookup_insert_ne by discriminate. apply lookup_insert_eq.
Qed.

Lemma recent_anomaly_hotspot (id : string) :
  id = "a"%string \/ id = "b"%string \/ id = "c"%string ->
  recent_anomaly hotspot_processor id = 1.
Proof.
  intros Hid. unfold recent_anomaly. rewrite (hotspot_history id Hid).
  unfold stepped_rssis.
  cbn [repeat app map length Nat.leb last_n Nat.sub skipn].
  rewrite !(detect_signal_anomaly_stepped hotspot_processor id id)
    by (apply (hotspot_history id Hid) || (simpl; lra)).
  apply np_mean_five.
Qed.

Lemma euclidean_value (a b c d r : R) :
  0 <= r -> (a - c) ^ 2 + (b - d) ^ 2 = r * r -> euclidean (a, b) (c, d) = r.
Proof.
  intros Hr E. unfold euclidean. cbn [fst snd]. rewrite E.
  now apply sqrt_square.
Qed.

Lemma device_positions_hotspot :
  device_positions hotspot_processor =
    [("a"%string, position_of "a" (0, 0));
     ("b"%string, position_of "b" (6, 8));
     ("c"%string, position_of "c" (3, 4))].
Proof. reflexivity. Qed.

Ltac eval_mean :=
  unfold np_mean, sum_R; cbn [fold_right length]; simpl INR; field.

(** The three devices all score 1 and the clustering keeps them together:
    one region is returned, centred at their mean, of radius 5, high. *)
Lemma detect_anomaly_regions_hotspot :
  snd (detect_anomaly_regions one_cluster hotspot_processor 0)
  = [hotspot_region].
Proof.
  unfold detect_anomaly_regions. rewrite device_positions_hotspot.
  cbn [map fst snd dp_x dp_y position_of length Nat.ltb Nat.leb].
  rewrite !recent_anomaly_hotspot by auto.
  cbn [combine List.filter snd].
  destruct (Rgt_dec 1 0.5); [|lra].
  cbn [map fst length Nat.ltb Nat.leb snd].
  unfold one_cluster. cbn [map].
  change (remove_dups [0%Z; 0%Z; 0%Z]) with [0%Z].
  cbn [flat_map]. unfold region_of_cluster.
  rewrite device_positions_hotspot.
  cbn [Z.eqb combine List.filter snd fst map dp_x dp_y position_of app].
  replace (np_mean [0; 6; 3]) with 3 by eval_mean.
  replace (np_mean [0; 8; 4]) with 4 by eval_mean.
  rewrite (euclidean_value 3 4 0 0 5), (euclidean_value 3 4 6 8 5),
    (euclidean_value 3 4 3 4 0), (euclidean_value 0 0 3 4 5),
    (euclidean_value 6 8 3 4 5) by lra.
  replace (max_list 5 [5; 0]) with 5
    by (unfold max_list; cbn [fold_left]; r_minmax).
  destruct (Rle_dec 5 5); [|lra]. destruct (Rle_dec 0 5); [|lra].
  cbn [map fst snd]. rewrite np_mean_three.
  destruct (Rgt_dec 1 0.7); [|lra]. reflexivity.
Qed.

(** The region around the three devices: high with confidence 1, the mean
    of their three scores, and with the three of them as members. *)
Lemma detect_anomaly_regions_spec_witness :
  (severity hotspot_region = "high"%string <->
   confidence hotspot_region > 0.7) /\
  (severity hotspot_region = "medium"%string <->
   ~ confidence hotspot_region > 0.7) /\
  confidence hotspot_region =
    np_mean
      (map (fun item => recent_anomaly hotspot_processor (fst item))
         (List.filter
            (fun item => within_region hotspot_region (coordinates (snd item)))
            (device_positions hotspot_processor))) /\
  (forall d,
     In d (affected_devices hotspot_region) <->
     exists pos,
       In (d, pos) (device_positions hotspot_processor) /\
       euclidean (coordinates pos) (center hotspot_region)
       <= radius hotspot_region).
Proof.
  apply (detect_anomaly_regions_spec one_cluster hotspot_processor 0
           hotspot_region).
  rewrite detect_anomaly_regions_hotspot. left. reflexivity.
Defined.

(** * Further properties of the engine *)

(** ** Health score against availability *)

Lemma pre_uptime_score_range (features : gmap string R) :
  30 <= run_rules features pre_uptime_rules 100 <= 100.
Proof.
  unfold run_rules, pre_uptime_rules, rule_rssi_level, rule_rssi_std,
    rule_response_time_level, rule_response_time_trend.
  cbn [fold_left].
  destruct (features !! "rssi_mean"%string),
           (features !! "rssi_std"%string),
           (features !! "response_time_mean"%string),
           (features !! "response_time_trend"%string);
    r_cases; lra.
Qed.

Lemma post_uptime_rules_decrease (features : gmap string R) (score : R) :
  (forall d, features !! "disconnect_events"%string = Some d -> 0 <= d) ->
  (forall e, features !! "error_rate"%string = Some e -> 0 <= e) ->
  run_rules features post_uptime_rules score <= score.
Proof.
  intros Hd He.
  unfold run_rules, post_uptime_rules, rule_disconnects, rule_error_rate,
    rule_temperature, rule_power.
  cbn [fold_left].
  destruct (features !! "disconnect_events"%string) as [d|];
    [specialize (Hd d eq_refl)|clear Hd];
    (destruct (features !! "error_rate"%string) as [e|];
     [specialize (He e eq_refl)|clear He]);
    destruct (features !! "temp_max"%string),
             (features !! "power_trend"%string);
    r_minmax.
Qed.

Lemma health_score_range_bounds (features : gmap string R) :
  0 <= calculate_health_score features <= 100.
Proof. unfold calculate_health_score. apply clamp_range. Qed.

(** X1. With an availability between 0 and 1 and non-negative disconnect
    count and error rate, the health score is at most 100 times the
    availability; a device that was never up scores 0 and is critical. *)
Theorem health_score_bounded_by_uptime (features : gmap string R) (u : R) :
  features !! "uptime_ratio"%string = Some u ->
  0 <= u <= 1 ->
  (forall d, features !! "disconnect_events"%string = Some d -> 0 <= d) ->
  (forall e, features !! "error_rate"%string = Some e -> 0 <= e) ->
  calculate_health_score features <= 100 * u /\
  (u = 0 ->
   calculate_health_score features = 0 /\
   determine_risk_level (calculate_health_score features)
   = "critical"%string).
Proof.
  intros Hu Hrange Hd He.
  assert (Hle : calculate_health_score features <= 100 * u).
  { rewrite calculate_health_score_rules.
    unfold apply_rules, health_rules.
    rewrite run_rules_app, run_rules_cons.
    pose proof (pre_uptime_score_range features) as Hpre.
    pose proof (post_uptime_rules_decrease features
                  (rule_uptime features
                     (run_rules features pre_uptime_rules 100)) Hd He)
      as Hpost.
    unfold rule_uptime in *. rewrite Hu in *.
    set (pre := run_rules features pre_uptime_rules 100) in *.
    set (post := run_rules features post_uptime_rules (pre * u)) in *.
    assert (pre * u <= 100 * u) by nra.
    r_minmax. }
  split; [exact Hle|].
  intros ->.
  assert (E : calculate_health_score features = 0).
  { pose proof (proj1 (health_score_range_bounds features)). lra. }
  split; [exact E|].
  rewrite E. unfold determine_risk_level. r_cases; try reflexivity; lra.
Qed.

(** The half-available device scores at most 50. *)
Lemma health_score_bounded_by_uptime_witness :
  calculate_health_score half_up_features <= 100 * / 2.
Proof.
  apply (health_score_bounded_by_uptime half_up_features (/ 2)).
  - unfold half_up_features. eval_lookups. reflexivity.
  - lra.
  - intros d. unfold half_up_features. eval_lookups. discriminate.
  - intros e. unfold half_up_features. eval_lookups. discriminate.
Defined.

(** ** Failure-date window *)

Lemma predict_failure_date_some (now : R) (device_id : string)
    (features : gmap string R) (d c : R) :
  predict_failure_date now device_id features = (Some d, c) ->
  calculate_health_score features <= 70 /\
  (0 < negative_trends features)%nat.
Proof.
  intros H.
  destruct (Rle_dec (calculate_health_score features) 70) as [Hs|Hs].
  - split; [exact Hs|].
    destruct (negative_trends features) eqn:Hn; [|lia].
    rewrite predict_failure_date_no_trend in H by exact Hn. discriminate.
  - rewrite predict_failure_date_healthy in H by lra. discriminate.
Qed.

Lemma days_to_failure_range (s : R) :
  0 <= s <= 70 ->
  1 <= Rmax 1 ((s - 30) / ((100 - s) / 30)) <= 40 /\
  (s <= 30 -> Rmax 1 ((s - 30) / ((100 - s) / 30)) = 1).
Proof.
  intros Hs.
  replace ((s - 30) / ((100 - s) / 30)) with (30 * (s - 30) / (100 - s))
    by (field; lra).
  assert (Hpos : 0 < / (100 - s)) by (apply Rinv_0_lt_compat; lra).
  assert (Hup : 30 * (s - 30) / (100 - s) <= 40).
  { apply (Rmult_le_reg_r (100 - s)); [lra|].
    unfold Rdiv. rewrite Rmult_assoc, Rinv_l by lra. lra. }
  split; [r_minmax|].
  intros Hlow.
  assert (30 * (s - 30) / (100 - s) <= 0).
  { unfold Rdiv. assert (30 * (s - 30) <= 0) by lra. nra. }
  r_minmax.
Qed.

(** X2. A failure date, when one is returned, lies between 1 and 40 days
    ahead, and at exactly 1 day when the score is already at or below the
    failure threshold of 30; the confidence then lies between 0.6 and
    0.9. *)
Theorem predict_failure_date_window (now : R) (device_id : string)
    (features : gmap string R) (d c : R) :
  predict_failure_date now device_id features = (Some d, c) ->
  now + 1 <= d <= now + 40 /\
  0.6 <= c <= 0.9 /\
  (calculate_health_score features <= 30 -> d = now + 1).
Proof.
  intros H.
  destruct (predict_failure_date_some _ _ _ _ _ H) as [Hs Hneg].
  rewrite predict_failure_date_degrading in H by assumption.
  injection H as <- <-.
  pose proof (health_score_range_bounds features) as Hr.
  destruct (days_to_failure_range (calculate_health_score features))
    as [Hd Hone]; [lra|].
  assert (Hn : 1 <= INR (negative_trends features)).
  { change 1 with (INR 1). apply le_INR. lia. }
  split; [lra | split; [r_minmax|]].
  intros Hlow. rewrite Hone by exact Hlow. reflexivity.
Qed.

(** The degraded device with the falling RSSI: score 55, one negative
    trend. *)
Lemma predict_failure_date_window_witness :
  0 + 1 <= 0 + Rmax 1 ((55 - 30) / ((100 - 55) / 30)) <= 0 + 40 /\
  0.6 <= Rmin 0.9 (0.5 + 0.1 * INR 1) <= 0.9 /\
  (calculate_health_score (falling_features (-1) (-80) 2000) <= 30 ->
   0 + Rmax 1 ((55 - 30) / ((100 - 55) / 30)) = 0 + 1).
Proof.
  apply (predict_failure_date_window 0 "device"
           (falling_features (-1) (-80) 2000)).
  rewrite predict_failure_date_degrading.
  - now rewrite health_score_falling, negative_trends_falling.
  - rewrite health_score_falling. lra.
  - rewrite negative_trends_falling. lia.
Defined.

(** ** Factors and recommendations *)

Lemma in_append_if_elim (c : bool) (l : list string) (s x : string) :
  In x (append_if c l s) -> In x l \/ (c = true /\ x = s).
Proof.
  unfold append_if. destruct c; [|auto].
  rewrite in_app_iff. simpl. intuition congruence.
Qed.

Lemma in_append_if_old (c : bool) (l : list string) (s x : string) :
  In x l -> In x (append_if c l s).
Proof.
  unfold append_if. destruct c; [|auto]. rewrite in_app_iff. auto.
Qed.

Lemma in_append_if_new (c : bool) (l : list string) (s : string) :
  c = true -> In s (append_if c l s).
Proof. intros ->. unfold append_if. rewrite in_app_iff. simpl. auto. Qed.

Lemma feature_test_mono (features : gmap string R) (k : string)
    (t1 t2 : R -> bool) :
  (forall v, t1 v = true -> t2 v = true) ->
  feature_test features k t1 = true -> feature_test features k t2 = true.
Proof.
  unfold feature_test. destruct (features !! k); [auto | discriminate].
Qed.

Lemma Rltb_true (a b : R) : Rltb a b = true <-> a < b.
Proof. unfold Rltb. destruct (Rlt_dec a b); intuition discriminate. Qed.

Lemma Rgtb_true (a b : R) : Rgtb a b = true <-> a > b.
Proof. unfold Rgtb. destruct (Rgt_dec a b); intuition discriminate. Qed.

Lemma str_neq (a b : string) : String.eqb a b = false -> a <> b.
Proof. intros H. now apply String.eqb_neq. Qed.

(** Strip the conditional appends off a membership hypothesis, dropping
    the entries whose text differs. *)
Ltac elim_appends H :=
  repeat (apply in_append_if_elim in H;
          destruct H as [H|[? H]];
          [|try (exfalso; revert H; apply str_neq; reflexivity)]).

(** The first, score-driven entry of the recommendations. *)
Lemma in_maintenance_head (s : R) (x : string) :
  In x (if Rlt_dec s 30
        then [] ++ ["Schedule immediate maintenance inspection"%string]
        else if Rlt_dec s 50
             then [] ++ ["Plan preventive maintenance within 2 weeks"%string]
             else []) <->
  (s < 30 /\ x = "Schedule immediate maintenance inspection"%string) \/
  (30 <= s < 50 /\ x = "Plan preventive maintenance within 2 weeks"%string).
Proof.
  destruct (Rlt_dec s 30); [|destruct (Rlt_dec s 50)]; cbn [app In];
    intuition (try lra; try congruence).
Qed.

Lemma in_recommendations_head (device_id : string) (features : gmap string R)
    (s : R) (x : string) :
  In x (if Rlt_dec s 30
        then [] ++ ["Schedule immediate maintenance inspection"%string]
        else if Rlt_dec s 50
             then [] ++ ["Plan preventive maintenance within 2 weeks"%string]
             else []) ->
  In x (generate_recommendations device_id features s).
Proof.
  intros H. unfold generate_recommendations. cbv zeta.
  do 5 apply in_append_if_old. exact H.
Qed.

Lemma determine_risk_level_critical (s : R) :
  determine_risk_level s = "critical"%string <-> s < 30.
Proof.
  unfold determine_risk_level. r_cases; split; intros H;
    try reflexivity; try lra; discriminate H.
Qed.

(** X3. The maintenance entry of the recommendations follows the risk
    bucket of the score: immediate inspection exactly for a critical score,
    preventive maintenance exactly for a score from 30 up to 50, never
    both. *)
Theorem maintenance_recommendation_matches_risk (device_id : string)
    (features : gmap string R) (s : R) :
  (In "Schedule immediate maintenance inspection"%string
      (generate_recommendations device_id features s) <->
   determine_risk_level s = "critical"%string) /\
  (In "Plan preventive maintenance within 2 weeks"%string
      (generate_recommendations device_id features s) <->
   30 <= s < 50) /\
  ~ (In "Schedule immediate maintenance inspection"%string
       (generate_recommendations device_id features s) /\
     In "Plan preventive maintenance within 2 weeks"%string
       (generate_recommendations device_id features s)).
Proof.
  assert (Himm : In "Schedule immediate maintenance inspection"%string
                   (generate_recommendations device_id features s) <->
                 s < 30).
  { split; intros H.
    - unfold generate_recommendations in H. cbv zeta in H. elim_appends H.
      apply in_maintenance_head in H as [[Hs _]|[_ H]]; [exact Hs|].
      exfalso. revert H. apply str_neq. reflexivity.
    - apply in_recommendations_head, in_maintenance_head. auto. }
  assert (Hprev : In "Plan preventive maintenance within 2 weeks"%string
                    (generate_recommendations device_id features s) <->
                  30 <= s < 50).
  { split; intros H.
    - unfold generate_recommendations in H. cbv zeta in H. elim_appends H.
      apply in_maintenance_head in H as [[_ H]|[Hs _]]; [|exact Hs].
      exfalso. revert H. apply str_neq. reflexivity.
    - apply in_recommendations_head, in_maintenance_head. auto. }
  split; [|split].
  - rewrite determine_risk_level_critical. exact Himm.
  - exact Hprev.
  - intros [H1 H2]. apply Himm in H1. apply Hprev in H2. lra.
Qed.

(** X4. Every targeted recommendation is backed by a listed factor: weak
    signal, slow response, error rate and overheating are recommended on
    only when the matching factor is reported. *)
Theorem recommendations_backed_by_factors (device_id : string)
    (features : gmap string R) (s : R) :
  (In "Improve device positioning or add WiFi extender"%string
      (generate_recommendations device_id features s) ->
   In "Poor signal strength"%string (identify_health_factors features)) /\
  (In "Check network congestion and device load"%string
      (generate_recommendations device_id features s) ->
   In "High response times"%string (identify_health_factors features)) /\
  (In "Review device logs for error patterns"%string
      (generate_recommendations device_id features s) ->
   In "High error rate"%string (identify_health_factors features)) /\
  (In "Improve device ventilation or cooling"%string
      (generate_recommendations device_id features s) ->
   In "Temperature concerns"%string (identify_health_factors features)).
Proof.
  assert (Hhead : forall x : string,
            x <> "Schedule immediate maintenance inspection"%string ->
            x <> "Plan preventive maintenance within 2 weeks"%string ->
            ~ In x (if Rlt_dec s 30
                    then [] ++ ["Schedule immediate maintenance inspection"%string]
                    else if Rlt_dec s 50
                         then [] ++ ["Plan preventive maintenance within 2 weeks"%string]
                         else [])).
  { intros x H1 H2 H. apply in_maintenance_head in H. intuition congruence. }
  repeat apply conj; intros H;
    unfold generate_recommendations in H; cbv zeta in H; elim_appends H;
    try (exfalso; revert H; apply Hhead; apply str_neq; reflexivity);
    unfold identify_health_factors; cbv zeta.
  - do 6 apply in_append_if_old. now apply in_append_if_new.
  - do 4 apply in_append_if_old. apply in_append_if_new.
    revert H0. apply feature_test_mono. intros v. rewrite !Rgtb_true. lra.
  - do 2 apply in_append_if_old. apply in_append_if_new.
    revert H0. apply feature_test_mono. intros v. rewrite !Rgtb_true. lra.
  - do 1 apply in_append_if_old. apply in_append_if_new.
    revert H0. apply feature_test_mono. intros v. rewrite !Rgtb_true. lra.
Qed.

(** ** Health summary *)

Lemma summary_step_fields (summary : HealthSummary)
    (item : string * DeviceHealth) :
  let s1 := summary_step summary item in
  total_devices s1 = total_devices summary /\
  (healthy_devices s1 + at_risk_devices s1 + critical_devices s1
   = healthy_devices summary + at_risk_devices summary
     + critical_devices summary + 1)%nat /\
  healthy_devices s1
  = (healthy_devices summary
     + length (List.filter
                 (fun item => String.eqb (risk_level (snd item)) "low")
                 [item]))%nat /\
  critical_devices s1
  = (critical_devices summary
     + length (List.filter (fun item => counts_as_critical (snd item))
                 [item]))%nat /\
  devices_needing_attention s1
  = devices_needing_attention summary
    ++ map attention_of
         (List.filter (fun item => counts_as_critical (snd item)) [item]).
Proof.
  unfold summary_step, counts_as_critical. cbn [List.filter].
  destruct (String.eqb (risk_level (snd item)) "low");
    [|destruct (String.eqb (risk_level (snd item)) "medium"
               || String.eqb (risk_level (snd item)) "high")];
    cbn [total_devices healthy_devices at_risk_devices critical_devices
         devices_needing_attention orb negb length map];
    rewrite ?app_nil_r; repeat split; try lia; reflexivity.
Qed.

Lemma summary_fold (items : list (string * DeviceHealth)) :
  forall summary : HealthSummary,
    let summary' := fold_left summary_step items summary in
    total_devices summary' = total_devices summary /\
    (healthy_devices summary' + at_risk_devices summary'
     + critical_devices summary'
     = healthy_devices summary + at_risk_devices summary
       + critical_devices summary + length items)%nat /\
    healthy_devices summary'
    = (healthy_devices summary
       + length (List.filter
                   (fun item => String.eqb (risk_level (snd item)) "low")
                   items))%nat /\
    critical_devices summary'
    = (critical_devices summary
       + length (List.filter (fun item => counts_as_critical (snd item))
                   items))%nat /\
    devices_needing_attention summary'
    = devices_needing_attention summary
      ++ map attention_of
           (List.filter (fun item => counts_as_critical (snd item)) items).
Proof.
  induction items as [|item items IH]; intros summary; cbn zeta.
  - cbn [fold_left length List.filter map]. rewrite app_nil_r.
    repeat split; lia.
  - change (item :: items) with ([item] ++ items).
    rewrite fold_left_app, !List.filter_app, map_app, !length_app.
    cbn [fold_left].
    destruct (IH (summary_step summary item)) as (Ht & Hsum & Hh & Hc & Ha).
    destruct (summary_step_fields summary item)
      as (Ht1 & Hsum1 & Hh1 & Hc1 & Ha1).
    cbn [length] in *.
    repeat split; try lia.
    rewrite Ha, Ha1, <- app_assoc. reflexivity.
Qed.

(** X5. The three counters of the health summary partition the devices:
    they add up to the total, the healthy ones are those at low risk, and
    the attention list holds, in dictionary order, exactly the devices
    counted as critical (any risk level other than low, medium and
    high). *)
Theorem health_summary_partitions
    (device_health : list (string * DeviceHealth)) :
  let summary := get_device_health_summary device_health in
  total_devices summary = length device_health /\
  (healthy_devices summary + at_risk_devices summary
   + critical_devices summary = total_devices summary)%nat /\
  healthy_devices summary
  = length (List.filter
              (fun item => String.eqb (risk_level (snd item)) "low")
              device_health) /\
  devices_needing_attention summary
  = map attention_of
      (List.filter (fun item => counts_as_critical (snd item))
         device_health) /\
  length (devices_needing_attention summary) = critical_devices summary.
Proof.
  unfold get_device_health_summary.
  destruct device_health as [|item items] eqn:E.
  - cbn. repeat split; reflexivity.
  - rewrite <- E. clear E item items.
    destruct (summary_fold device_health
                {| total_devices := length device_health;
                   healthy_devices := 0;
                   at_risk_devices := 0;
                   critical_devices := 0;
                   average_health_score := 0;
                   devices_needing_attention := [] |})
      as (Ht & Hsum & Hh & Hc & Ha).
    cbn [total_devices healthy_devices at_risk_devices critical_devices
         devices_needing_attention app Nat.add] in *.
    rewrite Ht, Hh, Hc, Ha, length_map.
    rewrite Hh, Hc in Hsum.
    repeat split; try reflexivity; lia.
Qed.

(** ** Telemetry retention *)

(** X6. After [add_device_telemetry] the device keeps only records newer
    than 30 days, at most one more than before; a record handed in without
    a timestamp is stamped with the current time and kept as the newest;
    the other devices are untouched; a health update is scheduled exactly
    when at least 10 records remain. *)
Theorem add_device_telemetry_retention
    (device_history : gmap string (list StoredTelemetry)) (now : R)
    (device_id : string) (telemetry : Telemetry) :
  let after := add_device_telemetry device_history now device_id telemetry in
  exists kept,
    fst after !! device_id = Some kept /\
    Forall (fun data => st_timestamp data > now - 30) kept /\
    (length kept <= length (default [] (device_history !! device_id)) + 1)%nat /\
    (tm_timestamp telemetry = None ->
     last kept
     = Some {| st_timestamp := now; st_values := tm_values telemetry |}) /\
    (forall other, other <> device_id ->
       fst after !! other = device_history !! other) /\
    (snd after = true <-> (10 <= length kept)%nat).
Proof.
  unfold add_device_telemetry. cbn [fst snd].
  eexists. split; [apply lookup_insert_eq|].
  split; [|split; [|split; [|split]]].
  - apply List.Forall_forall. intros data Hin.
    apply filter_In in Hin as [_ Hin]. now apply Rgtb_true in Hin.
  - etransitivity; [apply List.filter_length_le|].
    rewrite length_app. cbn [length].
    destruct (device_history !! device_id); simpl; lia.
  - intros ->. rewrite List.filter_app. cbn [List.filter st_timestamp].
    replace (Rgtb now (now - 30)) with true
      by (symmetry; apply Rgtb_true; lra).
    apply last_snoc.
  - intros other Hne. now apply lookup_insert_ne.
  - unfold min_data_points. apply Nat.leb_le.
Qed.

(** * Further properties of the signal processor *)

(** ** The Kalman filter stays well defined *)

Lemma KalmanFilter_update_sane (self : KalmanFilter) (z : R) :
  kalman_sane self ->
  exists self' y,
    KalmanFilter_update self z = Ok (self', y) /\
    kalman_sane self' /\
    process_variance self' = process_variance self /\
    measurement_variance self' = measurement_variance self /\
    estimate self' = Some y.
Proof.
  intros (HQ & HR & HP).
  destruct (KalmanFilter_update_total self z HQ HR HP)
    as (self' & y & E & EQ & ER & HP').
  exists self', y. split; [exact E|].
  split; [unfold kalman_sane; rewrite EQ, ER; auto|].
  split; [exact EQ|]. split; [exact ER|].
  destruct (estimate self) as [x|] eqn:He.
  - rewrite (KalmanFilter_update_next self x z He) in E by lra.
    cbv zeta in E. injection E as <- <-. reflexivity.
  - rewrite (KalmanFilter_update_first self z He) in E.
    injection E as <- <-. reflexivity.
Qed.

Lemma KalmanFilter_run_sane (zs : list R) :
  forall self : KalmanFilter,
    kalman_sane self ->
    exists self' ys,
      KalmanFilter_run self zs = Ok (self', ys) /\
      length ys = length zs /\
      kalman_sane self' /\
      process_variance self' = process_variance self /\
      measurement_variance self' = measurement_variance self /\
      (forall y, last ys = Some y -> estimate self' = Some y).
Proof.
  induction zs as [|z zs IH]; intros self Hsane.
  - exists self, []. cbn [KalmanFilter_run length].
    split; [reflexivity|]. split; [reflexivity|]. split; [exact Hsane|].
    split; [reflexivity|]. split; [reflexivity|]. intros y Hy. discriminate Hy.
  - destruct (KalmanFilter_update_sane self z Hsane)
      as (self1 & y1 & E & Hsane1 & EQ & ER & He1).
    destruct (IH self1 Hsane1)
      as (self' & ys & Er & Hlen & Hsane' & EQ' & ER' & He').
    exists self', (y1 :: ys). cbn [KalmanFilter_run].
    rewrite E. cbn [bind fst snd]. rewrite Er. cbn [bind fst snd length].
    split; [reflexivity|]. split; [now rewrite Hlen|]. split; [exact Hsane'|].
    split; [now rewrite EQ'|]. split; [now rewrite ER'|].
    intros y Hy. destruct ys as [|y2 ys].
    + cbn in Hy. injection Hy as <-.
      cbn [KalmanFilter_run] in Er. destruct zs; [|discriminate Hlen].
      cbn [KalmanFilter_run] in Er. injection Er as <-. exact He1.
    + apply He'. exact Hy.
Qed.

(** X7. A Kalman filter with non-negative process variance, positive
    measurement variance and non-negative error estimate never raises:
    whatever the measurements, it returns one estimate per measurement,
    keeps its variances and a non-negative error estimate, and holds the
    estimate it returned last.  The variances matter: a filter built with
    both equal to 0 raises ZeroDivisionError on its third measurement. *)
Theorem kalman_filter_stays_sane (self : KalmanFilter) (zs : list R) :
  kalman_sane self ->
  (exists self' ys,
     KalmanFilter_run self zs = Ok (self', ys) /\
     length ys = length zs /\
     kalman_sane self' /\
     process_variance self' = process_variance self /\
     measurement_variance self' = measurement_variance self /\
     (forall y, last ys = Some y -> estimate self' = Some y)) /\
  (forall z1 z2 z3,
     KalmanFilter_run (KalmanFilter_init 0 0) [z1; z2; z3]
     = Raise ZeroDivisionError).
Proof.
  intros Hsane. split; [now apply KalmanFilter_run_sane|].
  intros z1 z2 z3. cbn [KalmanFilter_run].
  rewrite KalmanFilter_update_first by reflexivity. cbn [bind fst snd].
  unfold KalmanFilter_update at 1.
  cbn [estimate error_estimate process_variance measurement_variance
       KalmanFilter_init].
  cbv zeta. rewrite py_div_ok by lra. cbn [bind fst snd].
  unfold KalmanFilter_update at 1.
  cbn [estimate error_estimate process_variance measurement_variance].
  cbv zeta. unfold py_div.
  destruct (Req_dec_T _ 0) as [_|Hne]; [reflexivity|].
  exfalso. apply Hne. field.
Qed.

(** Three readings through the filter of the source's defaults. *)
Lemma kalman_filter_stays_sane_witness :
  (exists self' ys,
     KalmanFilter_run (KalmanFilter_init 0.001 0.1) [-50; -60; -55]
     = Ok (self', ys) /\
     length ys = 3%nat /\
     kalman_sane self' /\
     process_variance self' = 0.001 /\
     measurement_variance self' = 0.1 /\
     (forall y, last ys = Some y -> estimate self' = Some y)) /\
  (forall z1 z2 z3,
     KalmanFilter_run (KalmanFilter_init 0 0) [z1; z2; z3]
     = Raise ZeroDivisionError).
Proof.
  apply (kalman_filter_stays_sane (KalmanFilter_init 0.001 0.1)
           [-50; -60; -55]).
  unfold kalman_sane. cbn. lra.
Defined.

(** ** Where the distance estimate raises *)

(** X8. Below the reference RSSI, with e = (reference - rssi) / (10 n),
    for a difference and a denominator 10 n that are floats themselves:
    on built-in floats the call raises ZeroDivisionError for the exponent
    n = 0, returns 10 ^ e clamped to [1, 1000] as long as e is at most
    308, and raises OverflowError once e reaches 309, before the clamp is
    applied (up to 10 ^ 308, beyond which the quotient itself becomes inf
    and nothing is raised).  On a [np.float64] it returns in every case,
    within [1, 1000], and 1000 where the built-in floats overflow. *)
Theorem rssi_to_distance_errors (rssi reference_rssi n : R) :
  rssi < reference_rssi ->
  reference_rssi - rssi <= float_max ->
  Rabs (10 * n) <= float_max ->
  let e := (reference_rssi - rssi) / (10 * n) in
  (n = 0 ->
   rssi_to_distance python_float rssi reference_rssi n
   = Raise ZeroDivisionError) /\
  (n <> 0 -> e <= 308 ->
   rssi_to_distance python_float rssi reference_rssi n
   = Ok (Rmax 1 (Rmin (Rpower 10 e) 1000))) /\
  (n <> 0 -> 309 <= e <= 10 ^ 308 ->
   rssi_to_distance python_float rssi reference_rssi n
   = Raise OverflowError) /\
  (exists d,
     rssi_to_distance numpy_float64 rssi reference_rssi n = Ok d /\
     1 <= d <= 1000 /\
     (n <> 0 -> 309 <= e -> d = 1000)).
Proof.
  intros Hlt _ _ e.
  assert (Hpy : n <> 0 ->
            rssi_to_distance python_float rssi reference_rssi n
            = try! distance := py_pow 10 e in
              Ok (Rmax 1 (Rmin distance 1000))).
  { intros Hn. unfold rssi_to_distance.
    destruct (Rge_dec rssi reference_rssi); [lra|].
    rewrite py_div_ok by lra. reflexivity. }
  split; [|split; [|split]].
  - intros ->. unfold rssi_to_distance.
    destruct (Rge_dec rssi reference_rssi); [lra|].
    unfold py_div. destruct (Req_dec_T (10 * 0) 0); [reflexivity | lra].
  - intros Hn He. rewrite (Hpy Hn), py_pow_in_range by exact He.
    reflexivity.
  - intros Hn [He _]. rewrite (Hpy Hn), py_pow_out_of_range by exact He.
    reflexivity.
  - destruct (rssi_to_distance_total rssi reference_rssi n)
      as (d & E & Hd).
    exists d. split; [exact E|]. split; [exact Hd|].
    intros Hn He. rewrite rssi_to_distance_numpy in E by assumption.
    injection E as <-. fold e.
    pose proof (pow10_out_of_range e He). pose proof float_max_large.
    r_minmax.
Qed.

(** A reading 20 dB under the reference, with the default exponent. *)
Lemma rssi_to_distance_errors_witness :
  let e := (-30 - -50) / (10 * 2) in
  (2 = 0 ->
   rssi_to_distance python_float (-50) (-30) 2 = Raise ZeroDivisionError) /\
  (2 <> 0 -> e <= 308 ->
   rssi_to_distance python_float (-50) (-30) 2
   = Ok (Rmax 1 (Rmin (Rpower 10 e) 1000))) /\
  (2 <> 0 -> 309 <= e <= 10 ^ 308 ->
   rssi_to_distance python_float (-50) (-30) 2 = Raise OverflowError) /\
  (exists d,
     rssi_to_distance numpy_float64 (-50) (-30) 2 = Ok d /\
     1 <= d <= 1000 /\
     (2 <> 0 -> 309 <= e -> d = 1000)).
Proof.
  pose proof float_max_large as Hmax.
  apply (rssi_to_distance_errors (-50) (-30) 2).
  - lra.
  - lra.
  - unfold Rabs. destruct (Rcase_abs (10 * 2)); lra.
Defined.

(** ** Signal quality *)

Lemma lookup_py_dict (items : list (string * R)) (k : string) :
  py_dict items !! k = assoc k items.
Proof. exact (lookup_features_of items k). Qed.

Ltac eval_dict :=
  rewrite ?lookup_py_dict;
  cbn [assoc String.eqb Ascii.eqb Bool.eqb andb].

Lemma no_signal_quality_scores : quality_scores no_signal_quality 0 0 0.
Proof. unfold quality_scores, no_signal_quality. eval_dict. auto. Qed.

Lemma quality_scores_range (rssis : list R) :
  let strength := Rmax 0 (Rmin 1 ((np_mean rssis + 100) / 70)) in
  let stability := Rmax 0 (1 - np_std rssis / 30) in
  0 <= strength <= 1 /\ 0 <= stability <= 1 /\
  0 <= 0.6 * strength + 0.4 * stability <= 1.
Proof.
  cbv zeta. pose proof (np_std_nonneg rssis) as Hsd.
  set (sd := np_std rssis) in *. set (mu := (np_mean rssis + 100) / 70).
  r_minmax.
Qed.

(** X10. For every device the quality dictionary holds an overall, a
    stability and a strength score, each between 0 and 1, the overall one
    being 0.6 strength + 0.4 stability; for an unknown device or fewer
    than 5 stored samples all three are 0. *)
Theorem calculate_signal_quality_range (self : AdvancedSignalProcessor)
    (device_id : string) :
  exists overall stability strength,
    quality_scores (calculate_signal_quality self device_id)
      overall stability strength /\
    0 <= overall <= 1 /\ 0 <= stability <= 1 /\ 0 <= strength <= 1 /\
    overall = 0.6 * strength + 0.4 * stability /\
    (signal_history self !! device_id = None ->
     overall = 0 /\ stability = 0 /\ strength = 0) /\
    (forall history,
       signal_history self !! device_id = Some history ->
       (length history < 5)%nat ->
       overall = 0 /\ stability = 0 /\ strength = 0).
Proof.
  unfold calculate_signal_quality.
  destruct (signal_history self !! device_id) as [history|].
  - destruct (length history <? 5)%nat eqn:E.
    + exists 0, 0, 0. split; [exact no_signal_quality_scores|].
      repeat split; try lra; intros; discriminate.
    + apply Nat.ltb_ge in E. cbv zeta.
      destruct (quality_scores_range (map rssi (last_n 10 history)))
        as (Hs & Hst & Ho).
      eexists _, _, _. split.
      { unfold quality_scores. eval_dict. repeat split; reflexivity. }
      split; [lra | split; [lra | split; [lra | split; [reflexivity|]]]].
      split; [discriminate|]. intros h [= <-] Hlt. lia.
  - exists 0, 0, 0. split; [exact no_signal_quality_scores|].
    repeat split; try lra; intros; discriminate.
Qed.

(** X11. The quality at a time only counts the measurements taken within
    300 seconds of it: with fewer than 3 of them all three scores are 0,
    and in every case they lie between 0 and 1. *)
Theorem calculate_signal_quality_at_time_range
    (self : AdvancedSignalProcessor) (device_id : string) (t : R) :
  exists overall stability strength,
    quality_scores (calculate_signal_quality_at_time self device_id t)
      overall stability strength /\
    0 <= overall <= 1 /\ 0 <= stability <= 1 /\ 0 <= strength <= 1 /\
    overall = 0.6 * strength + 0.4 * stability /\
    (forall history,
       signal_history self !! device_id = Some history ->
       (length (List.filter
                  (fun m => Rleb (Rabs (timestamp m - t)) 300) history)
        < 3)%nat ->
       overall = 0 /\ stability = 0 /\ strength = 0).
Proof.
  unfold calculate_signal_quality_at_time.
  destruct (signal_history self !! device_id) as [history|].
  - fold (within_seconds 300 t).
    change (fun m => Rleb (Rabs (timestamp m - t)) 300)
      with (within_seconds 300 t).
    destruct (length _ <? 3)%nat eqn:E.
    + exists 0, 0, 0. split; [exact no_signal_quality_scores|].
      repeat split; lra.
    + apply Nat.ltb_ge in E. cbv zeta.
      destruct (quality_scores_range
                  (map rssi (List.filter (within_seconds 300 t) history)))
        as (Hs & Hst & Ho).
      eexists _, _, _. split.
      { unfold quality_scores. eval_dict. repeat split; reflexivity. }
      split; [lra | split; [lra | split; [lra | split; [reflexivity|]]]].
      intros h [= <-] Hlt. lia.
  - exists 0, 0, 0. split; [exact no_signal_quality_scores|].
    repeat split; try lra; intros; discriminate.
Qed.

(** ** What a returned position carries *)

Lemma calculate_position_confidence_range (positions : list (R * R))
    (distances : list R) (q : R * R) (c : R) :
  calculate_position_confidence positions distances q = Ok c ->
  0 <= c <= 1.
Proof.
  unfold calculate_position_confidence.
  destruct (mapM _ (enumerate positions)) as [errors|e] eqn:E;
    [|discriminate].
  cbn [bind]. intros Hc.
  assert (Hpos : Forall (fun x => 0 <= x) errors).
  { clear Hc. revert errors E. generalize (enumerate positions).
    induction l as [|ip l IH]; intros errors E; cbn [mapM] in E.
    - injection E as <-. constructor.
    - destruct (py_index distances (fst ip)) as [d|]; [|discriminate].
      cbn [bind] in E.
      destruct (mapM _ l) as [ys|]; [|discriminate].
      cbn [bind] in E. injection E as <-.
      constructor; [apply Rabs_pos | now apply IH]. }
  destruct errors as [|x errors]; injection Hc as <-; [lra|].
  pose proof (np_mean_nonneg (x :: errors) ltac:(discriminate) Hpos).
  r_minmax.
Qed.

Lemma distances_in_range (avg_rssi : R) (refs : list ReferencePoint) :
  exists distances,
    mapM (fun ref_point =>
            rssi_to_distance numpy_float64 avg_rssi (rssi_range ref_point) 2)
      refs = Ok distances /\
    length distances = length refs /\
    Forall (fun d => 1 <= d <= 1000) distances.
Proof.
  induction refs as [|rp refs (ds & E & Hlen & Hr)]; cbn [mapM].
  - exists []. repeat split; constructor.
  - destruct (rssi_to_distance_total avg_rssi (rssi_range rp) 2)
      as (d & Ed & Hd).
    rewrite Ed, E. cbn [bind]. exists (d :: ds).
    repeat split; [cbn [length]; now rewrite Hlen | now constructor].
Qed.

(** X12. A position returned by [triangulate_position] names the device
    asked for, is stamped with the current time and the method
    [triangulation], has a confidence between 0 and 1, and its coordinates
    are what the solver returned for the anchor positions and one distance
    per anchor, each between 1 and 1000. *)
Theorem triangulate_position_result
    (minimize : (R * R -> result R) -> R * R -> option (R * R))
    (self : AdvancedSignalProcessor) (now : R) (device_id : string)
    (p : DevicePosition) :
  triangulate_position minimize self now device_id = Ok (Some p) ->
  dp_device_id p = device_id /\
  dp_timestamp p = now /\
  dp_method p = "triangulation"%string /\
  0 <= dp_confidence p <= 1 /\
  exists distances,
    length distances = length (reference_points self) /\
    Forall (fun d => 1 <= d <= 1000) distances /\
    solve_triangulation minimize (map position (reference_points self))
      distances = Some (dp_x p, dp_y p).
Proof.
  unfold triangulate_position.
  destruct (_ <? _)%Z; [discriminate|].
  destruct (signal_history self !! device_id) as [history|]; [|discriminate].
  destruct (length (last_n 5 history) <? 3)%nat; [discriminate|].
  destruct (distances_in_range (np_mean (map rssi (last_n 5 history)))
              (reference_points self)) as (ds & E & Hlen & Hr).
  rewrite E. cbn [bind].
  destruct (length ds <? 3)%nat; [discriminate|].
  destruct (solve_triangulation _ _ _) as [est|] eqn:Es; [|discriminate].
  destruct (calculate_position_confidence _ ds est) as [c|] eqn:Ec;
    [|discriminate].
  cbn [bind]. intros [= <-].
  cbn [dp_device_id dp_timestamp dp_method dp_confidence dp_x dp_y].
  repeat split; try (apply (calculate_position_confidence_range _ _ _ _ Ec)).
  exists ds. rewrite <- surjective_pairing. auto.
Qed.

(** The anchored device. *)
Lemma triangulate_position_result_witness :
  exists p,
    dp_device_id p = "device_01"%string /\
    dp_timestamp p = 0 /\
    dp_method p = "triangulation"%string /\
    0 <= dp_confidence p <= 1.
Proof.
  destruct triangulate_position_anchored as [p Hp]. exists p.
  destruct (triangulate_position_result minimize_at_guess anchored_processor
              0 "device_01" p Hp) as (H1 & H2 & H3 & H4 & _).
  auto.
Defined.

(** ** Historical triangulation *)

Section Historical.

Variable minimize : (R * R -> result R) -> R * R -> option (R * R).
Variable self : AdvancedSignalProcessor.
Variable device_id : string.
Variable t : R.

Lemma triangulate_position_at_time_unknown :
  signal_history self !! device_id = None ->
  triangulate_position_at_time minimize self device_id t = Ok None.
Proof. intros H. unfold triangulate_position_at_time. now rewrite H. Qed.

Lemma triangulate_position_at_time_silent (history : list SignalMeasurement) :
  signal_history self !! device_id = Some history ->
  List.filter (within_seconds 30 t) history = [] ->
  triangulate_position_at_time minimize self device_id t = Ok None.
Proof.
  intros H Hnone. unfold triangulate_position_at_time. rewrite H, Hnone.
  reflexivity.
Qed.

Lemma triangulate_position_at_time_few_references :
  (length (reference_points self) < 3)%nat ->
  triangulate_position_at_time minimize self device_id t = Ok None.
Proof.
  intros Hrefs. unfold triangulate_position_at_time.
  destruct (signal_history self !! device_id) as [history|]; [|reflexivity].
  destruct (length _ <? 1)%nat; [reflexivity|].
  destruct (distances_in_range
              (np_mean (map rssi (List.filter (within_seconds 30 t) history)))
              (reference_points self)) as (ds & E & Hlen & _).
  rewrite E. cbn [bind].
  assert (E3 : (3 <=? length ds)%nat = false) by (apply Nat.leb_gt; lia).
  now rewrite E3.
Qed.

Lemma triangulate_position_at_time_total :
  exists r, triangulate_position_at_time minimize self device_id t = Ok r.
Proof.
  unfold triangulate_position_at_time.
  destruct (signal_history self !! device_id) as [history|]; [|now eexists].
  destruct (length _ <? 1)%nat; [now eexists|].
  destruct (distances_in_range
              (np_mean (map rssi (List.filter (within_seconds 30 t) history)))
              (reference_points self)) as (ds & E & Hlen & _).
  rewrite E. cbn [bind].
  destruct (3 <=? length ds)%nat eqn:E3; [|now eexists].
  apply Nat.leb_le in E3.
  destruct (solve_triangulation _ _ _) as [est|]; [|now eexists].
  rewrite calculate_position_confidence_value.
  - cbn [bind]. now eexists.
  - destruct (reference_points self); [simpl in Hlen; lia | discriminate].
  - now rewrite length_map.
Qed.

Lemma triangulate_position_at_time_some (p : DevicePosition) :
  triangulate_position_at_time minimize self device_id t = Ok (Some p) ->
  (3 <= length (reference_points self))%nat /\
  (exists history,
     signal_history self !! device_id = Some history /\
     (1 <= length (List.filter (within_seconds 30 t) history))%nat) /\
  dp_device_id p = device_id /\
  dp_timestamp p = t /\
  dp_method p = "historical_triangulation"%string /\
  0 <= dp_confidence p <= 1.
Proof.
  intros Hp.
  destruct (Nat.lt_ge_cases (length (reference_points self)) 3) as [Hr|Hr].
  { rewrite triangulate_position_at_time_few_references in Hp by exact Hr.
    discriminate. }
  split; [exact Hr|].
  unfold triangulate_position_at_time in Hp.
  destruct (signal_history self !! device_id) as [history|]; [|discriminate].
  destruct (length _ <? 1)%nat eqn:E1; [discriminate|].
  apply Nat.ltb_ge in E1.
  split; [exists history; auto|].
  destruct (mapM _ (reference_points self)) as [ds|]; [|discriminate].
  cbn [bind] in Hp.
  destruct (3 <=? length ds)%nat; [|discriminate].
  destruct (solve_triangulation _ _ _) as [est|]; [|discriminate].
  destruct (calculate_position_confidence _ ds est) as [c|] eqn:Ec;
    [|discriminate].
  cbn [bind] in Hp. injection Hp as <-.
  cbn [dp_device_id dp_timestamp dp_method dp_confidence].
  repeat split; apply (calculate_position_confidence_range _ _ _ _ Ec).
Qed.

End Historical.

(** X13. [triangulate_position_at_time] never raises.  It returns no
    position for an unknown device, when no stored measurement lies within
    30 seconds of the time asked for, or with fewer than 3 reference
    points.  A position it returns rests on at least 3 reference points and
    at least one such measurement, carries that time and the method
    [historical_triangulation], and has a confidence between 0 and 1. *)
Theorem triangulate_position_at_time_spec
    (minimize : (R * R -> result R) -> R * R -> option (R * R))
    (self : AdvancedSignalProcessor) (device_id : string) (t : R) :
  (exists r, triangulate_position_at_time minimize self device_id t = Ok r) /\
  (signal_history self !! device_id = None ->
   triangulate_position_at_time minimize self device_id t = Ok None) /\
  (forall history,
     signal_history self !! device_id = Some history ->
     List.filter (within_seconds 30 t) history = [] ->
     triangulate_position_at_time minimize self device_id t = Ok None) /\
  ((length (reference_points self) < 3)%nat ->
   triangulate_position_at_time minimize self device_id t = Ok None) /\
  (forall p,
     triangulate_position_at_time minimize self device_id t = Ok (Some p) ->
     (3 <= length (reference_points self))%nat /\
     (exists history,
        signal_history self !! device_id = Some history /\
        (1 <= length (List.filter (within_seconds 30 t) history))%nat) /\
     dp_device_id p = device_id /\
     dp_timestamp p = t /\
     dp_method p = "historical_triangulation"%string /\
     0 <= dp_confidence p <= 1).
Proof.
  repeat apply conj.
  - apply triangulate_position_at_time_total.
  - apply triangulate_position_at_time_unknown.
  - apply triangulate_position_at_time_silent.
  - apply triangulate_position_at_time_few_references.
  - apply triangulate_position_at_time_some.
Qed.

Lemma within_seconds_measurement (id : string) (r window t : R) :
  Rabs (0 - t) <= window ->
  within_seconds window t (measurement_of id r) = true.
Proof.
  intros H. unfold within_seconds, Rleb, measurement_of. cbn [timestamp].
  destruct (Rle_dec _ _); [reflexivity | contradiction].
Qed.

Lemma Rabs_minus_ten : Rabs (0 - 10) <= 30.
Proof. rewrite Rabs_left by lra. lra. Qed.

(** Ten seconds after its three measurements the anchored device is
    located from them. *)
Lemma triangulate_position_at_time_anchored :
  exists p,
    triangulate_position_at_time minimize_at_guess anchored_processor
      "device_01" 10 = Ok (Some p).
Proof.
  unfold triangulate_position_at_time, anchored_processor.
  cbn [reference_points signal_history].
  rewrite lookup_singleton_eq.
  cbn [map List.filter].
  rewrite !(within_seconds_measurement _ _ _ _ Rabs_minus_ten).
  cbn [length map rssi measurement_of Nat.ltb Nat.leb mapM rssi_range
       reference_point_of position].
  rewrite np_mean_three.
  unfold rssi_to_distance. destruct (Rge_dec (-30) (-40)); [|lra].
  cbn [bind length Nat.ltb Nat.leb].
  unfold solve_triangulation, minimize_at_guess. cbn [length Nat.ltb Nat.leb].
  rewrite calculate_position_confidence_value by (discriminate || reflexivity).
  cbn [bind]. eexists. reflexivity.
Qed.

(** A fresh processor knows no device; the anchored device gets a
    historical position. *)
Lemma triangulate_position_at_time_spec_witness :
  triangulate_position_at_time minimize_at_guess AdvancedSignalProcessor_init
    "device_01" 10 = Ok None /\
  exists p,
    dp_timestamp p = 10 /\
    dp_method p = "historical_triangulation"%string /\
    0 <= dp_confidence p <= 1.
Proof.
  split.
  - apply (proj1 (proj2 (triangulate_position_at_time_spec minimize_at_guess
                           AdvancedSignalProcessor_init "device_01" 10))).
    apply lookup_empty.
  - destruct triangulate_position_at_time_anchored as [p Hp]. exists p.
    destruct (proj2 (proj2 (proj2 (proj2
                (triangulate_position_at_time_spec minimize_at_guess
                   anchored_processor "device_01" 10)))) p Hp)
      as (_ & _ & _ & H1 & H2 & H3).
    auto.
Defined.

(** ** Position confidence with too few distances *)

Lemma errors_raise (q : R * R) (positions : list (R * R)) :
  forall (pre ds : list R),
    (length ds < length positions)%nat ->
    mapM (fun ip =>
            let predicted_distance := euclidean q (snd ip) in
            try! d := py_index (pre ++ ds) (fst ip) in
            Ok (Rabs (predicted_distance - d)))
         (combine (seq (length pre) (length positions)) positions)
    = Raise IndexError.
Proof.
  induction positions as [|p ps IH]; intros pre ds Hlen;
    [simpl in Hlen; lia|].
  cbn [length seq combine mapM fst snd].
  destruct ds as [|d ds].
  - unfold py_index at 1. rewrite app_nil_r.
    replace (nth_error pre (length pre)) with (@None R)
      by (symmetry; apply nth_error_None; lia).
    reflexivity.
  - unfold py_index at 1.
    rewrite nth_error_app2, Nat.sub_diag by lia. cbn [nth_error bind].
    specialize (IH (pre ++ [d]) ds).
    rewrite <- app_assoc, length_app, Nat.add_comm in IH.
    cbn [app length Nat.add] in IH.
    rewrite IH by (simpl in Hlen; lia). reflexivity.
Qed.

(** X14. [calculate_position_confidence] raises [IndexError] exactly when
    it is given fewer distances than positions; otherwise it returns a
    confidence between 0 and 1. *)
Theorem calculate_position_confidence_index (positions : list (R * R))
    (distances : list R) (q : R * R) :
  ((length distances < length positions)%nat ->
   calculate_position_confidence positions distances q = Raise IndexError) /\
  ((length positions <= length distances)%nat ->
   exists c,
     calculate_position_confidence positions distances q = Ok c /\
     0 <= c <= 1).
Proof.
  split; intros Hlen.
  - unfold calculate_position_confidence, enumerate.
    pose proof (errors_raise q positions [] distances Hlen) as E.
    cbn [app length] in E. rewrite E. reflexivity.
  - destruct (calculate_position_confidence positions distances q)
      as [c|e] eqn:Ec.
    + exists c. split; [reflexivity|].
      exact (calculate_position_confidence_range _ _ _ _ Ec).
    + exfalso. unfold calculate_position_confidence, enumerate in Ec.
      pose proof (errors_from q positions [] distances Hlen) as E.
      cbn [app length] in E. rewrite E in Ec. cbn [bind] in Ec.
      destruct (map _ _); discriminate.
Qed.

(** Two anchors with one distance raise; with two distances they do not. *)
Lemma calculate_position_confidence_index_witness :
  calculate_position_confidence [(0, 0); (3, 4)] [1] (0, 0)
  = Raise IndexError /\
  exists c,
    calculate_position_confidence [(0, 0); (3, 4)] [1; 5] (0, 0) = Ok c /\
    0 <= c <= 1.
Proof.
  split.
  - apply (proj1 (calculate_position_confidence_index
                    [(0, 0); (3, 4)] [1] (0, 0))).
    simpl. lia.
  - apply (proj2 (calculate_position_confidence_index
                    [(0, 0); (3, 4)] [1; 5] (0, 0))).
    simpl. lia.
Defined.

(** ** Ingest keeps the processor well formed *)

Lemma length_last_n {A} (k : nat) (l : list A) :
  length (last_n k l) = Nat.min k (length l).
Proof. unfold last_n. rewrite length_skipn. lia. Qed.

Lemma length_deque_append {A} (maxlen : nat) (d : list A) (x : A) :
  length (deque_append maxlen d x) = Nat.min maxlen (length d + 1).
Proof. unfold deque_append. rewrite length_last_n, length_app. reflexivity. Qed.

Lemma kalman_init_sane : kalman_sane (KalmanFilter_init 0.001 0.1).
Proof. unfold kalman_sane. cbn. lra. Qed.

Section Ingest.

Variable minimize : (R * R -> result R) -> R * R -> option (R * R).

(** What a successful ingest did, read off the three dictionaries as they
    stand after the initialisation step. *)
Lemma process_signal_measurement_done (self : AdvancedSignalProcessor)
    (now : R) (m : SignalMeasurement) :
  processor_ok self ->
  exists kalman kalman' y ewma history position,
    let id := device_id m in
    let smoothed :=
      {| device_id := id; rssi := y; timestamp := timestamp m;
         location := location m; frequency := frequency m;
         channel := channel m; snr := snr m |} in
    (kalman_filters self !! id = None ->
     kalman = KalmanFilter_init 0.001 0.1 /\
     ewma = ExponentialWeightedMovingAverage_init 0.3 /\ history = []) /\
    (is_Some (kalman_filters self !! id) ->
     kalman_filters self !! id = Some kalman /\
     ewma_filters self !! id = Some ewma /\
     signal_history self !! id = Some history) /\
    kalman_sane kalman /\ kalman_sane kalman' /\
    (length history <= history_size self)%nat /\
    KalmanFilter_update kalman (rssi m) = Ok (kalman', y) /\
    exists self' r,
      process_signal_measurement minimize self now m = Done (self', r) /\
      signal_history self' !! id
        = Some (deque_append (history_size self) history smoothed) /\
      kalman_filters self' !! id = Some kalman' /\
      ewma_filters self' !! id
        = Some (fst (ExponentialWeightedMovingAverage_update ewma (rssi m))) /\
      (forall other, other <> id ->
         signal_history self' !! other = signal_history self !! other /\
         kalman_filters self' !! other = kalman_filters self !! other /\
         ewma_filters self' !! other = ewma_filters self !! other) /\
      history_size self' = history_size self /\
      reference_points self' = reference_points self /\
      anomaly_regions self' = anomaly_regions self /\
      triangulate_position minimize
        {| signal_history := signal_history self';
           kalman_filters := kalman_filters self';
           ewma_filters := ewma_filters self';
           device_positions := device_positions self;
           anomaly_regions := anomaly_regions self;
           reference_points := reference_points self;
           history_size := history_size self;
           smoothing_window := smoothing_window self;
           triangulation_min_points := triangulation_min_points self;
           anomaly_threshold := anomaly_threshold self |} now id
        = Ok position /\
      device_positions self'
        = match position with
          | Some p => dict_set id p (device_positions self)
          | None => device_positions self
          end /\
      pm_device_id r = id /\
      original_rssi r = rssi m /\
      kalman_rssi r = y /\
      ewma_rssi r
        = snd (ExponentialWeightedMovingAverage_update ewma (rssi m)) /\
      smoothed_measurement r = smoothed /\
      pm_position r = position /\
      anomaly_score r
        = detect_signal_anomaly
            {| signal_history := signal_history self';
               kalman_filters := kalman_filters self';
               ewma_filters := ewma_filters self';
               device_positions := device_positions self;
               anomaly_regions := anomaly_regions self;
               reference_points := reference_points self;
               history_size := history_size self;
               smoothing_window := smoothing_window self;
               triangulation_min_points := triangulation_min_points self;
               anomaly_threshold := anomaly_threshold self |} id m /\
      signal_quality r = calculate_signal_quality self' id /\
      pm_timestamp r = timestamp m.
Proof.
  intros (Hsync & Hsane & Hlen).
  unfold process_signal_measurement.
  destruct (kalman_filters self !! device_id m) as [kalman|] eqn:Hk.
  - destruct (Hsync _ (ex_intro _ kalman Hk)) as [[ewma He] [history Hh]].
    cbn [fst snd]. rewrite Hk, He, Hh.
    pose proof (Hsane _ _ Hk) as Hs. pose proof Hs as (HQ & HR & HP).
    destruct (KalmanFilter_update_total kalman (rssi m) HQ HR HP)
      as (kalman' & y & E & EQ & ER & HP').
    rewrite E.
    exists kalman, kalman', y, ewma, history.
    match goal with
    | |- context [triangulate_position minimize ?st now ?i] =>
        destruct (triangulate_position_total minimize st now i)
          as [position Ep]
    end.
    exists position. cbv zeta.
    split; [intros; discriminate|].
    split; [auto|].
    split; [exact Hs|].
    split; [unfold kalman_sane; rewrite EQ, ER; auto|].
    split; [exact (Hlen _ _ Hh)|].
    split; [exact E|].
    rewrite Ep. eexists _, _. split; [reflexivity|].
    destruct position; cbn -[deque_append];
      rewrite ?lookup_insert_eq;
      (repeat split; try reflexivity; try exact Ep;
       intros; rewrite ?lookup_insert_ne by auto; auto).
  - cbn [fst snd]. rewrite !lookup_insert_eq.
    rewrite (KalmanFilter_update_first (KalmanFilter_init 0.001 0.1))
      by reflexivity.
    exists (KalmanFilter_init 0.001 0.1).
    exists {| process_variance := 0.001; measurement_variance := 0.1;
              estimate := Some (rssi m); error_estimate := 1 |}.
    exists (rssi m), (ExponentialWeightedMovingAverage_init 0.3), [].
    match goal with
    | |- context [triangulate_position minimize ?st now ?i] =>
        destruct (triangulate_position_total minimize st now i)
          as [position Ep]
    end.
    exists position. cbv zeta.
    split; [auto|].
    split; [intros [? ?]; discriminate|].
    split; [exact kalman_init_sane|].
    split; [unfold kalman_sane; cbn; lra|].
    split; [cbn; lia|].
    split; [reflexivity|].
    rewrite Ep. eexists _, _. split; [reflexivity|].
    destruct position; cbn -[deque_append];
      rewrite ?lookup_insert_eq;
      (repeat split; try reflexivity; try exact Ep;
       intros; rewrite ?lookup_insert_ne by auto; auto).
Qed.

End Ingest.

Lemma processor_ok_init : processor_ok AdvancedSignalProcessor_init.
Proof.
  unfold processor_ok, AdvancedSignalProcessor_init.
  cbn [kalman_filters ewma_filters signal_history history_size].
  split; [|split].
  - intros id [k Hk]. rewrite lookup_empty in Hk. discriminate.
  - intros id k Hk. rewrite lookup_empty in Hk. discriminate.
  - intros id h Hh. rewrite lookup_empty in Hh. discriminate.
Qed.

Section IngestProperties.

Variable minimize : (R * R -> result R) -> R * R -> option (R * R).

Lemma process_signal_measurement_ok (self : AdvancedSignalProcessor)
    (now : R) (m : SignalMeasurement) :
  processor_ok self ->
  exists self' r,
    process_signal_measurement minimize self now m = Done (self', r) /\
    processor_ok self' /\
    reference_points self' = reference_points self.
Proof.
  intros Hok.
  destruct (process_signal_measurement_done minimize self now m Hok)
    as (kalman & kalman' & y & ewma & history & position & H).
  cbv zeta in H.
  destruct H as (_ & _ & _ & Hs' & Hlen & _ & self' & r & E & Hh & Hk & He
                 & Hother & Hsize & Hrefs & _).
  exists self', r. split; [exact E|]. split; [|exact Hrefs].
  destruct Hok as (Hsync & Hsane & Hbound).
  split; [|split].
  - intros id H.
    destruct (String.eqb_spec id (device_id m)) as [->|Hne].
    + rewrite He, Hh. eauto.
    + destruct (Hother id Hne) as (Es & Ek & Ee). rewrite Ee, Es.
      rewrite Ek in H. apply (Hsync id H).
  - intros id k Hid.
    destruct (String.eqb_spec id (device_id m)) as [->|Hne].
    + rewrite Hk in Hid. injection Hid as <-. exact Hs'.
    + destruct (Hother id Hne) as (_ & Ek & _). rewrite Ek in Hid.
      exact (Hsane id k Hid).
  - intros id h Hid. rewrite Hsize.
    destruct (String.eqb_spec id (device_id m)) as [->|Hne].
    + rewrite Hh in Hid. injection Hid as <-.
      rewrite length_deque_append. lia.
    + destruct (Hother id Hne) as (Es & _ & _). rewrite Es in Hid.
      exact (Hbound id h Hid).
Qed.

(** X15. On a well-formed processor ingest never fails: every sequence of
    measurements is processed to the end, one result per measurement, and
    the processor stays well formed (filters, EWMA and history of a device
    exist together, no history exceeds the capacity). *)
Theorem ingest_never_fails (self : AdvancedSignalProcessor)
    (arrivals : list (R * SignalMeasurement)) :
  processor_ok self ->
  exists self' results,
    process_all minimize self arrivals = Done (self', results) /\
    processor_ok self' /\
    length results = length arrivals.
Proof.
  revert self. induction arrivals as [|[now m] rest IH]; intros self Hok.
  - exists self, []. auto.
  - destruct (process_signal_measurement_ok self now m Hok)
      as (self1 & r & E & Hok1 & _).
    destruct (IH self1 Hok1) as (self2 & rs & Er & Hok2 & Hlen).
    exists self2, (r :: rs). cbn [process_all]. rewrite E, Er.
    cbn [length]. auto.
Qed.

End IngestProperties.

(** A fresh processor takes two measurements. *)
Lemma ingest_never_fails_witness :
  exists self' results,
    process_all minimize_at_guess AdvancedSignalProcessor_init
      [(0, measurement_of "d" (-50)); (1, measurement_of "d" (-52))]
    = Done (self', results) /\
    processor_ok self' /\
    length results = 2%nat.
Proof.
  apply (ingest_never_fails minimize_at_guess AdvancedSignalProcessor_init
           [(0, measurement_of "d" (-50)); (1, measurement_of "d" (-52))]).
  exact processor_ok_init.
Defined.

Section IngestEffects.

Variable minimize : (R * R -> result R) -> R * R -> option (R * R).

(** X16. An ingest appends one entry to the history of the measured
    device, dropping the oldest one when the capacity is reached: the new
    length is the smaller of the capacity and the old length plus one.
    With a positive capacity the entry appended is the measurement with
    its RSSI replaced by the Kalman estimate that is also returned.  The
    histories of the other devices are left alone. *)
Theorem ingest_appends_smoothed (self self' : AdvancedSignalProcessor)
    (now : R) (m : SignalMeasurement) (r : ProcessedMeasurement) :
  processor_ok self ->
  process_signal_measurement minimize self now m = Done (self', r) ->
  let old :=
    match kalman_filters self !! device_id m with
    | Some _ => default [] (signal_history self !! device_id m)
    | None => []
    end in
  exists history,
    signal_history self' !! device_id m = Some history /\
    history = deque_append (history_size self) old (smoothed_measurement r) /\
    length history = Nat.min (history_size self) (length old + 1) /\
    ((0 < history_size self)%nat ->
     last history = Some (smoothed_measurement r)) /\
    rssi (smoothed_measurement r) = kalman_rssi r /\
    timestamp (smoothed_measurement r) = timestamp m /\
    (forall other, other <> device_id m ->
       signal_history self' !! other = signal_history self !! other).
Proof.
  intros Hok E.
  destruct (process_signal_measurement_done minimize self now m Hok)
    as (kalman & kalman' & y & ewma & history & position & H).
  cbv zeta in H.
  destruct H as (Hnew & Hold & _ & _ & _ & _ & self1 & r1 & E1 & Hh & _ & _
                 & Hother & _ & _ & _ & _ & _ & _ & _ & Hy & _ & Hsm & _).
  rewrite E1 in E. injection E as <- <-.
  assert (Eold : match kalman_filters self !! device_id m with
                 | Some _ => default [] (signal_history self !! device_id m)
                 | None => []
                 end = history).
  { destruct (kalman_filters self !! device_id m) eqn:Ek.
    - destruct (Hold (ex_intro _ _ eq_refl)) as (_ & _ & ->). reflexivity.
    - destruct (Hnew eq_refl) as (_ & _ & ->). reflexivity. }
  cbv zeta. rewrite Eold, Hsm, Hy.
  eexists. split; [exact Hh|]. split; [reflexivity|].
  split; [apply length_deque_append|].
  split; [|split; [reflexivity | split; [reflexivity|]]].
  - intros Hcap. unfold deque_append, last_n.
    rewrite length_app. cbn [length].
    replace (length history + 1 - history_size self)%nat
      with (length history - (history_size self - 1))%nat by lia.
    rewrite skipn_app.
    replace (length history - (history_size self - 1) - length history)%nat
      with 0%nat by lia.
    cbn [skipn]. apply last_snoc.
  - intros other Hne. apply (Hother other Hne).
Qed.

(** X17. The first measurement of a device passes the smoothers
    unchanged, scores no anomaly, yields no position and an all-zero
    signal quality, and leaves the stored positions as they were. *)
Theorem ingest_first_measurement (self self' : AdvancedSignalProcessor)
    (now : R) (m : SignalMeasurement) (r : ProcessedMeasurement) :
  processor_ok self ->
  kalman_filters self !! device_id m = None ->
  process_signal_measurement minimize self now m = Done (self', r) ->
  kalman_rssi r = rssi m /\
  ewma_rssi r = rssi m /\
  anomaly_score r = 0 /\
  pm_position r = None /\
  signal_quality r = no_signal_quality /\
  device_positions self' = device_positions self.
Proof.
  intros Hok Hfirst E.
  destruct (process_signal_measurement_done minimize self now m Hok)
    as (kalman & kalman' & y & ewma & history & position & H).
  cbv zeta in H.
  destruct H as (Hnew & _ & _ & _ & _ & Hup & self1 & r1 & E1 & Hh & _ & _
                 & _ & _ & _ & _ & Hpos & Hdp & _ & _ & Hy & He & _ & Hp
                 & Han & Hq & _).
  rewrite E1 in E. injection E as <- <-.
  destruct (Hnew Hfirst) as (-> & -> & ->).
  rewrite (KalmanFilter_update_first (KalmanFilter_init 0.001 0.1))
    in Hup by reflexivity.
  injection Hup as _ <-.
  assert (Hshort : (length (deque_append (history_size self) []
                              {| device_id := device_id m; rssi := rssi m;
                                 timestamp := timestamp m;
                                 location := location m;
                                 frequency := frequency m;
                                 channel := channel m; snr := snr m |})
                    <= 1)%nat).
  { rewrite length_deque_append. cbn [length]. lia. }
  assert (Enone : position = None).
  { erewrite triangulate_position_few_measurements in Hpos.
    - now injection Hpos.
    - cbn [signal_history]. exact Hh.
    - rewrite length_last_n. lia. }
  rewrite Enone in *. clear Enone.
  rewrite Hy, He, Hp, Han, Hq, Hdp.
  split; [reflexivity|]. split; [reflexivity|].
  split.
  { eapply detect_signal_anomaly_short.
    - cbn [signal_history]. exact Hh.
    - lia. }
  split; [reflexivity|]. split; [|reflexivity].
  unfold calculate_signal_quality. rewrite Hh.
  replace (_ <? 5)%nat with true by (symmetry; apply Nat.ltb_lt; lia).
  reflexivity.
Qed.

Lemma ingest_few_references (self : AdvancedSignalProcessor) (now : R)
    (m : SignalMeasurement) :
  processor_ok self ->
  (length (reference_points self) < 3)%nat ->
  exists self' r,
    process_signal_measurement minimize self now m = Done (self', r) /\
    processor_ok self' /\
    reference_points self' = reference_points self /\
    device_positions self' = device_positions self /\
    pm_position r = None.
Proof.
  intros Hok Hrefs.
  destruct (process_signal_measurement_ok minimize self now m Hok)
    as (self' & r & E & Hok' & Hr).
  exists self', r. split; [exact E|]. split; [exact Hok'|].
  split; [exact Hr|].
  destruct (process_signal_measurement_done minimize self now m Hok)
    as (kalman & kalman' & y & ewma & history & position & H).
  cbv zeta in H.
  destruct H as (_ & _ & _ & _ & _ & _ & self1 & r1 & E1 & _ & _ & _
                 & _ & _ & _ & _ & Hpos & Hdp & _ & _ & _ & _ & _ & Hp & _).
  rewrite E1 in E. injection E as <- <-.
  rewrite triangulate_position_few_references in Hpos by exact Hrefs.
  injection Hpos as <-. auto.
Qed.

(** X18. While fewer than three reference points are registered, no
    sequence of measurements yields a position: every result has none, and
    the stored positions stay as they were. *)
Theorem ingest_no_position_without_anchors (self : AdvancedSignalProcessor)
    (arrivals : list (R * SignalMeasurement)) :
  processor_ok self ->
  (length (reference_points self) < 3)%nat ->
  exists self' results,
    process_all minimize self arrivals = Done (self', results) /\
    Forall (fun r => pm_position r = None) results /\
    device_positions self' = device_positions self.
Proof.
  revert self.
  induction arrivals as [|[now m] rest IH]; intros self Hok Hrefs.
  - exists self, []. repeat split. constructor.
  - destruct (ingest_few_references self now m Hok Hrefs)
      as (self1 & r & E & Hok1 & Hr1 & Hdp1 & Hp).
    destruct (IH self1 Hok1) as (self2 & rs & Er & Hall & Hdp2);
      [rewrite Hr1; exact Hrefs|].
    exists self2, (r :: rs). cbn [process_all]. rewrite E, Er.
    split; [reflexivity|]. split; [now constructor|].
    now rewrite Hdp2.
Qed.

End IngestEffects.

(** The first measurement of a fresh processor is stored on its own. *)
Lemma ingest_appends_smoothed_witness :
  exists self' r history,
    signal_history self' !! "d"%string = Some history /\
    length history = 1%nat /\
    last history = Some (smoothed_measurement r) /\
    rssi (smoothed_measurement r) = kalman_rssi r.
Proof.
  destruct (process_signal_measurement_ok minimize_at_guess
              AdvancedSignalProcessor_init 0 (measurement_of "d" (-50))
              processor_ok_init) as (self' & r & E & _).
  destruct (ingest_appends_smoothed minimize_at_guess
              AdvancedSignalProcessor_init self' 0
              (measurement_of "d" (-50)) r processor_ok_init E)
    as (history & Hh & _ & Hlen & Hlast & Hr & _).
  exists self', r, history. split; [exact Hh|].
  split; [exact Hlen|]. split; [|exact Hr].
  apply Hlast. cbn. lia.
Defined.

(** The first measurement of a fresh processor. *)
Lemma ingest_first_measurement_witness :
  exists r,
    kalman_rssi r = -50 /\ ewma_rssi r = -50 /\ anomaly_score r = 0 /\
    pm_position r = None.
Proof.
  destruct (process_signal_measurement_ok minimize_at_guess
              AdvancedSignalProcessor_init 0 (measurement_of "d" (-50))
              processor_ok_init) as (self' & r & E & _).
  destruct (ingest_first_measurement minimize_at_guess
              AdvancedSignalProcessor_init self' 0
              (measurement_of "d" (-50)) r processor_ok_init
              (lookup_empty _) E)
    as (H1 & H2 & H3 & H4 & _).
  exists r. auto.
Defined.

(** A fresh processor has no reference point at all. *)
Lemma ingest_no_position_without_anchors_witness :
  exists self' results,
    process_all minimize_at_guess AdvancedSignalProcessor_init
      [(0, measurement_of "d" (-50)); (1, measurement_of "d" (-52))]
    = Done (self', results) /\
    Forall (fun r => pm_position r = None) results /\
    device_positions self' = [].
Proof.
  apply (ingest_no_position_without_anchors minimize_at_guess
           AdvancedSignalProcessor_init
           [(0, measurement_of "d" (-50)); (1, measurement_of "d" (-52))]
           processor_ok_init).
  cbn. lia.
Defined.

(** ** Shape of the anomaly regions *)

Lemma np_mean_range (lo hi : R) (l : list R) :
  l <> [] -> Forall (fun x => lo <= x <= hi) l -> lo <= np_mean l <= hi.
Proof.
  intros Hne Hl. unfold np_mean.
  assert (Hn : 0 < INR (length l)).
  { apply lt_0_INR. destruct l; [contradiction | simpl; lia]. }
  assert (Hsum : INR (length l) * lo <= sum_R l <= INR (length l) * hi).
  { clear Hne Hn. unfold sum_R.
    induction Hl as [|x l Hx _ IH]; cbn [fold_right length].
    - simpl. lra.
    - rewrite S_INR. lra. }
  assert (Hinv : 0 < / INR (length l)) by now apply Rinv_0_lt_compat.
  split.
  - apply (Rmult_le_reg_r (INR (length l))); [lra|].
    unfold Rdiv. rewrite Rmult_assoc, Rinv_l by lra. lra.
  - apply (Rmult_le_reg_r (INR (length l))); [lra|].
    unfold Rdiv. rewrite Rmult_assoc, Rinv_l by lra. lra.
Qed.

Lemma recent_anomaly_range (self : AdvancedSignalProcessor) (id : string) :
  0 <= recent_anomaly self id <= 1.
Proof.
  unfold recent_anomaly.
  destruct (signal_history self !! id) as [history|]; [|lra].
  destruct (5 <=? length history)%nat eqn:E; [|lra].
  apply Nat.leb_le in E.
  apply np_mean_range.
  - intros Hnil. apply (f_equal (@length R)) in Hnil.
    rewrite length_map, length_last_n in Hnil. cbn [length] in Hnil. lia.
  - apply List.Forall_forall. intros x Hx. apply in_map_iff in Hx.
    destruct Hx as (m & <- & _). apply detect_signal_anomaly_bounds.
Qed.

Lemma euclidean_sym (u v : R * R) : euclidean u v = euclidean v u.
Proof. unfold euclidean. f_equal. ring. Qed.

Lemma euclidean_nonneg (u v : R * R) : 0 <= euclidean u v.
Proof. apply sqrt_pos. Qed.

Lemma max_list_ge (x : R) (xs : list R) :
  x <= max_list x xs /\ Forall (fun y => y <= max_list x xs) xs.
Proof.
  unfold max_list. revert x. induction xs as [|y ys IH]; intros x.
  - split; [cbn; lra | constructor].
  - cbn [fold_left]. destruct (IH (Rmax x y)) as [H1 H2].
    pose proof (Rmax_l x y). pose proof (Rmax_r x y).
    split; [lra|]. constructor; [lra | exact H2].
Qed.

Lemma filter_combine_sublist {A B} (f : A * B -> bool) (l1 : list A) :
  forall l2 : list B, sublist (map fst (List.filter f (combine l1 l2))) l1.
Proof.
  induction l1 as [|a l1 IH]; intros l2; [constructor|].
  destruct l2 as [|b l2]; cbn [combine List.filter map].
  - apply sublist_nil_l.
  - destruct (f (a, b)); cbn [map fst].
    + apply sublist_skip, IH.
    + apply sublist_cons, IH.
Qed.

Lemma filter_length_sublist {A} (f : A -> bool) (l1 l2 : list A) :
  sublist l1 l2 ->
  (length (List.filter f l1) <= length (List.filter f l2))%nat.
Proof.
  induction 1 as [|x l1 l2 _ IH|x l1 l2 _ IH]; cbn [List.filter].
  - lia.
  - destruct (f x); cbn [length]; lia.
  - destruct (f x); cbn [length]; lia.
Qed.

Lemma filter_all {A} (f : A -> bool) (l : list A) :
  Forall (fun x => f x = true) l -> List.filter f l = l.
Proof.
  induction 1 as [|x l Hx _ IH]; cbn [List.filter]; [reflexivity|].
  now rewrite Hx, IH.
Qed.

Lemma filter_map_length {A B} (g : A -> B) (f : B -> bool) (l : list A) :
  length (List.filter (fun a => f (g a)) l) = length (List.filter f (map g l)).
Proof.
  induction l as [|a l IH]; cbn [map List.filter]; [reflexivity|].
  destruct (f (g a)); cbn [length]; now rewrite IH.
Qed.

Lemma region_of_cluster_shape (self : AdvancedSignalProcessor) (now : R)
    (scores : list R) (labels : list Z) (cluster_id : Z)
    (region : AnomalyRegion) :
  let positions :=
    map (fun item => coordinates (snd item)) (device_positions self) in
  let high :=
    map fst
      (List.filter (fun ps => if Rgt_dec (snd ps) 0.5 then true else false)
         (combine positions scores)) in
  In region
    (region_of_cluster self now positions
       (map (fun item => recent_anomaly self (fst item))
          (device_positions self))
       high labels cluster_id) ->
  0 <= radius region /\
  0 <= confidence region <= 1 /\
  (2 <= length (affected_devices region))%nat /\
  anomaly_type region = "signal_degradation"%string /\
  ar_timestamp region = now.
Proof.
  intros positions high Hin.
  pose proof (region_of_cluster_spec self now high labels cluster_id region
                Hin) as (_ & Hconf & Hmem).
  unfold region_of_cluster in Hin.
  destruct (cluster_id =? -1)%Z; [destruct Hin|].
  pose proof (filter_combine_sublist
                (fun pl : (R * R) * Z => (snd pl =? cluster_id)%Z)
                high labels) as Hsub1.
  pose proof (filter_combine_sublist
                (fun ps : (R * R) * R =>
                   if Rgt_dec (snd ps) 0.5 then true else false)
                positions scores) as Hsub2.
  fold high in Hsub2.
  destruct (map fst (List.filter _ (combine high labels)))
    as [|p0 [|p1 ps]] eqn:Ecl; [destruct Hin | destruct Hin |].
  assert (Hsub : sublist (p0 :: p1 :: ps) positions)
    by (etransitivity; eassumption).
  destruct Hin as [Hreg|[]].
  set (c := (np_mean (map fst (p0 :: p1 :: ps)),
             np_mean (map snd (p0 :: p1 :: ps)))) in *.
  set (M := max_list (euclidean c p0) (map (euclidean c) (p1 :: ps))) in *.
  assert (Hcenter : center region = c) by (now rewrite <- Hreg).
  assert (Hradius : radius region = M) by (now rewrite <- Hreg).
  destruct (max_list_ge (euclidean c p0) (map (euclidean c) (p1 :: ps)))
    as [HM0 HMs]. fold M in HM0, HMs.
  assert (Hin_cluster :
            Forall (fun p => within_region region p = true) (p0 :: p1 :: ps)).
  { apply List.Forall_forall. intros p Hp.
    apply within_region_true. rewrite Hcenter, Hradius, euclidean_sym.
    destruct Hp as [<-|Hp]; [exact HM0|].
    rewrite List.Forall_forall in HMs. apply HMs. now apply in_map. }
  assert (Hcount : (2 <= length (List.filter (within_region region)
                                   positions))%nat).
  { pose proof (filter_length_sublist (within_region region) _ _ Hsub) as H.
    rewrite (filter_all _ _ Hin_cluster) in H. cbn [length] in H. lia. }
  unfold positions in Hcount. rewrite <- filter_map_length in Hcount.
  split; [rewrite Hradius; pose proof (euclidean_nonneg c p0); lra|].
  split; [|split; [|rewrite <- Hreg; auto]].
  - rewrite Hconf. apply np_mean_range.
    + intros Hnil. apply (f_equal (@length R)) in Hnil.
      rewrite length_map in Hnil. cbn [length] in Hnil. lia.
    + apply List.Forall_forall. intros x Hx. apply in_map_iff in Hx.
      destruct Hx as (item & <- & _). apply recent_anomaly_range.
  - rewrite Hmem, length_map. exact Hcount.
Qed.

(** X19. Every region returned by [detect_anomaly_regions] has a
    non-negative radius, a confidence between 0 and 1, at least two
    affected devices, the type [signal_degradation] and the time of the
    call. *)
Theorem detect_anomaly_regions_shape (dbscan_labels : list (R * R) -> list Z)
    (self : AdvancedSignalProcessor) (now : R) (region : AnomalyRegion) :
  In region (snd (detect_anomaly_regions dbscan_labels self now)) ->
  0 <= radius region /\
  0 <= confidence region <= 1 /\
  (2 <= length (affected_devices region))%nat /\
  anomaly_type region = "signal_degradation"%string /\
  ar_timestamp region = now.
Proof.
  intros Hin. unfold detect_anomaly_regions in Hin.
  destruct (device_positions self) as [|item items] eqn:Hdp;
    [exact (False_ind _ Hin)|].
  rewrite <- Hdp in Hin.
  destruct (length _ <? 3)%nat; [exact (False_ind _ Hin)|].
  destruct (length _ <? 2)%nat; [exact (False_ind _ Hin)|].
  cbn [snd] in Hin. apply in_flat_map in Hin as (cluster_id & _ & Hin).
  exact (region_of_cluster_shape self now _ _ cluster_id region Hin).
Qed.

(** The hotspot of three devices. *)
Lemma detect_anomaly_regions_shape_witness :
  0 <= radius hotspot_region /\
  0 <= confidence hotspot_region <= 1 /\
  (2 <= length (affected_devices hotspot_region))%nat /\
  anomaly_type hotspot_region = "signal_degradation"%string /\
  ar_timestamp hotspot_region = 0.
Proof.
  apply (detect_anomaly_regions_shape one_cluster hotspot_processor 0).
  rewrite detect_anomaly_regions_hotspot. left. reflexivity.
Defined.

(** X20. With fewer than three positioned devices
    [detect_anomaly_regions] returns no region and leaves the processor
    untouched, regions of an earlier call included.  In every case it
    either does that or stores exactly the regions it returns, and it
    never touches histories, positions or reference points. *)
Theorem detect_anomaly_regions_state (dbscan_labels : list (R * R) -> list Z)
    (self : AdvancedSignalProcessor) (now : R) :
  let after := detect_anomaly_regions dbscan_labels self now in
  ((length (device_positions self) < 3)%nat ->
   after = (self, [])) /\
  (after = (self, []) \/ anomaly_regions (fst after) = snd after) /\
  signal_history (fst after) = signal_history self /\
  device_positions (fst after) = device_positions self /\
  reference_points (fst after) = reference_points self.
Proof.
  cbv zeta. unfold detect_anomaly_regions.
  destruct (device_positions self) as [|item items] eqn:Hdp.
  - repeat split; auto.
  - rewrite <- Hdp. rewrite length_map.
    destruct (length (device_positions self) <? 3)%nat eqn:E3.
    + repeat split; auto.
    + apply Nat.ltb_ge in E3.
      destruct (length _ <? 2)%nat.
      * split; [intros; lia|]. repeat split; auto.
      * split; [intros; lia|]. cbn [fst snd]. repeat split; auto.
Qed.

(** Two positioned devices leave an earlier region in place. *)
Lemma detect_anomaly_regions_state_witness :
  detect_anomaly_regions one_cluster sparse_processor 0
  = (sparse_processor, []) /\
  anomaly_regions sparse_processor = [hotspot_region].
Proof.
  split; [|reflexivity].
  apply (proj1 (detect_anomaly_regions_state one_cluster sparse_processor 0)).
  cbn. lia.
Defined.

(** ** Heatmap *)

Lemma linspace_length (start stop : R) (num : nat) :
  length (linspace start stop num) = num.
Proof.
  unfold linspace. destruct num as [|[|n]]; [reflexivity | reflexivity |].
  now rewrite length_map, length_seq.
Qed.

Lemma linspace_head (start stop : R) (num : nat) :
  (0 < num)%nat -> exists rest, linspace start stop num = start :: rest.
Proof.
  intros Hn. unfold linspace. destruct num as [|[|n]]; [lia | now exists [] |].
  cbn [seq map]. eexists. f_equal. cbn [INR]. ring.
Qed.

Lemma Rabs_bounds (x b : R) : Rabs x <= b <-> - b <= x <= b.
Proof. unfold Rabs. destruct (Rcase_abs x); lra. Qed.

(** The points of a line lie between its ends. *)
Lemma linspace_range (start stop L : R) (num : nat) (x : R) :
  Rabs start <= L -> Rabs stop <= L ->
  In x (linspace start stop num) -> Rabs x <= L.
Proof.
  intros Hs Ht Hx. unfold linspace in Hx.
  destruct num as [|[|n]]; [destruct Hx | destruct Hx as [<-|[]]; exact Hs |].
  apply in_map_iff in Hx as (i & <- & Hi). apply in_seq in Hi.
  replace (S (S n) - 1)%nat with (S n) by lia.
  assert (Hm : 0 < INR (S n)) by (apply lt_0_INR; lia).
  assert (Ht01 : 0 <= INR i / INR (S n) <= 1).
  { assert (Hi0 : 0 <= INR i) by apply pos_INR.
    assert (Hi1 : INR i <= INR (S n)) by (apply le_INR; lia).
    assert (Hinv : 0 < / INR (S n)) by now apply Rinv_0_lt_compat.
    split.
    - unfold Rdiv. apply Rmult_le_pos; lra.
    - apply (Rmult_le_reg_r (INR (S n))); [lra|].
      unfold Rdiv. rewrite Rmult_assoc, Rinv_l by lra. lra. }
  replace (start + INR i * ((stop - start) / INR (S n)))
    with (start + INR i / INR (S n) * (stop - start)) by (field; lra).
  set (t := INR i / INR (S n)) in *.
  apply Rabs_bounds in Hs, Ht. apply Rabs_bounds. split; nra.
Qed.

Lemma euclidean_sqr (u v : R * R) :
  euclidean u v ^ 2 = (fst u - fst v) ^ 2 + (snd u - snd v) ^ 2.
Proof.
  unfold euclidean. apply pow2_sqrt.
  apply Rplus_le_le_0_compat; apply pow2_ge_0.
Qed.

Lemma euclidean_self (p : R * R) : euclidean p p = 0.
Proof.
  unfold euclidean.
  replace ((fst p - fst p) ^ 2 + (snd p - snd p) ^ 2) with 0 by ring.
  apply sqrt_0.
Qed.

Lemma coordinate_limit_square : 8 * coordinate_limit ^ 2 <= float_max.
Proof.
  unfold coordinate_limit, float_max.
  rewrite pow_IZR, <- mult_IZR. apply IZR_le. vm_compute. discriminate.
Qed.

(** Inside the limit no squared distance leaves the floats. *)
Lemma euclidean_within_limit (u v : R * R) :
  within_limit u -> within_limit v -> euclidean u v ^ 2 <= float_max.
Proof.
  intros [Hu1 Hu2] [Hv1 Hv2]. rewrite euclidean_sqr.
  apply Rabs_bounds in Hu1, Hu2, Hv1, Hv2.
  pose proof coordinate_limit_square.
  assert (0 <= coordinate_limit) by lra.
  nra.
Qed.

Lemma idw_weight_ok (distance : R) :
  0 <= distance -> distance ^ 2 <= float_max ->
  exists w, idw_weight distance = Ok w /\ 0 < w.
Proof.
  intros H0 Hmax. unfold idw_weight.
  destruct (Rlt_dec distance 1) as [|H1]; [exists 1; split; [reflexivity | lra]|].
  assert (Hpow : Rpower distance 2 = distance ^ 2).
  { replace 2 with (INR 2) at 1 by (cbn [INR]; lra).
    apply Rpower_pow. lra. }
  unfold py_pow. cbv zeta. rewrite Hpow.
  destruct (Rgt_dec (distance ^ 2) float_max); [lra|].
  cbn [bind].
  assert (Hsq : 1 <= distance ^ 2) by nra.
  rewrite py_div_ok by lra.
  eexists. split; [reflexivity|].
  unfold Rdiv. rewrite Rmult_1_l. apply Rinv_0_lt_compat. lra.
Qed.

Lemma sum_R_pos (l : list R) :
  l <> [] -> Forall (fun w => 0 < w) l -> 0 < sum_R l.
Proof.
  intros Hne Hl. unfold sum_R.
  induction Hl as [|w l Hw Hl IH]; [contradiction|].
  cbn [fold_right]. destruct l as [|w' l'].
  - cbn. lra.
  - assert (0 < fold_right Rplus 0 (w' :: l')) by (apply IH; discriminate).
    lra.
Qed.

Lemma mapM_all {A B} (f : A -> result B) (P : B -> Prop) (l : list A) :
  (forall x, In x l -> exists y, f x = Ok y /\ P y) ->
  exists ys, mapM f l = Ok ys /\ length ys = length l /\ Forall P ys.
Proof.
  induction l as [|x l IH]; intros H.
  - exists []. repeat split. constructor.
  - destruct (H x (or_introl eq_refl)) as (y & Ey & Hy).
    destruct IH as (ys & Eys & Hlen & Hys);
      [intros x' Hx'; apply H; now right|].
    exists (y :: ys). cbn [mapM]. rewrite Ey, Eys. cbn [bind length].
    repeat split; [now rewrite Hlen | now constructor].
Qed.

Lemma cell_signal_ok (signal_points : list ((R * R) * R))
    (grid_point : R * R) :
  signal_points <> [] ->
  (forall sp, In sp signal_points ->
     euclidean grid_point (fst sp) ^ 2 <= float_max) ->
  exists a, cell_signal signal_points grid_point = Ok a.
Proof.
  intros Hne Hmax. unfold cell_signal.
  destruct (mapM_all
              (fun sp => idw_weight (euclidean grid_point (fst sp)))
              (fun w => 0 < w) signal_points) as (ws & E & Hlen & Hpos).
  { intros sp Hsp. apply idw_weight_ok;
      [apply euclidean_nonneg | now apply Hmax]. }
  rewrite E. cbn [bind]. cbv zeta.
  destruct ws as [|w ws].
  - destruct signal_points; [contradiction | discriminate Hlen].
  - unfold np_average. cbv zeta.
    pose proof (sum_R_pos (w :: ws) ltac:(discriminate) Hpos).
    destruct (Req_dec_T (sum_R (w :: ws)) 0); [lra|].
    eexists. reflexivity.
Qed.

(** Once a division has failed the loop is over. *)
Lemma cell_anomaly_raised (regions : list AnomalyRegion)
    (grid_point : R * R) :
  fold_left
    (fun acc region =>
       try! current := acc in
       let distance_to_center := euclidean grid_point (center region) in
       if Rle_dec distance_to_center (radius region) then
         try! ratio := py_div distance_to_center (radius region) in
         let anomaly_intensity := 1 - ratio in
         Ok (Rmax current (anomaly_intensity * confidence region))
       else Ok current)
    regions (Raise ZeroDivisionError)
  = Raise ZeroDivisionError.
Proof. induction regions as [|r regions IH]; [reflexivity | exact IH]. Qed.

Lemma cell_anomaly_ok (c : R) (regions : list AnomalyRegion)
    (grid_point : R * R) :
  0 <= c ->
  Forall (fun region => radius region <> 0) regions ->
  Forall (fun region => confidence region <= c) regions ->
  exists v, cell_anomaly regions grid_point = Ok v /\ 0 <= v <= c.
Proof.
  intros Hc Hrad Hconf. unfold cell_anomaly.
  match goal with |- context [fold_left ?f _ _] => set (step := f) end.
  assert (Hone : forall current region,
            0 <= current <= c -> radius region <> 0 ->
            confidence region <= c ->
            exists v, step (Ok current) region = Ok v /\ 0 <= v <= c).
  { intros current region Hcur Hnz Hle. unfold step. cbn [bind]. cbv zeta.
    pose proof (euclidean_nonneg grid_point (center region)) as Hd.
    destruct (Rle_dec _ (radius region)) as [Hin|]; [|now exists current].
    rewrite py_div_ok by exact Hnz. cbn [bind].
    eexists. split; [reflexivity|].
    assert (Hint : 0 <= 1 - euclidean grid_point (center region)
                            / radius region <= 1).
    { assert (Hinv : 0 < / radius region)
        by (apply Rinv_0_lt_compat; lra).
      assert (0 <= euclidean grid_point (center region) / radius region <= 1).
      { split.
        - unfold Rdiv. apply Rmult_le_pos; lra.
        - apply (Rmult_le_reg_r (radius region)); [lra|].
          unfold Rdiv. rewrite Rmult_assoc, Rinv_l by lra. lra. }
      lra. }
    set (k := 1 - _ / _) in *.
    assert (k * confidence region <= c) by nra.
    r_minmax. }
  assert (Hgen : forall current, 0 <= current <= c ->
            exists v, fold_left step regions (Ok current) = Ok v /\
                      0 <= v <= c).
  { clearbody step.
    induction regions as [|region regions IH]; intros current Hcur;
      cbn [fold_left]; [now exists current|].
    inversion Hrad as [|? ? Hnz Hrad']; inversion Hconf as [|? ? Hle Hconf'];
      subst.
    destruct (Hone current region Hcur Hnz Hle) as (v & -> & Hv).
    now apply IH. }
  apply Hgen. lra.
Qed.

(** A region of radius 0 stops the loop at its own centre. *)
Lemma cell_anomaly_zero_radius (regions : list AnomalyRegion)
    (region : AnomalyRegion) :
  In region regions -> radius region = 0 ->
  cell_anomaly regions (center region) = Raise ZeroDivisionError.
Proof.
  intros Hin Hzero. unfold cell_anomaly.
  assert (Hstart : Ok 0 = Raise ZeroDivisionError \/ exists v, Ok 0 = Ok v)
    by (right; now exists 0).
  revert Hstart. generalize (Ok 0) as acc.
  induction regions as [|r regions IH]; intros acc Hacc; [destruct Hin|].
  cbn [fold_left].
  destruct Hacc as [->|[current ->]].
  - cbn [bind]. apply cell_anomaly_raised.
  - cbn [bind]. cbv zeta. destruct Hin as [->|Hin].
    + rewrite euclidean_self, Hzero.
      destruct (Rle_dec 0 0); [|lra].
      unfold py_div. destruct (Req_dec_T 0 0); [|lra].
      cbn [bind]. apply cell_anomaly_raised.
    + apply (IH Hin).
      destruct (Rle_dec _ (radius r)); [|right; now eexists].
      unfold py_div. destruct (Req_dec_T (radius r) 0); cbn [bind];
        [now left | right; now eexists].
Qed.

Lemma grid_rows (n : nat) (x_line y_line : list R) (row : list (R * R)) :
  length x_line = n -> In row (meshgrid x_line y_line) -> length row = n.
Proof.
  intros Hx Hin. apply in_map_iff in Hin as (y & <- & _).
  now rewrite length_map.
Qed.

Lemma grid_points (x_line y_line : list R) (row : list (R * R)) (p : R * R) :
  In row (meshgrid x_line y_line) -> In p row ->
  In (fst p) x_line /\ In (snd p) y_line.
Proof.
  intros Hrow Hp. apply in_map_iff in Hrow as (y & <- & Hy).
  apply in_map_iff in Hp as (x & <- & Hx). now split.
Qed.

Lemma grid_of_map {A} (n : nat) (P : R -> Prop) (g : A -> R)
    (rows : list (list A)) :
  length rows = n ->
  (forall row, In row rows ->
     length row = n /\ forall p, In p row -> P (g p)) ->
  grid_of n n P (map (map g) rows).
Proof.
  intros Hn Hrows. unfold grid_of. split; [now rewrite length_map|].
  apply List.Forall_forall. intros row Hrow.
  apply in_map_iff in Hrow as (points & <- & Hpoints).
  destruct (Hrows points Hpoints) as [Hlen HP].
  split; [now rewrite length_map|].
  apply List.Forall_forall. intros v Hv.
  apply in_map_iff in Hv as (p & <- & Hp). now apply HP.
Qed.

Lemma grid_of_meshgrid (n : nat) (g : R * R -> R) (P : R -> Prop)
    (x_line y_line : list R) :
  length x_line = n -> length y_line = n ->
  (forall p, P (g p)) ->
  grid_of n n P (map (map g) (meshgrid x_line y_line)).
Proof.
  intros Hx Hy HP. apply grid_of_map.
  - unfold meshgrid. now rewrite length_map.
  - intros row Hrow. split; [now apply (grid_rows n x_line y_line)|].
    intros p _. apply HP.
Qed.

Lemma signal_points_with_regions (self : AdvancedSignalProcessor)
    (regions : list AnomalyRegion) :
  signal_points_of (with_regions self regions) = signal_points_of self.
Proof. reflexivity. Qed.

Lemma signal_points_hotspot :
  signal_points_of hotspot_processor
  = [((0, 0), np_mean (map rssi (last_n 5 (map (measurement_of "a")
                                              stepped_rssis))));
     ((6, 8), np_mean (map rssi (last_n 5 (map (measurement_of "b")
                                              stepped_rssis))));
     ((3, 4), np_mean (map rssi (last_n 5 (map (measurement_of "c")
                                              stepped_rssis))))].
Proof.
  unfold signal_points_of. rewrite device_positions_hotspot.
  cbn [flat_map fst].
  rewrite !hotspot_history by auto.
  unfold stepped_rssis at 1 3 5. cbn [repeat app map]. reflexivity.
Qed.

Lemma signal_points_sparse : signal_points_of sparse_processor = [].
Proof. reflexivity. Qed.

Lemma signal_points_within (self : AdvancedSignalProcessor)
    (sp : (R * R) * R) :
  Forall (fun item => within_limit (coordinates (snd item)))
    (device_positions self) ->
  In sp (signal_points_of self) -> within_limit (fst sp).
Proof.
  intros Hpos Hsp. unfold signal_points_of in Hsp.
  apply in_flat_map in Hsp as (item & Hitem & Hsp).
  rewrite List.Forall_forall in Hpos. specialize (Hpos item Hitem).
  destruct (signal_history self !! fst item) as [[|m history]|];
    [destruct Hsp | | destruct Hsp].
  destruct Hsp as [<-|[]]. exact Hpos.
Qed.

Lemma within_limit_room (p : R * R) :
  Rabs (fst p) <= 100 -> Rabs (snd p) <= 100 -> within_limit p.
Proof.
  assert (H : 100 <= coordinate_limit).
  { unfold coordinate_limit. apply IZR_le. vm_compute. discriminate. }
  intros H1 H2. split; lra.
Qed.

(** Every cell of a grid is computed when each of its points is. *)
Lemma mapM_grid {B} (f : R * R -> result B) (P : B -> Prop) (n : nat)
    (rows : list (list (R * R))) :
  (forall row, In row rows -> length row = n) ->
  (forall row p, In row rows -> In p row -> exists b, f p = Ok b /\ P b) ->
  exists cells,
    mapM (mapM f) rows = Ok cells /\
    length cells = length rows /\
    Forall (fun row => length row = n /\ Forall P row) cells.
Proof.
  intros Hlen Hf. apply mapM_all. intros row Hrow.
  destruct (mapM_all f P row) as (cs & E & Hl & HP);
    [intros p Hp; now apply (Hf row)|].
  exists cs. split; [exact E|]. split; [|exact HP].
  rewrite Hl. now apply Hlen.
Qed.

(** X21. The two edges of [generate_signal_heatmap].  With fewer than
    three positioned devices that have a history it returns, whatever
    regions are stored, the empty heatmap: coordinate grids of
    [grid_resolution] rows and columns, a signal grid and an overlay that
    are zero everywhere, and neither a region list nor a timestamp.  With
    three or more, a stored region of radius 0 centred on the first grid
    point, the corner (x_min, y_min) of the room, makes the call raise
    ZeroDivisionError: the overlay divides the distance 0 by the radius
    0.  (Room and positions are taken within the coordinate limit, so
    that the signal of that first cell is computed.) *)
Theorem generate_signal_heatmap_edges (self : AdvancedSignalProcessor)
    (now : R) (n : nat) (x_min y_min x_max y_max : R) :
  ((length (signal_points_of self) < 3)%nat ->
   exists h,
     generate_signal_heatmap self now n (x_min, y_min, x_max, y_max) = Ok h /\
     grid_of n n (fun _ => True) (x_grid h) /\
     grid_of n n (fun _ => True) (y_grid h) /\
     grid_of n n (fun v => v = 0) (signal_strength h) /\
     grid_of n n (fun v => v = 0) (anomaly_overlay h) /\
     hm_anomaly_regions h = None /\ hm_timestamp h = None) /\
  (forall region,
     (3 <= length (signal_points_of self))%nat ->
     (0 < n)%nat ->
     In region (anomaly_regions self) ->
     radius region = 0 ->
     center region = (x_min, y_min) ->
     within_limit (x_min, y_min) -> within_limit (x_max, y_max) ->
     Forall (fun item => within_limit (coordinates (snd item)))
       (device_positions self) ->
     generate_signal_heatmap self now n (x_min, y_min, x_max, y_max)
     = Raise ZeroDivisionError).
Proof.
  unfold generate_signal_heatmap. split.
  - intros Hlt.
    pose proof (linspace_length x_min x_max n) as Hx.
    pose proof (linspace_length y_min y_max n) as Hy.
    replace (length (signal_points_of self) <? 3)%nat with true
      by (symmetry; apply Nat.ltb_lt; exact Hlt).
    eexists. split; [reflexivity|].
    cbn [x_grid y_grid signal_strength anomaly_overlay hm_anomaly_regions
         hm_timestamp].
    do 4 (split; [apply grid_of_meshgrid; auto|]).
    split; reflexivity.
  - intros region H3 Hn Hin Hzero Hcenter Hcorner _ Hpos.
    replace (length (signal_points_of self) <? 3)%nat with false
      by (symmetry; apply Nat.ltb_ge; exact H3).
    destruct (linspace_head x_min x_max n Hn) as [xs ->].
    destruct (linspace_head y_min y_max n Hn) as [ys ->].
    unfold meshgrid. cbn [map mapM].
    assert (Hcell :
              heatmap_cell (signal_points_of self) (anomaly_regions self)
                (x_min, y_min) = Raise ZeroDivisionError).
    { unfold heatmap_cell.
      destruct (cell_signal_ok (signal_points_of self) (x_min, y_min))
        as [s ->].
      - destruct (signal_points_of self);
          [cbn [length] in H3; lia | discriminate].
      - intros sp Hsp. apply euclidean_within_limit; [exact Hcorner|].
        now apply (signal_points_within self).
      - cbn [bind]. rewrite <- Hcenter.
        now rewrite (cell_anomaly_zero_radius _ region Hin Hzero). }
    rewrite Hcell. reflexivity.
Qed.

(** Two positioned devices without history and a stored region; then the
    three devices of the hotspot with a region collapsed on the origin,
    the corner of the default room. *)
Lemma generate_signal_heatmap_edges_witness :
  (exists h,
     generate_signal_heatmap sparse_processor 0 4 (0, 0, 100, 100) = Ok h /\
     grid_of 4 4 (fun _ => True) (x_grid h) /\
     grid_of 4 4 (fun _ => True) (y_grid h) /\
     grid_of 4 4 (fun v => v = 0) (signal_strength h) /\
     grid_of 4 4 (fun v => v = 0) (anomaly_overlay h) /\
     hm_anomaly_regions h = None /\ hm_timestamp h = None) /\
  generate_signal_heatmap (with_regions hotspot_processor [collapsed_region])
    0 10 (0, 0, 100, 100)
  = Raise ZeroDivisionError.
Proof.
  split.
  - apply (proj1 (generate_signal_heatmap_edges sparse_processor
                    0 4 0 0 100 100)).
    rewrite signal_points_sparse. cbn [length]. lia.
  - apply (proj2 (generate_signal_heatmap_edges
                    (with_regions hotspot_processor [collapsed_region])
                    0 10 0 0 100 100) collapsed_region).
    + rewrite signal_points_with_regions, signal_points_hotspot.
      cbn [length]. lia.
    + lia.
    + now left.
    + reflexivity.
    + reflexivity.
    + apply within_limit_room; cbn [fst snd]; apply Rabs_bounds; lra.
    + apply within_limit_room; cbn [fst snd]; apply Rabs_bounds; lra.
    + cbn [device_positions with_regions].
      rewrite device_positions_hotspot.
      repeat (constructor;
              [apply within_limit_room; cbn; apply Rabs_bounds; lra|]).
      constructor.
Defined.

(** X22. With at least three signal points, no stored region of radius
    0, and room corners and device positions within 10^150 of the origin
    (so that no squared distance leaves the floats),
    [generate_signal_heatmap] returns: four grids of [grid_resolution]
    rows and columns, every cell of the overlay between 0 and any
    non-negative bound on the confidence of the stored regions, the stored
    regions in their order, and the time of the call. *)
Theorem generate_signal_heatmap_overlay (self : AdvancedSignalProcessor)
    (now : R) (n : nat) (x_min y_min x_max y_max c : R) :
  (3 <= length (signal_points_of self))%nat ->
  Forall (fun region => radius region <> 0) (anomaly_regions self) ->
  0 <= c ->
  Forall (fun region => confidence region <= c) (anomaly_regions self) ->
  within_limit (x_min, y_min) -> within_limit (x_max, y_max) ->
  Forall (fun item => within_limit (coordinates (snd item)))
    (device_positions self) ->
  exists h,
    generate_signal_heatmap self now n (x_min, y_min, x_max, y_max) = Ok h /\
    grid_of n n (fun _ => True) (x_grid h) /\
    grid_of n n (fun _ => True) (y_grid h) /\
    grid_of n n (fun _ => True) (signal_strength h) /\
    grid_of n n (fun v => 0 <= v <= c) (anomaly_overlay h) /\
    hm_anomaly_regions h = Some (map region_view (anomaly_regions self)) /\
    hm_timestamp h = Some now.
Proof.
  intros H3 Hrad Hc Hconf [Hx0 Hy0] [Hx1 Hy1] Hpos.
  cbn [fst snd] in Hx0, Hy0, Hx1, Hy1.
  unfold generate_signal_heatmap.
  pose proof (linspace_length x_min x_max n) as Hx.
  pose proof (linspace_length y_min y_max n) as Hy.
  replace (length (signal_points_of self) <? 3)%nat with false
    by (symmetry; apply Nat.ltb_ge; exact H3).
  destruct (mapM_grid
              (heatmap_cell (signal_points_of self) (anomaly_regions self))
              (fun cell => 0 <= snd cell <= c) n
              (meshgrid (linspace x_min x_max n) (linspace y_min y_max n)))
    as (cells & E & Hlen & Hcells).
  { intros row Hrow.
    now apply (grid_rows n (linspace x_min x_max n) (linspace y_min y_max n)). }
  { intros row p Hrow Hp.
    destruct (grid_points _ _ row p Hrow Hp) as [Hpx Hpy].
    assert (Hin : within_limit p).
    { split.
      - now apply (linspace_range x_min x_max _ n).
      - now apply (linspace_range y_min y_max _ n). }
    unfold heatmap_cell.
    destruct (cell_signal_ok (signal_points_of self) p) as [s Es].
    - destruct (signal_points_of self); [cbn [length] in H3; lia|discriminate].
    - intros sp Hsp. apply euclidean_within_limit; [exact Hin|].
      now apply (signal_points_within self).
    - destruct (cell_anomaly_ok c (anomaly_regions self) p Hc Hrad Hconf)
        as (a & Ea & Ha).
      rewrite Es, Ea. cbn [bind]. now exists (s, a). }
  rewrite E. cbn [bind]. eexists. split; [reflexivity|].
  cbn [x_grid y_grid signal_strength anomaly_overlay hm_anomaly_regions
       hm_timestamp].
  assert (Hn : length cells = n).
  { rewrite Hlen. unfold meshgrid. now rewrite length_map. }
  rewrite List.Forall_forall in Hcells.
  do 2 (split; [apply grid_of_meshgrid; auto|]).
  split; [|split; [|split; reflexivity]].
  - apply grid_of_map; [exact Hn|]. intros row Hrow.
    split; [apply (Hcells row Hrow) | auto].
  - apply grid_of_map; [exact Hn|]. intros row Hrow.
    destruct (Hcells row Hrow) as [Hl Hr]. split; [exact Hl|].
    rewrite List.Forall_forall in Hr. exact Hr.
Qed.

(** The three devices of the hotspot and the region found around them,
    on a 10 by 10 grid of the default room. *)
Lemma generate_signal_heatmap_overlay_witness :
  exists h,
    generate_signal_heatmap (with_regions hotspot_processor [hotspot_region])
      0 10 (0, 0, 100, 100) = Ok h /\
    grid_of 10 10 (fun _ => True) (x_grid h) /\
    grid_of 10 10 (fun _ => True) (y_grid h) /\
    grid_of 10 10 (fun _ => True) (signal_strength h) /\
    grid_of 10 10 (fun v => 0 <= v <= 1) (anomaly_overlay h) /\
    hm_anomaly_regions h = Some [region_view hotspot_region] /\
    hm_timestamp h = Some 0.
Proof.
  apply (generate_signal_heatmap_overlay
           (with_regions hotspot_processor [hotspot_region])
           0 10 0 0 100 100 1).
  - rewrite signal_points_with_regions, signal_points_hotspot.
    cbn [length]. lia.
  - constructor; [cbn [radius hotspot_region]; lra | constructor].
  - lra.
  - constructor; [cbn [confidence hotspot_region]; lra | constructor].
  - apply within_limit_room; cbn [fst snd]; apply Rabs_bounds; lra.
  - apply within_limit_room; cbn [fst snd]; apply Rabs_bounds; lra.
  - cbn [device_positions with_regions]. rewrite device_positions_hotspot.
    repeat (constructor;
            [apply within_limit_room; cbn; apply Rabs_bounds; lra|]).
    constructor.
Defined.

(** ** Trajectory *)

Lemma timedelta_hours_ok (h : Z) :
  (-999999999 <= h / 24 <= 999999999)%Z ->
  timedelta_hours h = Ok (IZR h * 3600).
Proof.
  intros Hh. unfold timedelta_hours.
  replace (h / 24 <? -999999999)%Z with false by (symmetry; lia).
  replace (999999999 <? h / 24)%Z with false by (symmetry; lia).
  reflexivity.
Qed.

Section Trajectory.

Variable minimize : (R * R -> result R) -> R * R -> option (R * R).
Variable self : AdvancedSignalProcessor.
Variable device_id : string.

Lemma trajectory_points (history : list SignalMeasurement) :
  exists trajectory,
    mapM (trajectory_point minimize self device_id) history = Ok trajectory /\
    map (fun point => (tp_timestamp point, tp_rssi point)) trajectory
    = map (fun m => (timestamp m, rssi m)) history /\
    Forall (fun point =>
              0 <= tp_confidence point <= 1 /\
              0 <= tp_anomaly_score point <= 1) trajectory.
Proof.
  induction history as [|m history (tr & E & Hmap & Hall)].
  - exists []. split; [reflexivity|]. split; [reflexivity | constructor].
  - cbn [mapM]. unfold trajectory_point at 1.
    destruct (triangulate_position_at_time_total minimize self device_id
                (timestamp m)) as [position Ep].
    rewrite Ep. cbn [bind]. rewrite E. cbn [bind].
    eexists. split; [reflexivity|].
    cbn [map tp_timestamp tp_rssi]. split; [now rewrite Hmap|].
    constructor; [|exact Hall].
    cbn [tp_confidence tp_anomaly_score].
    split; [|apply detect_signal_anomaly_bounds].
    destruct position as [p|]; [|lra].
    apply (triangulate_position_at_time_some minimize self device_id
             (timestamp m) p Ep).
Qed.

End Trajectory.

(** X23. For an unknown device [get_device_trajectory] returns the empty
    list.  For a known one, with the cutoff [now] minus the window: when
    the window is a valid [timedelta] and the cutoff a valid [datetime],
    it returns one entry per stored measurement newer than the cutoff, in
    stored order and with that measurement's time and RSSI, every
    position confidence and anomaly score between 0 and 1; when the
    window or the cutoff is out of range, it raises OverflowError. *)
Theorem get_device_trajectory_spec
    (minimize : (R * R -> result R) -> R * R -> option (R * R))
    (self : AdvancedSignalProcessor) (now : R) (device_id : string)
    (hours : Z) :
  (signal_history self !! device_id = None ->
   get_device_trajectory minimize self now device_id hours = Ok []) /\
  (forall stored,
     signal_history self !! device_id = Some stored ->
     let cutoff := now - IZR hours * 3600 in
     ((-999999999 <= hours / 24 <= 999999999)%Z ->
      0 <= cutoff < datetime_end ->
      exists trajectory,
        get_device_trajectory minimize self now device_id hours
        = Ok trajectory /\
        map (fun point => (tp_timestamp point, tp_rssi point)) trajectory
        = map (fun m => (timestamp m, rssi m))
            (List.filter (fun m => Rgtb (timestamp m) cutoff) stored) /\
        Forall (fun point =>
                  0 <= tp_confidence point <= 1 /\
                  0 <= tp_anomaly_score point <= 1) trajectory) /\
     ((hours / 24 < -999999999)%Z \/ (999999999 < hours / 24)%Z \/
      cutoff < 0 \/ datetime_end <= cutoff ->
      get_device_trajectory minimize self now device_id hours
      = Raise OverflowError)).
Proof.
  unfold get_device_trajectory. split.
  - intros ->. reflexivity.
  - intros stored ->. cbv zeta. split.
    + intros Hh Hc. rewrite timedelta_hours_ok by exact Hh. cbn [bind].
      unfold datetime_sub. cbv zeta.
      destruct (Rlt_dec _ 0); [lra|].
      destruct (Rge_dec _ datetime_end); [lra|]. cbn [bind].
      apply trajectory_points.
    + intros Hout.
      destruct (timedelta_hours hours) as [window|e] eqn:Ew; cbn [bind].
      * unfold timedelta_hours in Ew.
        destruct (_ || _)%bool eqn:Eb; [discriminate|].
        injection Ew as <-.
        apply orb_false_iff in Eb as [E1 E2].
        apply Z.ltb_ge in E1, E2.
        destruct Hout as [H | [H | H]]; [lia | lia |].
        unfold datetime_sub. cbv zeta.
        destruct (Rlt_dec _ 0); [reflexivity|].
        destruct (Rge_dec _ datetime_end); [reflexivity|]. lra.
      * unfold timedelta_hours in Ew.
        destruct (_ || _)%bool; [|discriminate]. now injection Ew as <-.
Qed.
